(** * Marketplace backend: catalogue, order lifecycle, earnings, payment webhook

    A shallow embedding of the Express route handlers of the repository
    (routes/orders.js, routes/products.js, routes/admin.js, routes/auth.js,
    routes/payments.js, middleware/auth.js) over the relational store declared
    in database/schema.sql and accessed through database/db.js.

    Conventions of the embedding.
    - A table is the list of its rows in rowid order, the order in which every
      handler inserts them (no handler deletes a row).
    - INTEGER columns are [Z]; REAL columns (price, total_amount, amount,
      earnings) are exact rationals [Q] with the source's order of operations;
      TEXT columns are [string], nullable ones [option string]; BOOLEAN
      columns are [bool]; DATETIME columns are [Z] (seconds).
    - A handler is a function of the request and of the store: it returns the
      response and the store it leaves.  Handlers run to completion one at a
      time: every SQL call of db.js is synchronous, and the only [await]s
      (bcrypt) sit in handlers that touch no table but [users].
    - A statement that throws leaves what earlier statements of the same
      handler wrote: db.js persists after every write and nothing rolls back. *)

From Stdlib Require Import ZArith QArith List String Ascii Bool Lia Lqa Sorted.
Import ListNotations.
Open Scope string_scope.
Open Scope list_scope.
Open Scope Z_scope.

(** ** Values of the schema *)

(** users.role: CHECK(role IN ('buyer', 'seller', 'superuser')). *)
Inductive role : Type := Buyer | Seller | Superuser.

(** orders.status: CHECK(status IN ('pending', 'processing', 'completed', 'cancelled')). *)
Inductive order_status : Type := Pending | Processing | Completed | Cancelled.

(** transactions.status: CHECK(status IN ('pending', 'verified', 'failed')). *)
Inductive transaction_status : Type := TxPending | TxVerified | TxFailed.

Definition role_eqb (a b : role) : bool :=
  match a, b with
  | Buyer, Buyer | Seller, Seller | Superuser, Superuser => true
  | _, _ => false
  end.

Definition order_status_eqb (a b : order_status) : bool :=
  match a, b with
  | Pending, Pending | Processing, Processing
  | Completed, Completed | Cancelled, Cancelled => true
  | _, _ => false
  end.

(** The text of a status, as the request body carries it. *)
Definition order_status_of_string (s : string) : option order_status :=
  if (s =? "pending")%string then Some Pending
  else if (s =? "processing")%string then Some Processing
  else if (s =? "completed")%string then Some Completed
  else if (s =? "cancelled")%string then Some Cancelled
  else None.

(** ** Rows (database/schema.sql) *)

Module User.
Record t : Type := mk {
  id : Z;
  email : string;
  username : option string;
  password : string;
  role : role;
  binance_wallet : option string;
  earnings : Q;
  created_at : Z;
  updated_at : Z;
  is_active : bool
}.
End User.

Module Category.
Record t : Type := mk {
  id : Z;
  name : string;
  description : option string;
  created_at : Z
}.
End Category.

Module Product.
Record t : Type := mk {
  id : Z;
  name : string;
  description : option string;
  price : Q;
  stock : Z;
  category_id : Z;
  image_url : option string;
  is_active : bool;
  created_at : Z;
  updated_at : Z
}.
End Product.

Module Order.
Record t : Type := mk {
  id : Z;
  buyer_id : Z;
  seller_id : option Z;
  status : order_status;
  total_amount : Q;
  contact_name : option string;
  contact_email : option string;
  contact_phone : option string;
  contact_info : option string;
  payment_proof : option string;
  binance_txid : option string;
  created_at : Z;
  updated_at : Z
}.
End Order.

Module OrderItem.
Record t : Type := mk {
  id : Z;
  order_id : Z;
  product_id : Z;
  quantity : Z;
  price : Q
}.
End OrderItem.

Module Transaction.
Record t : Type := mk {
  id : Z;
  order_id : Z;
  user_id : Z;
  amount : Q;
  binance_txid : option string;
  payment_proof_url : option string;
  status : transaction_status;
  created_at : Z
}.
End Transaction.

Module SellerEarning.
Record t : Type := mk {
  id : Z;
  seller_id : Z;
  order_id : Z;
  amount : Q;
  created_at : Z
}.
End SellerEarning.

(** ** The store *)

Inductive table : Type :=
  T_users | T_categories | T_products | T_orders | T_order_items
| T_transactions | T_seller_earnings.

Definition table_eqb (a b : table) : bool :=
  match a, b with
  | T_users, T_users | T_categories, T_categories | T_products, T_products
  | T_orders, T_orders | T_order_items, T_order_items
  | T_transactions, T_transactions
  | T_seller_earnings, T_seller_earnings => true
  | _, _ => false
  end.

(** [sqlite_sequence] is SQLite's bookkeeping for AUTOINCREMENT keys: the
    largest rowid ever handed out in each table. *)
Record db : Type := mkDb {
  users : list User.t;
  categories : list Category.t;
  products : list Product.t;
  orders : list Order.t;
  order_items : list OrderItem.t;
  transactions : list Transaction.t;
  seller_earnings : list SellerEarning.t;
  sqlite_sequence : table -> Z
}.

Definition set_users (f : list User.t -> list User.t) (d : db) : db :=
  mkDb (f (users d)) (categories d) (products d) (orders d) (order_items d)
       (transactions d) (seller_earnings d) (sqlite_sequence d).

Definition set_products (f : list Product.t -> list Product.t) (d : db) : db :=
  mkDb (users d) (categories d) (f (products d)) (orders d) (order_items d)
       (transactions d) (seller_earnings d) (sqlite_sequence d).

Definition set_orders (f : list Order.t -> list Order.t) (d : db) : db :=
  mkDb (users d) (categories d) (products d) (f (orders d)) (order_items d)
       (transactions d) (seller_earnings d) (sqlite_sequence d).

Definition set_order_items (f : list OrderItem.t -> list OrderItem.t) (d : db) : db :=
  mkDb (users d) (categories d) (products d) (orders d) (f (order_items d))
       (transactions d) (seller_earnings d) (sqlite_sequence d).

Definition set_transactions (f : list Transaction.t -> list Transaction.t) (d : db) : db :=
  mkDb (users d) (categories d) (products d) (orders d) (order_items d)
       (f (transactions d)) (seller_earnings d) (sqlite_sequence d).

Definition set_seller_earnings (f : list SellerEarning.t -> list SellerEarning.t) (d : db) : db :=
  mkDb (users d) (categories d) (products d) (orders d) (order_items d)
       (transactions d) (f (seller_earnings d)) (sqlite_sequence d).

Definition set_sequence (t : table) (n : Z) (d : db) : db :=
  mkDb (users d) (categories d) (products d) (orders d) (order_items d)
       (transactions d) (seller_earnings d)
       (fun t' => if table_eqb t t' then n else sqlite_sequence d t').

(** The rowid an INSERT into an AUTOINCREMENT table gets: one more than the
    largest rowid the table holds or has ever held. *)
Definition max_rowid (ids : list Z) : Z := fold_right Z.max 0 ids.

Definition next_rowid (t : table) (ids : list Z) (d : db) : Z :=
  Z.max (max_rowid ids) (sqlite_sequence d t) + 1.

(** ** Statements that throw, and the handlers' try/catch

    [M A] is a computation over the store that returns an [A] or throws; in
    both cases the store it leaves is the one reached so far. *)

Inductive outcome (A : Type) : Type :=
| Return (a : A)
| Throw (error : string).
Arguments Return {A} a.
Arguments Throw {A} error.

Definition M (A : Type) : Type := db -> outcome A * db.

Definition ret {A : Type} (a : A) : M A := fun d => (Return a, d).

Definition throw {A : Type} (error : string) : M A := fun d => (Throw error, d).

Definition bind {A B : Type} (m : M A) (k : A -> M B) : M B :=
  fun d =>
    match m d with
    | (Return a, d') => k a d'
    | (Throw e, d') => (Throw e, d')
    end.

Definition select {A : Type} (q : db -> A) : M A := fun d => (Return (q d), d).

Definition write (f : db -> db) : M unit := fun d => (Return tt, f d).

Notation "x <- m ;; k" := (bind m (fun x => k))
  (at level 61, m at next level, right associativity).
Notation "m ;;; k" := (bind m (fun _ => k))
  (at level 61, right associativity).

(** [for (const x of xs) { body x }] *)
Fixpoint for_of {A : Type} (xs : list A) (body : A -> M unit) : M unit :=
  match xs with
  | [] => ret tt
  | x :: rest => body x ;;; for_of rest body
  end.

(** ** JavaScript truthiness of request fields

    A text field of a JSON body is [None] when absent; it is falsy when absent
    or empty.  A numeric field is falsy when absent or zero. *)

Definition truthy_text (s : option string) : bool :=
  match s with
  | Some s => negb (s =? "")%string
  | None => false
  end.

Definition truthy_int (n : option Z) : bool :=
  match n with
  | Some n => negb (n =? 0)
  | None => false
  end.

Definition truthy_real (q : option Q) : bool :=
  match q with
  | Some q => negb (Qeq_bool q 0)
  | None => false
  end.

(** [a || b] *)
Definition or_else {A : Type} (truthy : option A -> bool) (a b : option A) : option A :=
  if truthy a then a else b.

(** ** Responses *)

Record order_item_view : Type := mkItemView {
  item : OrderItem.t;
  product_name : string
}.

Record order_view : Type := mkOrderView {
  order : Order.t;
  buyer_email : string;
  seller_email : option string;
  items : list order_item_view
}.

Record product_view : Type := mkProductView {
  product : Product.t;
  category_name : string
}.

Inductive body : Type :=
| JsonMessage (message : string)
| JsonError (error : string)
| JsonOrderCreated (message : string) (order_id : Z) (total_amount : Q)
| JsonOrders (orders : list order_view)
| JsonOrder (order : order_view)
| JsonProducts (products : list product_view)
| JsonProduct (product : product_view)
| JsonProductCreated (message : string) (id : Z)
| JsonSeller (message : string) (id : Z) (email : string)
| JsonEarnings (message : string) (new_earnings : Q)
| JsonUser (message : string) (id : Z) (email : string) (role : role)
| JsonPayment (message : string) (prepayId : string)
| JsonTransaction (transaction : Transaction.t)
| JsonWebhook (returnCode : string) (returnMessage : option string).

Record response : Type := mkResponse {
  status : Z;
  json : body
}.

(** [res.status(c).json({ error })] *)
Definition res_error (c : Z) (error : string) : response := mkResponse c (JsonError error).

(** [res.json(b)]: status 200. *)
Definition res_json (b : body) : response := mkResponse 200 b.

(** [try { ... } catch (error) { res.status(500).json(onError) }] *)
Definition try_catch (m : M response) (onError : string -> response) (d : db) : response * db :=
  match m d with
  | (Return r, d') => (r, d')
  | (Throw e, d') => (onError e, d')
  end.

(** A body field that is bound to a statement as it comes: [stmt.bind] of
    sql.js throws on [undefined] (an absent field), binds NULL for [null]. *)
Inductive field (A : Type) : Type :=
| Undefined
| Null
| Value (a : A).
Arguments Undefined {A}.
Arguments Null {A}.
Arguments Value {A} a.

Definition bind_param {A : Type} (x : field A) : M (option A) :=
  match x with
  | Undefined => throw "Wrong API use : tried to bind a value of an unknown type (undefined)."
  | Null => ret None
  | Value a => ret (Some a)
  end.

(** Template literals print numbers in decimal. *)
Definition digit_of (n : Z) : ascii := ascii_of_nat (48 + Z.to_nat n).

Fixpoint decimal_digits (fuel : nat) (n : Z) (acc : string) : string :=
  match fuel with
  | O => acc
  | S fuel' =>
      let acc' := String (digit_of (n mod 10)) acc in
      if n / 10 =? 0 then acc' else decimal_digits fuel' (n / 10) acc'
  end.

Definition string_of_Z (n : Z) : string :=
  if n <? 0 then String "-"%char (decimal_digits (Z.to_nat (Z.log2 (- n)) + 1) (- n) "")
  else decimal_digits (Z.to_nat (Z.log2 n) + 1) n "".

(** ** middleware/auth.js *)

(** What [authenticateToken] sees of the request: no bearer token, a token
    that [jwt.verify] refuses, or a verified token and the [userId] it
    carries. *)
Inductive authorization : Type :=
| NoToken
| InvalidToken
| Bearer (userId : Z).

Module ReqUser.
Record t : Type := mk {
  id : Z;
  email : string;
  role : role;
  earnings : Q
}.
End ReqUser.

(** SELECT id, email, role, earnings FROM users WHERE id = ? AND is_active = 1 *)
Definition select_active_user (userId : Z) (d : db) : option ReqUser.t :=
  match find (fun u => (User.id u =? userId) && User.is_active u) (users d) with
  | Some u => Some (ReqUser.mk (User.id u) (User.email u) (User.role u) (User.earnings u))
  | None => None
  end.

Definition authenticateToken (a : authorization) (d : db) : response + ReqUser.t :=
  match a with
  | NoToken => inl (res_error 401 "Acceso denegado. Token no proporcionado.")
  | InvalidToken => inl (res_error 403 "Token inválido o expirado.")
  | Bearer userId =>
      match select_active_user userId d with
      | None => inl (res_error 401 "Usuario no encontrado o inactivo.")
      | Some user => inr user
      end
  end.

Definition requireRole (allowedRoles : list role) (user : ReqUser.t) : option response :=
  if existsb (role_eqb (ReqUser.role user)) allowedRoles then None
  else Some (res_error 403 "No tienes permisos para realizar esta acción.").

Definition requireSuperuser : ReqUser.t -> option response := requireRole [Superuser].

(** [router.verb(path, authenticateToken, requireRole(...), handler)] *)
Definition with_role (a : authorization) (allowedRoles : list role)
    (handler : ReqUser.t -> db -> response * db) (d : db) : response * db :=
  match authenticateToken a d with
  | inl r => (r, d)
  | inr user =>
      match requireRole allowedRoles user with
      | Some r => (r, d)
      | None => handler user d
      end
  end.

(** [router.verb(path, authenticateToken, handler)] *)
Definition with_user (a : authorization)
    (handler : ReqUser.t -> db -> response * db) (d : db) : response * db :=
  match authenticateToken a d with
  | inl r => (r, d)
  | inr user => handler user d
  end.

(** ** routes/orders.js *)

(** SELECT price, stock FROM products WHERE id = ? AND is_active = 1 *)
Definition select_active_product (id : Z) (d : db) : option Product.t :=
  find (fun p => (Product.id p =? id) && Product.is_active p) (products d).

(** SELECT price FROM products WHERE id = ? *)
Definition select_product (id : Z) (d : db) : option Product.t :=
  find (fun p => Product.id p =? id) (products d).

(** SELECT * FROM orders WHERE id = ? *)
Definition select_order (id : Z) (d : db) : option Order.t :=
  find (fun o => Order.id o =? id) (orders d).

(** SELECT * FROM orders WHERE id = ? AND buyer_id = ? *)
Definition select_order_of_buyer (id buyer_id : Z) (d : db) : option Order.t :=
  find (fun o => (Order.id o =? id) && (Order.buyer_id o =? buyer_id)) (orders d).

(** INSERT INTO orders (buyer_id, status, total_amount, contact_name,
    contact_email, contact_phone, contact_info) VALUES (?, 'pending', ?, ?, ?, ?, ?);
    the other columns take their defaults.  Returns last_insert_rowid(). *)
Definition insert_order (now buyer_id : Z) (total_amount : Q)
    (contact_name contact_email contact_phone contact_info : option string) : M Z :=
  fun d =>
    let id := next_rowid T_orders (map Order.id (orders d)) d in
    let row := Order.mk id buyer_id None Pending total_amount contact_name
                 contact_email contact_phone contact_info None None now now in
    (Return id, set_sequence T_orders id (set_orders (fun rows => rows ++ [row]) d)).

(** INSERT INTO order_items (order_id, product_id, quantity, price) VALUES (?, ?, ?, ?) *)
Definition insert_order_item (order_id product_id quantity : Z) (price : Q) : M Z :=
  fun d =>
    let id := next_rowid T_order_items (map OrderItem.id (order_items d)) d in
    let row := OrderItem.mk id order_id product_id quantity price in
    (Return id, set_sequence T_order_items id (set_order_items (fun rows => rows ++ [row]) d)).

Definition Product_with_stock (stock : Z) (p : Product.t) : Product.t :=
  Product.mk (Product.id p) (Product.name p) (Product.description p) (Product.price p)
    stock (Product.category_id p) (Product.image_url p) (Product.is_active p)
    (Product.created_at p) (Product.updated_at p).

(** UPDATE products SET stock = stock - ? WHERE id = ? *)
Definition update_product_stock (quantity id : Z) : db -> db :=
  set_products (map (fun p =>
    if Product.id p =? id then Product_with_stock (Product.stock p - quantity) p else p)).

Module CreateOrder.
(** One entry of [items]. *)
Record line : Type := mkLine {
  product_id : Z;
  quantity : Z
}.

Record body : Type := mkBody {
  items : list line;
  contact_name : option string;
  contact_email : option string;
  contact_phone : option string;
  contact_info : option string
}.

(** The first loop: "Calculate total and verify stock".  It only reads; it
    ends the request with a 400 at the first item that fails. *)
Fixpoint verify_stock (d : db) (items : list line) (total : Q) : response + Q :=
  match items with
  | [] => inr total
  | item :: rest =>
      match select_active_product (product_id item) d with
      | None =>
          inl (res_error 400 (String.append "Producto "
                 (String.append (string_of_Z (product_id item)) " no encontrado.")))
      | Some product =>
          if Product.stock product <? quantity item then
            inl (res_error 400 (String.append "Stock insuficiente para producto "
                   (String.append (string_of_Z (product_id item)) ".")))
          else
            verify_stock d rest (total + Product.price product * inject_Z (quantity item))%Q
      end
  end.

(** The body of the second loop: "Add order items and update stock". *)
Definition add_item (orderId : Z) (item : line) : M unit :=
  product <- select (select_product (product_id item)) ;;
  match product with
  | None => throw "TypeError: Cannot read properties of null (reading 'price')"
  | Some product =>
      insert_order_item orderId (product_id item) (quantity item) (Product.price product) ;;;
      write (update_product_stock (quantity item) (product_id item))
  end.

(** router.post('/', authenticateToken, requireRole('buyer'), ...) *)
Definition handler (now : Z) (a : authorization) (b : body) : db -> response * db :=
  with_role a [Buyer] (fun user =>
    try_catch
      (match items b with
       | [] => ret (res_error 400 "Debes agregar al menos un producto.")
       | _ :: _ =>
           if negb (truthy_text (contact_name b) && truthy_text (contact_email b)) then
             ret (res_error 400 "Nombre y email de contacto son requeridos.")
           else
             checked <- select (fun d => verify_stock d (items b) 0%Q) ;;
             match checked with
             | inl r => ret r
             | inr total =>
                 orderId <- insert_order now (ReqUser.id user) total
                              (contact_name b) (contact_email b)
                              (or_else truthy_text (contact_phone b) None)
                              (or_else truthy_text (contact_info b) None) ;;
                 for_of (items b) (add_item orderId) ;;;
                 ret (mkResponse 201
                        (JsonOrderCreated
                           "Orden creada exitosamente. Por favor realiza el pago."
                           orderId total))
             end
       end)
      (fun _ => res_error 500 "Error al crear orden.")).
End CreateOrder.

(** ORDER BY key DESC.  Rows with equal keys stay in table order (SQLite
    leaves their order open). *)
Fixpoint insert_desc {A : Type} (key : A -> Z) (x : A) (l : list A) : list A :=
  match l with
  | [] => [x]
  | y :: l' => if key y <=? key x then x :: l else y :: insert_desc key x l'
  end.

Definition order_by_desc {A : Type} (key : A -> Z) (l : list A) : list A :=
  fold_right (insert_desc key) [] l.

(** SELECT oi.*, p.name as product_name FROM order_items oi
    JOIN products p ON oi.product_id = p.id WHERE oi.order_id = ? *)
Definition select_order_items (order_id : Z) (d : db) : list order_item_view :=
  flat_map
    (fun oi =>
       map (fun p => mkItemView oi (Product.name p))
           (filter (fun p => Product.id p =? OrderItem.product_id oi) (products d)))
    (filter (fun oi => OrderItem.order_id oi =? order_id) (order_items d)).

Definition int_eqb_opt (a : option Z) (b : Z) : bool :=
  match a with
  | Some a => a =? b
  | None => false
  end.

(** The WHERE clause GET /orders builds from the role of the caller. *)
Definition visible_in_list (user : ReqUser.t) (o : Order.t) : bool :=
  match ReqUser.role user with
  | Buyer => Order.buyer_id o =? ReqUser.id user
  | Seller => int_eqb_opt (Order.seller_id o) (ReqUser.id user)
              || order_status_eqb (Order.status o) Pending
  | Superuser => true
  end.

(** SELECT o.*, u.email as buyer_email FROM orders o JOIN users u ON
    o.buyer_id = u.id [WHERE ...] ORDER BY o.created_at DESC, before the items
    are attached. *)
Definition select_orders (user : ReqUser.t) (d : db) : list (Order.t * string) :=
  order_by_desc (fun r => Order.created_at (fst r))
    (flat_map
       (fun o =>
          map (fun u => (o, User.email u))
              (filter (fun u => User.id u =? Order.buyer_id o) (users d)))
       (filter (visible_in_list user) (orders d))).

Module ListOrders.
(** router.get('/', authenticateToken, ...) *)
Definition handler (a : authorization) : db -> response * db :=
  with_user a (fun user d =>
    (res_json (JsonOrders
       (map (fun r => mkOrderView (fst r) (snd r) None
                        (select_order_items (Order.id (fst r)) d))
            (select_orders user d))), d)).
End ListOrders.

(** SELECT o.*, u.email as buyer_email, s.email as seller_email FROM orders o
    JOIN users u ON o.buyer_id = u.id LEFT JOIN users s ON o.seller_id = s.id
    WHERE o.id = ? (first row) *)
Definition select_order_with_emails (id : Z) (d : db) : option (Order.t * string * option string) :=
  hd_error
    (flat_map
       (fun o =>
          flat_map
            (fun u =>
               match filter (fun s => int_eqb_opt (Order.seller_id o) (User.id s)) (users d) with
               | [] => [(o, User.email u, None)]
               | sellers => map (fun s => (o, User.email u, Some (User.email s))) sellers
               end)
            (filter (fun u => User.id u =? Order.buyer_id o) (users d)))
       (filter (fun o => Order.id o =? id) (orders d))).

Module GetOrder.
(** The two permission tests of GET /orders/:id. *)
Definition forbidden (user : ReqUser.t) (o : Order.t) : bool :=
  match ReqUser.role user with
  | Buyer => negb (Order.buyer_id o =? ReqUser.id user)
  | Seller =>
      if negb (int_eqb_opt (Order.seller_id o) (ReqUser.id user))
         && order_status_eqb (Order.status o) Pending
      then false
      else negb (int_eqb_opt (Order.seller_id o) (ReqUser.id user))
  | Superuser => false
  end.

(** router.get('/:id', authenticateToken, ...) *)
Definition handler (a : authorization) (id : Z) : db -> response * db :=
  with_user a (fun user d =>
    match select_order_with_emails id d with
    | None => (res_error 404 "Orden no encontrada.", d)
    | Some (o, buyer, seller) =>
        if forbidden user o then
          (res_error 403 "No tienes permiso para ver esta orden.", d)
        else
          (res_json (JsonOrder
             (mkOrderView o buyer seller (select_order_items (Order.id o) d))), d)
    end).
End GetOrder.

Definition Order_with_status (status : order_status) (updated_at : Z) (o : Order.t) : Order.t :=
  Order.mk (Order.id o) (Order.buyer_id o) (Order.seller_id o) status
    (Order.total_amount o) (Order.contact_name o) (Order.contact_email o)
    (Order.contact_phone o) (Order.contact_info o) (Order.payment_proof o)
    (Order.binance_txid o) (Order.created_at o) updated_at.

Definition Order_with_status_seller (status : order_status) (seller_id : option Z)
    (updated_at : Z) (o : Order.t) : Order.t :=
  Order.mk (Order.id o) (Order.buyer_id o) seller_id status
    (Order.total_amount o) (Order.contact_name o) (Order.contact_email o)
    (Order.contact_phone o) (Order.contact_info o) (Order.payment_proof o)
    (Order.binance_txid o) (Order.created_at o) updated_at.

Definition Order_with_proof (payment_proof binance_txid : option string)
    (updated_at : Z) (o : Order.t) : Order.t :=
  Order.mk (Order.id o) (Order.buyer_id o) (Order.seller_id o) (Order.status o)
    (Order.total_amount o) (Order.contact_name o) (Order.contact_email o)
    (Order.contact_phone o) (Order.contact_info o) payment_proof
    binance_txid (Order.created_at o) updated_at.

Definition Order_with_txid (binance_txid : option string)
    (updated_at : Z) (o : Order.t) : Order.t :=
  Order.mk (Order.id o) (Order.buyer_id o) (Order.seller_id o) (Order.status o)
    (Order.total_amount o) (Order.contact_name o) (Order.contact_email o)
    (Order.contact_phone o) (Order.contact_info o) (Order.payment_proof o)
    binance_txid (Order.created_at o) updated_at.

(** UPDATE orders SET ... WHERE id = ? *)
Definition update_order (id : Z) (f : Order.t -> Order.t) : db -> db :=
  set_orders (map (fun o => if Order.id o =? id then f o else o)).

Module UpdateStatus.
Record body : Type := mkBody {
  status : option string;
  seller_id : option Z
}.

(** [validStatuses.includes(status)] *)
Definition valid_status (b : body) : option order_status :=
  match status b with
  | Some s => order_status_of_string s
  | None => None
  end.

(** router.put('/:id/status', authenticateToken, requireRole('seller', 'superuser'), ...) *)
Definition handler (now : Z) (a : authorization) (id : Z) (b : body) : db -> response * db :=
  with_role a [Seller; Superuser] (fun user =>
    try_catch
      (match valid_status b with
       | None => ret (res_error 400 "Estado inválido.")
       | Some st =>
           found <- select (select_order id) ;;
           match found with
           | None => ret (res_error 404 "Orden no encontrada.")
           | Some order =>
               (if order_status_eqb st Processing && negb (truthy_int (Order.seller_id order))
                then
                  write (update_order id
                           (Order_with_status_seller st
                              (or_else truthy_int (seller_id b) (Some (ReqUser.id user)))
                              now))
                else
                  write (update_order id (Order_with_status st now))) ;;;
               ret (res_json (JsonMessage "Estado de orden actualizado exitosamente."))
           end
       end)
      (fun _ => res_error 500 "Error al actualizar estado de orden.")).
End UpdateStatus.

(** INSERT INTO transactions (order_id, user_id, amount, binance_txid,
    payment_proof_url, status) VALUES (?, ?, ?, ?, ?, 'pending') *)
Definition insert_transaction (now order_id user_id : Z) (amount : Q)
    (binance_txid payment_proof_url : option string) : M Z :=
  fun d =>
    let id := next_rowid T_transactions (map Transaction.id (transactions d)) d in
    let row := Transaction.mk id order_id user_id amount binance_txid
                 payment_proof_url TxPending now in
    (Return id, set_sequence T_transactions id (set_transactions (fun rows => rows ++ [row]) d)).

Module PaymentProof.
Record body : Type := mkBody {
  payment_proof : field string;
  binance_txid : field string
}.

(** router.post('/:id/payment-proof', authenticateToken, requireRole('buyer'), ...) *)
Definition handler (now : Z) (a : authorization) (id : Z) (b : body) : db -> response * db :=
  with_role a [Buyer] (fun user =>
    try_catch
      (found <- select (select_order_of_buyer id (ReqUser.id user)) ;;
       match found with
       | None => ret (res_error 404 "Orden no encontrada.")
       | Some order =>
           proof <- bind_param (payment_proof b) ;;
           txid <- bind_param (binance_txid b) ;;
           write (update_order id (Order_with_proof proof txid now)) ;;;
           insert_transaction now id (ReqUser.id user) (Order.total_amount order) txid proof ;;;
           ret (res_json (JsonMessage "Comprobante de pago enviado exitosamente."))
       end)
      (fun _ => res_error 500 "Error al enviar comprobante de pago.")).
End PaymentProof.

(** ** routes/products.js *)

(** SELECT p.*, c.name as category_name FROM products p JOIN categories c ON
    p.category_id = c.id WHERE p.is_active = 1 [AND c.id = ?]
    ORDER BY p.created_at DESC *)
Definition select_products (category : option Z) (d : db) : list product_view :=
  order_by_desc (fun v => Product.created_at (product v))
    (flat_map
       (fun p =>
          map (fun c => mkProductView p (Category.name c))
              (filter
                 (fun c =>
                    (Category.id c =? Product.category_id p)
                    && match category with
                       | Some id => Category.id c =? id
                       | None => true
                       end)
                 (categories d)))
       (filter Product.is_active (products d))).

Module ListProducts.
(** router.get('/', ...): [category] is the query parameter when it is
    truthy. *)
Definition handler (category : option Z) (d : db) : response * db :=
  (res_json (JsonProducts (select_products category d)), d).
End ListProducts.

Module GetProduct.
(** router.get('/:id', ...) *)
Definition handler (id : Z) (d : db) : response * db :=
  match
    flat_map
      (fun p =>
         map (fun c => mkProductView p (Category.name c))
             (filter (fun c => Category.id c =? Product.category_id p) (categories d)))
      (filter (fun p => (Product.id p =? id) && Product.is_active p) (products d))
  with
  | [] => (res_error 404 "Producto no encontrado.", d)
  | v :: _ => (res_json (JsonProduct v), d)
  end.
End GetProduct.

Module CreateProduct.
Record body : Type := mkBody {
  name : option string;
  description : field string;
  price : option Q;
  stock : option Z;
  category_id : option Z;
  image_url : field string
}.

(** INSERT INTO products (name, description, price, stock, category_id,
    image_url) VALUES (?, ?, ?, ?, ?, ?) *)
Definition insert_product (now : Z) (name : string) (description : option string)
    (price : Q) (stock category_id : Z) (image_url : option string) : M Z :=
  fun d =>
    let id := next_rowid T_products (map Product.id (products d)) d in
    let row := Product.mk id name description price stock category_id image_url
                 true now now in
    (Return id, set_sequence T_products id (set_products (fun rows => rows ++ [row]) d)).

(** router.post('/', authenticateToken, requireSuperuser, ...) *)
Definition handler (now : Z) (a : authorization) (b : body) : db -> response * db :=
  with_role a [Superuser] (fun user =>
    try_catch
      (match name b, price b, category_id b with
       | Some n, Some p, Some c =>
           if truthy_text (name b) && truthy_real (price b) && truthy_int (category_id b) then
             descr <- bind_param (description b) ;;
             image <- bind_param (image_url b) ;;
             productId <- insert_product now n descr p
                            match or_else truthy_int (stock b) (Some 0) with
                            | Some s => s
                            | None => 0
                            end
                            c image ;;
             ret (mkResponse 201 (JsonProductCreated "Producto creado exitosamente." productId))
           else ret (res_error 400 "Nombre, precio y categoría son requeridos.")
       | _, _, _ => ret (res_error 400 "Nombre, precio y categoría son requeridos.")
       end)
      (fun _ => res_error 500 "Error al crear producto.")).
End CreateProduct.

Module UpdateProduct.
Record body : Type := mkBody {
  name : field string;
  description : field string;
  price : field Q;
  stock : option Z;  (* a number when present; absent is [undefined] *)
  category_id : field Z;
  image_url : field string;
  is_active : bool  (* the truthiness of the field: [is_active ? 1 : 0] *)
}.

(** A NULL bound to a NOT NULL column fails the statement. *)
Definition not_null {A : Type} (column : string) (x : option A) : M A :=
  match x with
  | Some a => ret a
  | None => throw (String.append "NOT NULL constraint failed: products." column)
  end.

(** router.put('/:id', authenticateToken, requireSuperuser, ...):
    UPDATE products SET name = ?, description = ?, price = ?, stock = ?,
    category_id = ?, image_url = ?, is_active = ?,
    updated_at = CURRENT_TIMESTAMP WHERE id = ?.
    The constraints are checked only when a row matches. *)
Definition handler (now : Z) (a : authorization) (id : Z) (b : body) : db -> response * db :=
  with_role a [Superuser] (fun user =>
    try_catch
      (n <- bind_param (name b) ;;
       descr <- bind_param (description b) ;;
       p <- bind_param (price b) ;;
       s <- bind_param (match stock b with Some s => Value s | None => Undefined end) ;;
       c <- bind_param (category_id b) ;;
       image <- bind_param (image_url b) ;;
       found <- select (select_product id) ;;
       match found with
       | None => ret tt
       | Some _ =>
           n' <- not_null "name" n ;;
           p' <- not_null "price" p ;;
           c' <- not_null "category_id" c ;;
           write (set_products (map (fun row =>
             if Product.id row =? id then
               Product.mk (Product.id row) n' descr p'
                 match s with Some s' => s' | None => 0 end
                 c' image (is_active b) (Product.created_at row) now
             else row)))
       end ;;;
       ret (res_json (JsonMessage "Producto actualizado exitosamente.")))
      (fun _ => res_error 500 "Error al actualizar producto.")).
End UpdateProduct.

Definition Product_with_is_active (is_active : bool) (p : Product.t) : Product.t :=
  Product.mk (Product.id p) (Product.name p) (Product.description p) (Product.price p)
    (Product.stock p) (Product.category_id p) (Product.image_url p) is_active
    (Product.created_at p) (Product.updated_at p).

Module DeleteProduct.
(** UPDATE products SET is_active = 0 WHERE id = ? *)
Definition soft_delete (id : Z) : db -> db :=
  set_products (map (fun p =>
    if Product.id p =? id then Product_with_is_active false p else p)).

(** router.delete('/:id', authenticateToken, requireSuperuser, ...) *)
Definition handler (a : authorization) (id : Z) : db -> response * db :=
  with_role a [Superuser] (fun user =>
    try_catch
      (write (soft_delete id) ;;;
       ret (res_json (JsonMessage "Producto eliminado exitosamente.")))
      (fun _ => res_error 500 "Error al eliminar producto.")).
End DeleteProduct.

(** ** routes/auth.js and routes/admin.js: accounts *)

(** SELECT id FROM users WHERE email = ? *)
Definition select_user_by_email (email : string) (d : db) : option User.t :=
  find (fun u => (User.email u =? email)%string) (users d).

(** SELECT * FROM users WHERE id = ? AND role = 'seller' *)
Definition select_seller (id : Z) (d : db) : option User.t :=
  find (fun u => (User.id u =? id) && role_eqb (User.role u) Seller) (users d).

(** INSERT INTO users (email, password, role, binance_wallet) VALUES (?, ?, ?, ?);
    earnings defaults to 0, is_active to 1.  email is UNIQUE. *)
Definition insert_user (now : Z) (email password : string) (r : role)
    (binance_wallet : option string) : M Z :=
  fun d =>
    if existsb (fun u => (User.email u =? email)%string) (users d) then
      (Throw "UNIQUE constraint failed: users.email", d)
    else
      let id := next_rowid T_users (map User.id (users d)) d in
      let row := User.mk id email None password r binance_wallet 0%Q now now true in
      (Return id, set_sequence T_users id (set_users (fun rows => rows ++ [row]) d)).

Module Credentials.
Record body : Type := mkBody {
  email : option string;
  password : option string;
  binance_wallet : option string
}.

(** The common body of POST /auth/register (role 'buyer') and
    POST /admin/sellers (role 'seller'); [hashedPassword] is what
    [await bcrypt.hash(password, 10)] resolved to. *)
Definition create_account (now : Z) (r : role) (hashedPassword : string) (b : body)
    (created : Z -> string -> response) : M response :=
  match email b, password b with
  | Some e, Some _ =>
      if truthy_text (email b) && truthy_text (password b) then
        existingUser <- select (select_user_by_email e) ;;
        match existingUser with
        | Some _ => ret (res_error 400 "Este email ya está registrado.")
        | None =>
            userId <- insert_user now e hashedPassword r
                        (or_else truthy_text (binance_wallet b) None) ;;
            ret (created userId e)
        end
      else ret (res_error 400 "Email y contraseña son requeridos.")
  | _, _ => ret (res_error 400 "Email y contraseña son requeridos.")
  end.
End Credentials.

Module Register.
(** router.post('/register', ...); the token of the answer, signed with the
    configured secret, is left out. *)
Definition handler (now : Z) (hashedPassword : string) (b : Credentials.body)
    : db -> response * db :=
  try_catch
    (Credentials.create_account now Buyer hashedPassword b
       (fun userId e =>
          mkResponse 201 (JsonUser "Usuario registrado exitosamente." userId e Buyer)))
    (fun _ => res_error 500 "Error al registrar usuario.").
End Register.

Module CreateSeller.
(** router.post('/sellers', authenticateToken, requireSuperuser, ...) *)
Definition handler (now : Z) (a : authorization) (hashedPassword : string)
    (b : Credentials.body) : db -> response * db :=
  with_role a [Superuser] (fun user =>
    try_catch
      (Credentials.create_account now Seller hashedPassword b
         (fun sellerId e =>
            mkResponse 201 (JsonSeller "Vendedor creado exitosamente." sellerId e)))
      (fun _ => res_error 500 "Error al crear vendedor.")).
End CreateSeller.

Module UpdateSeller.
Record body : Type := mkBody {
  email : option string;
  password : option string;
  binance_wallet : option string;
  is_active : option bool  (* [None]: undefined; [Some b]: the truthiness of the field *)
}.

(** The values the handler binds, computed from the body and from the row
    [seller] it read before hashing. *)
Definition new_email (b : body) (seller : User.t) : string :=
  match or_else truthy_text (email b) (Some (User.email seller)) with
  | Some e => e
  | None => User.email seller
  end.

Definition new_binance_wallet (b : body) (seller : User.t) : option string :=
  or_else truthy_text (binance_wallet b) (User.binance_wallet seller).

Definition new_is_active (b : body) (seller : User.t) : bool :=
  match is_active b with
  | Some flag => flag
  | None => User.is_active seller
  end.

(** UPDATE users SET email = ?, binance_wallet = ?, is_active = ?
    [, password = ?], updated_at = CURRENT_TIMESTAMP WHERE id = ?;
    it fails when another row already holds the e-mail address. *)
Definition update_user (now id : Z) (email : string) (binance_wallet : option string)
    (is_active : bool) (password : option string) : M unit :=
  fun d =>
    if existsb (fun u => (User.id u =? id)) (users d)
       && existsb (fun u => negb (User.id u =? id) && (User.email u =? email)%string) (users d)
    then (Throw "UNIQUE constraint failed: users.email", d)
    else
      (Return tt,
       set_users (map (fun u =>
         if User.id u =? id then
           User.mk (User.id u) email (User.username u)
             match password with Some h => h | None => User.password u end
             (User.role u) binance_wallet (User.earnings u)
             (User.created_at u) now is_active
         else u)) d).

(** router.put('/sellers/:id', authenticateToken, requireSuperuser, ...);
    [hashedPassword] is what [await bcrypt.hash(password, 10)] resolved to
    when a password is given. *)
Definition handler (now : Z) (a : authorization) (id : Z) (hashedPassword : string)
    (b : body) : db -> response * db :=
  with_role a [Superuser] (fun user =>
    try_catch
      (found <- select (select_seller id) ;;
       match found with
       | None => ret (res_error 404 "Vendedor no encontrado.")
       | Some seller =>
           (if truthy_text (password b) then
              update_user now id (new_email b seller) (new_binance_wallet b seller)
                (new_is_active b seller) (Some hashedPassword)
            else
              update_user now id (new_email b seller) (new_binance_wallet b seller)
                (new_is_active b seller) None) ;;;
           ret (res_json (JsonMessage "Vendedor actualizado exitosamente."))
       end)
      (fun _ => res_error 500 "Error al actualizar vendedor.")).
End UpdateSeller.

Definition User_with_is_active (is_active : bool) (u : User.t) : User.t :=
  User.mk (User.id u) (User.email u) (User.username u) (User.password u)
    (User.role u) (User.binance_wallet u) (User.earnings u)
    (User.created_at u) (User.updated_at u) is_active.

Definition User_with_earnings (earnings : Q) (updated_at : Z) (u : User.t) : User.t :=
  User.mk (User.id u) (User.email u) (User.username u) (User.password u)
    (User.role u) (User.binance_wallet u) earnings
    (User.created_at u) updated_at (User.is_active u).

Module DeactivateSeller.
(** router.delete('/sellers/:id', authenticateToken, requireSuperuser, ...):
    UPDATE users SET is_active = 0 WHERE id = ? AND role = 'seller' *)
Definition handler (a : authorization) (id : Z) : db -> response * db :=
  with_role a [Superuser] (fun user =>
    try_catch
      (write (set_users (map (fun u =>
         if (User.id u =? id) && role_eqb (User.role u) Seller
         then User_with_is_active false u else u))) ;;;
       ret (res_json (JsonMessage "Vendedor desactivado exitosamente.")))
      (fun _ => res_error 500 "Error al desactivar vendedor.")).
End DeactivateSeller.

Module UpdateEarnings.
Record body : Type := mkBody {
  amount : option Q;
  operation : option string
}.

(** UPDATE users SET earnings = ?, updated_at = CURRENT_TIMESTAMP WHERE id = ? *)
Definition update_earnings (now id : Z) (newEarnings : Q) : db -> db :=
  set_users (map (fun u =>
    if User.id u =? id then User_with_earnings newEarnings now u else u)).

(** router.put('/sellers/:id/earnings', authenticateToken, requireSuperuser, ...)
    (the last message quotes add and set with double quotes in the source) *)
Definition handler (now : Z) (a : authorization) (id : Z) (b : body) : db -> response * db :=
  with_role a [Superuser] (fun user =>
    try_catch
      (match amount b, operation b with
       | Some amt, Some op =>
           if truthy_real (amount b) && truthy_text (operation b) then
             found <- select (select_seller id) ;;
             match found with
             | None => ret (res_error 404 "Vendedor no encontrado.")
             | Some seller =>
                 if (op =? "add")%string then
                   let newEarnings := (User.earnings seller + amt)%Q in
                   write (update_earnings now id newEarnings) ;;;
                   ret (res_json (JsonEarnings "Ganancias actualizadas exitosamente." newEarnings))
                 else if (op =? "set")%string then
                   let newEarnings := amt in
                   write (update_earnings now id newEarnings) ;;;
                   ret (res_json (JsonEarnings "Ganancias actualizadas exitosamente." newEarnings))
                 else ret (res_error 400 "Operación inválida. Use 'add' o 'set'.")
             end
           else ret (res_error 400 "Monto y operación son requeridos.")
       | _, _ => ret (res_error 400 "Monto y operación son requeridos.")
       end)
      (fun _ => res_error 500 "Error al actualizar ganancias.")).
End UpdateEarnings.

Module AssignSale.
Record body : Type := mkBody {
  order_id : option Z;
  amount : option Q
}.

(** INSERT INTO seller_earnings (seller_id, order_id, amount) VALUES (?, ?, ?) *)
Definition insert_seller_earning (now seller_id order_id : Z) (amount : Q) : M Z :=
  fun d =>
    let id := next_rowid T_seller_earnings (map SellerEarning.id (seller_earnings d)) d in
    let row := SellerEarning.mk id seller_id order_id amount now in
    (Return id,
     set_sequence T_seller_earnings id (set_seller_earnings (fun rows => rows ++ [row]) d)).

(** UPDATE users SET earnings = earnings + ?, updated_at = CURRENT_TIMESTAMP WHERE id = ? *)
Definition add_earnings (now id : Z) (amount : Q) : db -> db :=
  set_users (map (fun u =>
    if User.id u =? id then User_with_earnings (User.earnings u + amount)%Q now u else u)).

(** router.post('/sellers/:id/sales', authenticateToken, requireSuperuser, ...) *)
Definition handler (now : Z) (a : authorization) (id : Z) (b : body) : db -> response * db :=
  with_role a [Superuser] (fun user =>
    try_catch
      (match order_id b, amount b with
       | Some oid, Some amt =>
           if truthy_int (order_id b) && truthy_real (amount b) then
             found <- select (select_seller id) ;;
             match found with
             | None => ret (res_error 404 "Vendedor no encontrado.")
             | Some seller =>
                 insert_seller_earning now id oid amt ;;;
                 write (add_earnings now id amt) ;;;
                 ret (res_json (JsonMessage "Venta asignada exitosamente."))
             end
           else ret (res_error 400 "ID de orden y monto son requeridos.")
       | _, _ => ret (res_error 400 "ID de orden y monto son requeridos.")
       end)
      (fun _ => res_error 500 "Error al asignar venta.")).
End AssignSale.

(** ** routes/payments.js *)

Definition newline : string := String (ascii_of_nat 10) EmptyString.

Definition upper (c : ascii) : ascii :=
  let n := nat_of_ascii c in
  if ((97 <=? n) && (n <=? 122))%nat then ascii_of_nat (n - 32) else c.

Fixpoint toUpperCase (s : string) : string :=
  match s with
  | EmptyString => EmptyString
  | String c rest => String (upper c) (toUpperCase rest)
  end.

Section Signature.
(** [crypto.createHmac('sha512', key).update(payload).digest('hex')] *)
Variable hmac_sha512_hex : string -> string -> string.

Definition generateSignature (BINANCE_SECRET_KEY timestamp nonce body : string) : string :=
  let payload :=
    String.append timestamp (String.append newline
      (String.append nonce (String.append newline
        (String.append body newline)))) in
  toUpperCase (hmac_sha512_hex BINANCE_SECRET_KEY payload).
End Signature.

Module CreatePayment.
Record body : Type := mkBody {
  order_id : option Z;
  amount : option Q
}.

(** router.post('/create', authenticateToken, ...).  [timestamp] is
    [Date.now()].  The signed request is built and dropped (the call to the
    provider is commented out); building it throws when the secret key is
    not configured, because [crypto.createHmac] refuses an undefined key. *)
Definition handler (now timestamp : Z) (BINANCE_SECRET_KEY : option string)
    (a : authorization) (b : body) : db -> response * db :=
  with_user a (fun user =>
    try_catch
      (match order_id b, amount b with
       | Some oid, Some _ =>
           if truthy_int (order_id b) && truthy_real (amount b) then
             found <- select (select_order_of_buyer oid (ReqUser.id user)) ;;
             match found with
             | None => ret (res_error 404 "Orden no encontrada.")
             | Some _ =>
                 match BINANCE_SECRET_KEY with
                 | None => throw "TypeError [ERR_INVALID_ARG_TYPE]: The key argument must be of type string"
                 | Some _ => ret tt
                 end ;;;
                 let prepayId := String.append "SIMULATED_" (string_of_Z timestamp) in
                 write (update_order oid (Order_with_txid (Some prepayId) now)) ;;;
                 ret (res_json (JsonPayment "Orden de pago creada exitosamente." prepayId))
             end
           else ret (res_error 400 "ID de orden y monto son requeridos.")
       | _, _ => ret (res_error 400 "ID de orden y monto son requeridos.")
       end)
      (fun _ => res_error 500 "Error al crear orden de pago.")).
End CreatePayment.

(** [s.split(sep)] for a one-character separator. *)
Fixpoint split (sep : ascii) (s : string) : list string :=
  match s with
  | EmptyString => [EmptyString]
  | String c rest =>
      if Ascii.eqb c sep then EmptyString :: split sep rest
      else
        match split sep rest with
        | [] => [String c EmptyString]
        | seg :: segs => String c seg :: segs
        end
  end.

(** The columns of [transactions] (database/schema.sql). *)
Definition transactions_columns : list string :=
  ["id"; "order_id"; "user_id"; "amount"; "binance_txid"; "payment_proof_url";
   "status"; "created_at"].

(** [db.prepare(query)] fails when the statement names a column its table
    does not have. *)
Definition prepare (table_columns named : list string) : M unit :=
  match find (fun c => negb (existsb (String.eqb c) table_columns)) named with
  | Some c => throw (String.append "no such column: " c)
  | None => ret tt
  end.

Definition Transaction_with_status (status : transaction_status) (t : Transaction.t)
    : Transaction.t :=
  Transaction.mk (Transaction.id t) (Transaction.order_id t) (Transaction.user_id t)
    (Transaction.amount t) (Transaction.binance_txid t) (Transaction.payment_proof_url t)
    status (Transaction.created_at t).

(** SELECT * FROM transactions WHERE order_id = ? ORDER BY created_at DESC LIMIT 1 *)
Definition select_latest_transaction (order_id : Z) (d : db) : option Transaction.t :=
  hd_error (order_by_desc Transaction.created_at
              (filter (fun t => Transaction.order_id t =? order_id) (transactions d))).

Module PaymentStatus.
(** router.get('/:order_id/status', authenticateToken, ...) *)
Definition handler (a : authorization) (order_id : Z) : db -> response * db :=
  with_user a (fun user d =>
    match select_latest_transaction order_id d with
    | None => (res_error 404 "Transacción no encontrada.", d)
    | Some transaction => (res_json (JsonTransaction transaction), d)
    end).
End PaymentStatus.

Section Webhook.
(** [WHERE id = ?] with a TEXT parameter: before comparing it with an
    INTEGER column SQLite converts the text to a number when it spells one.
    [rowid_of_text s] is the integer the text [s] then stands for, [None]
    when it stands for none (the comparison is then false for every row). *)
Variable rowid_of_text : string -> option Z.

Record payload_data : Type := mkData {
  merchantTradeNo : option string  (* [None]: absent, or not a string *)
}.

Record payload : Type := mkPayload {
  bizStatus : option string;
  data : option payload_data
}.

(** What the handler sees of a request.  server.js mounts express.json()
    before the routers, so [req.body] may reach the handler already parsed;
    [raw_body] and [parsed_body] are what [toString] and [JSON.parse] make of
    it, whatever it is. *)
Record webhook_request : Type := mkWebhook {
  binancepay_signature : option string;
  binancepay_timestamp : option string;
  binancepay_nonce : option string;
  raw_body : string;               (* [req.body.toString()] *)
  parsed_body : option payload     (* [JSON.parse] of it; [None] when it throws *)
}.

(** UPDATE orders SET status = 'processing', updated_at = CURRENT_TIMESTAMP WHERE id = ? *)
Definition process_order (now : Z) (orderId : string) : db -> db :=
  match rowid_of_text orderId with
  | Some id => update_order id (Order_with_status Processing now)
  | None => fun d => d
  end.

(** What the rows of UPDATE transactions SET status = 'verified' ...
    WHERE order_id = ? would become. *)
Definition mark_verified (orderId : string) : db -> db :=
  match rowid_of_text orderId with
  | Some id =>
      set_transactions (map (fun t =>
        if Transaction.order_id t =? id then Transaction_with_status TxVerified t else t))
  | None => fun d => d
  end.

(** UPDATE transactions SET status = 'verified', updated_at = CURRENT_TIMESTAMP
    WHERE order_id = ? *)
Definition verify_transactions (orderId : string) : M unit :=
  prepare transactions_columns ["status"; "updated_at"; "order_id"] ;;;
  write (mark_verified orderId).

(** router.post('/webhook', express.raw({ type: 'application/json' }), ...).
    The three headers are read and not used: the comparison with
    [generateSignature] is commented out. *)
Definition webhook (now : Z) (req : webhook_request) : db -> response * db :=
  try_catch
    (match parsed_body req with
     | None => throw "SyntaxError: Unexpected token in JSON"
     | Some payload =>
         (if match bizStatus payload with
             | Some s => (s =? "PAY_SUCCESS")%string
             | None => false
             end
          then
            match data payload with
            | None => throw "TypeError: Cannot read properties of undefined (reading 'merchantTradeNo')"
            | Some dt =>
                match merchantTradeNo dt with
                | None => throw "TypeError: merchantTradeNo.split is not a function"
                | Some tradeNo =>
                    match nth_error (split "_"%char tradeNo) 1 with
                    | None => throw "Wrong API use : tried to bind a value of an unknown type (undefined)."
                    | Some orderId =>
                        write (process_order now orderId) ;;;
                        verify_transactions orderId
                    end
                end
            end
          else ret tt) ;;;
         ret (res_json (JsonWebhook "SUCCESS" None))
     end)
    (fun e => mkResponse 500 (JsonWebhook "FAIL" (Some e))).
End Webhook.

(** ** The server: one request at a time

    The routes that write, and the reads the properties below speak about.
    The remaining routes (POST /auth/login, GET /auth/me,
    GET /products/categories/all, GET /admin/sellers, GET /admin/analytics)
    only SELECT. *)

Inductive request : Type :=
| POST_auth_register (now : Z) (hashedPassword : string) (b : Credentials.body)
| GET_products (category : option Z)
| GET_products_id (id : Z)
| POST_products (now : Z) (a : authorization) (b : CreateProduct.body)
| PUT_products_id (now : Z) (a : authorization) (id : Z) (b : UpdateProduct.body)
| DELETE_products_id (a : authorization) (id : Z)
| POST_orders (now : Z) (a : authorization) (b : CreateOrder.body)
| GET_orders (a : authorization)
| GET_orders_id (a : authorization) (id : Z)
| PUT_orders_id_status (now : Z) (a : authorization) (id : Z) (b : UpdateStatus.body)
| POST_orders_id_payment_proof (now : Z) (a : authorization) (id : Z) (b : PaymentProof.body)
| POST_payments_create (now timestamp : Z) (BINANCE_SECRET_KEY : option string)
    (a : authorization) (b : CreatePayment.body)
| POST_payments_webhook (now : Z) (req : webhook_request)
| GET_payments_order_id_status (a : authorization) (order_id : Z)
| POST_admin_sellers (now : Z) (a : authorization) (hashedPassword : string)
    (b : Credentials.body)
| PUT_admin_sellers_id (now : Z) (a : authorization) (id : Z) (hashedPassword : string)
    (b : UpdateSeller.body)
| DELETE_admin_sellers_id (a : authorization) (id : Z)
| PUT_admin_sellers_id_earnings (now : Z) (a : authorization) (id : Z) (b : UpdateEarnings.body)
| POST_admin_sellers_id_sales (now : Z) (a : authorization) (id : Z) (b : AssignSale.body).

Definition handle (rowid_of_text : string -> option Z) (r : request) : db -> response * db :=
  match r with
  | POST_auth_register now h b => Register.handler now h b
  | GET_products category => ListProducts.handler category
  | GET_products_id id => GetProduct.handler id
  | POST_products now a b => CreateProduct.handler now a b
  | PUT_products_id now a id b => UpdateProduct.handler now a id b
  | DELETE_products_id a id => DeleteProduct.handler a id
  | POST_orders now a b => CreateOrder.handler now a b
  | GET_orders a => ListOrders.handler a
  | GET_orders_id a id => GetOrder.handler a id
  | PUT_orders_id_status now a id b => UpdateStatus.handler now a id b
  | POST_orders_id_payment_proof now a id b => PaymentProof.handler now a id b
  | POST_payments_create now ts key a b => CreatePayment.handler now ts key a b
  | POST_payments_webhook now req => webhook rowid_of_text now req
  | GET_payments_order_id_status a order_id => PaymentStatus.handler a order_id
  | POST_admin_sellers now a h b => CreateSeller.handler now a h b
  | PUT_admin_sellers_id now a id h b => UpdateSeller.handler now a id h b
  | DELETE_admin_sellers_id a id => DeactivateSeller.handler a id
  | PUT_admin_sellers_id_earnings now a id b => UpdateEarnings.handler now a id b
  | POST_admin_sellers_id_sales now a id b => AssignSale.handler now a id b
  end.

(** The store after a sequence of requests, served in order. *)
Definition serve (rowid_of_text : string -> option Z) (rs : list request) (d : db) : db :=
  fold_left (fun d r => snd (handle rowid_of_text r d)) rs d.

(** ** Quantities the properties speak about *)

(** The stock of the product with the given id. *)
Definition stock_of (id : Z) (d : db) : option Z :=
  option_map Product.stock (select_product id d).

(** The rows of [order_items] of one order, in rowid order. *)
Definition items_of (order_id : Z) (d : db) : list OrderItem.t :=
  filter (fun oi => OrderItem.order_id oi =? order_id) (order_items d).

(** Sum over line items of price times quantity, added in rowid order from 0
    as the first loop of POST /orders adds them. *)
Definition items_total (l : list OrderItem.t) : Q :=
  fold_left (fun total oi => (total + OrderItem.price oi * inject_Z (OrderItem.quantity oi))%Q)
            l 0%Q.

(** ** Sample stores *)

(** A decimal reading of row ids: digits only, as [String(id)] prints them. *)
Fixpoint decimal_value (s : string) (acc : Z) : option Z :=
  match s with
  | EmptyString => Some acc
  | String c rest =>
      let n := nat_of_ascii c in
      if ((48 <=? n) && (n <=? 57))%nat
      then decimal_value rest (10 * acc + (Z.of_nat n - 48))
      else None
  end.

Definition decimal_rowid (s : string) : option Z :=
  match s with
  | EmptyString => None
  | _ => decimal_value s 0
  end.

(** What schema.sql creates in a new database file. *)
Definition empty_db : db := mkDb [] [] [] [] [] [] [] (fun _ => 0).

(** A shop with a superuser (1), a buyer (2), two sellers (3, 4), one
    category and one product (price 10, stock 2). *)
Definition shop : db :=
  mkDb
    [ User.mk 1 "admin@cashout.com" None "$2a$10$admin" Superuser None 0%Q 0 0 true;
      User.mk 2 "buyer@example.com" None "$2a$10$buyer" Buyer None 0%Q 10 10 true;
      User.mk 3 "a@example.com" None "$2a$10$a" Seller (Some "wallet-a") 0%Q 20 20 true;
      User.mk 4 "b@example.com" None "$2a$10$b" Seller None 0%Q 30 30 true ]
    [ Category.mk 1 "Gift Cards" (Some "Tarjetas de regalo") 0 ]
    [ Product.mk 1 "Netflix Gift Card 1 mes" None 10%Q 2 1 None true 40 40 ]
    [] [] [] []
    (fun t => match t with
              | T_users => 4
              | T_categories => 1
              | T_products => 1
              | _ => 0
              end).

Definition contact (lines : list CreateOrder.line) : CreateOrder.body :=
  CreateOrder.mkBody lines (Some "Ana") (Some "buyer@example.com") None None.

(** The shop after the buyer ordered one unit of product 1. *)
Definition shop_with_order : db :=
  snd (CreateOrder.handler 100 (Bearer 2) (contact [CreateOrder.mkLine 1 1]) shop).

(** ... and then submitted two payment proofs, at times 200 and 300. *)
Definition shop_with_proofs : db :=
  snd (PaymentProof.handler 300 (Bearer 2) 1
         (PaymentProof.mkBody (Value "proof-2") (Value "tx-2"))
         (snd (PaymentProof.handler 200 (Bearer 2) 1
                 (PaymentProof.mkBody (Value "proof-1") (Value "tx-1"))
                 shop_with_order))).

Definition pay_success (tradeNo : string) : webhook_request :=
  mkWebhook (Some "BAD-SIGNATURE") (Some "1700000000000") (Some "nonce")
    "{...}" (Some (mkPayload (Some "PAY_SUCCESS") (Some (mkData (Some tradeNo))))).

(** ** Frames *)

(** Two versions of an order row that differ at most in payment_proof,
    binance_txid and updated_at. *)
Definition same_but_proof (o o' : Order.t) : Prop :=
  Order.id o' = Order.id o
  /\ Order.buyer_id o' = Order.buyer_id o
  /\ Order.seller_id o' = Order.seller_id o
  /\ Order.status o' = Order.status o
  /\ Order.total_amount o' = Order.total_amount o
  /\ Order.contact_name o' = Order.contact_name o
  /\ Order.contact_email o' = Order.contact_email o
  /\ Order.contact_phone o' = Order.contact_phone o
  /\ Order.contact_info o' = Order.contact_info o
  /\ Order.created_at o' = Order.created_at o.

(** Two versions of a user row that differ at most in the columns PUT
    /admin/sellers/:id writes: email, binance_wallet, is_active, password and
    updated_at. *)
Definition same_but_profile (u u' : User.t) : Prop :=
  User.id u' = User.id u
  /\ User.username u' = User.username u
  /\ User.role u' = User.role u
  /\ User.earnings u' = User.earnings u
  /\ User.created_at u' = User.created_at u.

(** ** Invariants *)

(** A computation, or a handler, takes every store to one related to it by [R]. *)
Definition keeps (R : db -> db -> Prop) {A : Type} (m : M A) : Prop :=
  forall d, R d (snd (m d)).

Definition preserved (R : db -> db -> Prop) (h : db -> response * db) : Prop :=
  forall d, R d (snd (h d)).

(** The largest order id the store has handed out. *)
Definition order_bound (d : db) : Z :=
  Z.max (max_rowid (map Order.id (orders d))) (sqlite_sequence d T_orders).

(** Primary keys of [products] are unique, and no line item belongs to an
    order id that has not been handed out yet. *)
Definition products_unique (d : db) : Prop := NoDup (map Product.id (products d)).

Definition items_refer_to_orders (d : db) : Prop :=
  forall oi, In oi (order_items d) -> OrderItem.order_id oi <= order_bound d.

Definition well_formed (d : db) : Prop :=
  products_unique d /\ items_refer_to_orders d.

(** What no handler but POST /orders changes: the line items, the ids and
    totals of the orders, the order id counter. *)
Definition order_key (o : Order.t) : Z * Q := (Order.id o, Order.total_amount o).

Definition orders_frame (d d' : db) : Prop :=
  order_items d' = order_items d
  /\ sqlite_sequence d' T_orders = sqlite_sequence d T_orders
  /\ map order_key (orders d') = map order_key (orders d)
  /\ (products_unique d -> products_unique d').

(** The price POST /orders reads for a product id, and the total of a list
    of requested lines at the prices of a store, added as the handler adds
    them. *)
Definition product_key (p : Product.t) : Z * Q := (Product.id p, Product.price p).

Definition price_of (d : db) (product_id : Z) : Q :=
  match select_product product_id d with
  | Some p => Product.price p
  | None => 0%Q
  end.

Definition lines_total (d : db) (lines : list CreateOrder.line) (total : Q) : Q :=
  fold_left
    (fun total l =>
       (total + price_of d (CreateOrder.product_id l) * inject_Z (CreateOrder.quantity l))%Q)
    lines total.

(** The columns of a line item that come from the request and the catalogue. *)
Definition item_columns (oi : OrderItem.t) : Z * Z * Q :=
  (OrderItem.product_id oi, OrderItem.quantity oi, OrderItem.price oi).

Definition line_columns (d : db) (l : CreateOrder.line) : Z * Z * Q :=
  (CreateOrder.product_id l, CreateOrder.quantity l, price_of d (CreateOrder.product_id l)).

(** Order [id] exists with total [total]; its line items are [its], and the
    total is the sum over them. *)
Definition settled (id : Z) (total : Q) (its : list OrderItem.t) (d : db) : Prop :=
  (exists o, select_order id d = Some o /\ Order.total_amount o = total)
  /\ items_of id d = its
  /\ items_total its = total
  /\ id <= order_bound d.

(** The stock of every product is non-negative. *)
Definition stocks_nonneg (d : db) : Prop :=
  forall p, In p (products d) -> 0 <= Product.stock p.

(** Earnings of every user are non-negative. *)
Definition earnings_nonneg (d : db) : Prop :=
  forall u, In u (users d) -> (0 <= User.earnings u)%Q.

Definition earnings_kept (d d' : db) : Prop := earnings_nonneg d -> earnings_nonneg d'.

(** The amount of an earnings or sales request, when it carries one, is
    non-negative. *)
Definition nonneg_amount (r : request) : Prop :=
  match r with
  | PUT_admin_sellers_id_earnings _ _ _ b =>
      match UpdateEarnings.amount b with
      | Some q => (0 <= q)%Q
      | None => True
      end
  | POST_admin_sellers_id_sales _ _ _ b =>
      match AssignSale.amount b with
      | Some q => (0 <= q)%Q
      | None => True
      end
  | _ => True
  end.

(** ** The route table

    Which routes run [authenticateToken], with which header, and which roles
    [requireRole] lets through (read off the [router.verb(...)] lines). *)

Definition authorization_of (r : request) : option authorization :=
  match r with
  | POST_auth_register _ _ _ => None
  | GET_products _ => None
  | GET_products_id _ => None
  | POST_payments_webhook _ _ => None
  | POST_products _ a _ => Some a
  | PUT_products_id _ a _ _ => Some a
  | DELETE_products_id a _ => Some a
  | POST_orders _ a _ => Some a
  | GET_orders a => Some a
  | GET_orders_id a _ => Some a
  | PUT_orders_id_status _ a _ _ => Some a
  | POST_orders_id_payment_proof _ a _ _ => Some a
  | POST_payments_create _ _ _ a _ => Some a
  | GET_payments_order_id_status a _ => Some a
  | POST_admin_sellers _ a _ _ => Some a
  | PUT_admin_sellers_id _ a _ _ _ => Some a
  | DELETE_admin_sellers_id a _ => Some a
  | PUT_admin_sellers_id_earnings _ a _ _ => Some a
  | POST_admin_sellers_id_sales _ a _ _ => Some a
  end.

Definition allowed_roles (r : request) : option (list role) :=
  match r with
  | POST_products _ _ _ => Some [Superuser]
  | PUT_products_id _ _ _ _ => Some [Superuser]
  | DELETE_products_id _ _ => Some [Superuser]
  | POST_orders _ _ _ => Some [Buyer]
  | PUT_orders_id_status _ _ _ _ => Some [Seller; Superuser]
  | POST_orders_id_payment_proof _ _ _ _ => Some [Buyer]
  | POST_admin_sellers _ _ _ _ => Some [Superuser]
  | PUT_admin_sellers_id _ _ _ _ _ => Some [Superuser]
  | DELETE_admin_sellers_id _ _ => Some [Superuser]
  | PUT_admin_sellers_id_earnings _ _ _ _ => Some [Superuser]
  | POST_admin_sellers_id_sales _ _ _ _ => Some [Superuser]
  | _ => None
  end.

(** The routes that can write to [orders], to [users], to [transactions]. *)
Definition writes_orders (r : request) : bool :=
  match r with
  | POST_orders _ _ _ | PUT_orders_id_status _ _ _ _
  | POST_orders_id_payment_proof _ _ _ _ | POST_payments_create _ _ _ _ _
  | POST_payments_webhook _ _ => true
  | _ => false
  end.

Definition writes_users (r : request) : bool :=
  match r with
  | POST_auth_register _ _ _ | POST_admin_sellers _ _ _ _
  | PUT_admin_sellers_id _ _ _ _ _ | DELETE_admin_sellers_id _ _
  | PUT_admin_sellers_id_earnings _ _ _ _ | POST_admin_sellers_id_sales _ _ _ _ => true
  | _ => false
  end.

(** The quantity an order requests of a product: the sum over the lines that
    name it. *)
Definition ordered_quantity (lines : list CreateOrder.line) (product_id : Z) : Z :=
  fold_right
    (fun l acc =>
       if CreateOrder.product_id l =? product_id then CreateOrder.quantity l + acc else acc)
    0 lines.

(** ** Relations between a store and a later one *)

(** Transactions are only ever added, and added pending. *)
Definition transactions_appended (d d' : db) : Prop :=
  exists new,
    transactions d' = transactions d ++ new
    /\ Forall (fun t => Transaction.status t = TxPending) new.

(** An order that has a seller keeps that seller. *)
Definition assignment_kept (d d' : db) : Prop :=
  forall id o s,
    select_order id d = Some o -> Order.seller_id o = Some s -> s <> 0 ->
    exists o', select_order id d' = Some o' /\ Order.seller_id o' = Some s.

(** What never changes in a user row, and the users of a later store: the
    same rows in the same order, then new ones. *)
Definition user_identity (u : User.t) : Z * option string * role * Z :=
  (User.id u, User.username u, User.role u, User.created_at u).

Definition users_appended (d d' : db) : Prop :=
  exists new,
    map user_identity (users d') = map user_identity (users d) ++ new.

(** Primary key and UNIQUE(email) of [users]. *)
Definition accounts_unique (d : db) : Prop :=
  NoDup (map User.id (users d)) /\ NoDup (map User.email (users d)).

Definition accounts_kept (d d' : db) : Prop := accounts_unique d -> accounts_unique d'.

(** ** The earnings ledger *)

(** The sum of the ledger entries of a seller, added in rowid order. *)
Definition ledger_total (seller_id : Z) (d : db) : Q :=
  fold_left (fun total e => (total + SellerEarning.amount e)%Q)
    (filter (fun e => SellerEarning.seller_id e =? seller_id) (seller_earnings d)) 0%Q.

(** Every user's earnings are the sum of their ledger entries, and every
    ledger entry belongs to a user. *)
Definition reconciled (d : db) : Prop :=
  (forall u, In u (users d) -> User.earnings u = ledger_total (User.id u) d)
  /\ (forall e, In e (seller_earnings d) ->
                In (SellerEarning.seller_id e) (map User.id (users d))).

Definition reconciled_kept (d d' : db) : Prop := reconciled d -> reconciled d'.

(** Every request but the direct adjustment of earnings. *)
Definition ledgered (r : request) : Prop :=
  match r with
  | PUT_admin_sellers_id_earnings _ _ _ _ => False
  | _ => True
  end.

(** ** routes/auth.js: login *)

Module Login.
(** [email] and [password] are strings when present. *)
Record body : Type := mkBody {
  email : option string;
  password : option string
}.

(** What the route answers: a refusal, or status 200 with a message, the
    token [jwt.sign({ userId: user.id, role: user.role }, ...)] -- which
    [authenticateToken] reads back as [Bearer user.id] while it is valid --
    and the user object { id, email, role, earnings }. *)
Inductive answer : Type :=
| Refused (r : response)
| LoggedIn (message : string) (token : authorization) (user : ReqUser.t).

(** SELECT * FROM users WHERE email = ? AND is_active = 1 *)
Definition select_active_user_by_email (email : string) (d : db) : option User.t :=
  find (fun u => (User.email u =? email)%string && User.is_active u) (users d).

Section Handler.
(** [await bcrypt.compare(password, user.password)] *)
Variable compare : string -> string -> bool.

(** router.post('/login', ...); the route only reads. *)
Definition handler (b : body) (d : db) : answer :=
  match email b, password b with
  | Some e, Some pw =>
      if truthy_text (email b) && truthy_text (password b) then
        match select_active_user_by_email e d with
        | None => Refused (res_error 401 "Credenciales inválidas.")
        | Some user =>
            if compare pw (User.password user) then
              LoggedIn "Login exitoso." (Bearer (User.id user))
                (ReqUser.mk (User.id user) (User.email user) (User.role user)
                   (User.earnings user))
            else Refused (res_error 401 "Credenciales inválidas.")
        end
      else Refused (res_error 400 "Email y contraseña son requeridos.")
  | _, _ => Refused (res_error 400 "Email y contraseña son requeridos.")
  end.
End Handler.
End Login.

(** ** routes/payments.js: the trade number *)

(** [merchantTradeNo: `ORDER_${order_id}_${timestamp}`] in the request that
    POST /payments/create builds for the provider. *)
Definition requestBody_merchantTradeNo (order_id timestamp : Z) : string :=
  String.append "ORDER_"
    (String.append (string_of_Z order_id) (String.append "_" (string_of_Z timestamp))).

(** Whether the character occurs in the text. *)
Fixpoint occurs (c : ascii) (s : string) : bool :=
  match s with
  | EmptyString => false
  | String c' rest => Ascii.eqb c' c || occurs c rest
  end.

(** ** database/db.js: seeding *)

Definition set_categories (f : list Category.t -> list Category.t) (d : db) : db :=
  mkDb (users d) (f (categories d)) (products d) (orders d) (order_items d)
       (transactions d) (seller_earnings d) (sqlite_sequence d).

(** SELECT id FROM users WHERE role = 'superuser' *)
Definition select_superuser (d : db) : option User.t :=
  find (fun u => role_eqb (User.role u) Superuser) (users d).

(** SELECT id FROM categories WHERE name = ? *)
Definition select_category_by_name (name : string) (d : db) : option Category.t :=
  find (fun c => (Category.name c =? name)%string) (categories d).

(** INSERT INTO categories (name, description) VALUES (?, ?); name is UNIQUE. *)
Definition insert_category (now : Z) (name description : string) : M Z :=
  fun d =>
    if existsb (fun c => (Category.name c =? name)%string) (categories d) then
      (Throw "UNIQUE constraint failed: categories.name", d)
    else
      let id := next_rowid T_categories (map Category.id (categories d)) d in
      let row := Category.mk id name (Some description) now in
      (Return id, set_sequence T_categories id (set_categories (fun rows => rows ++ [row]) d)).

(** An entry of the [categories] array of seedDatabase. *)
Module SeedCategory.
Record t : Type := mk {
  name : string;
  description : string
}.
End SeedCategory.

(** An entry of the [sampleProducts] array of seedSampleProducts. *)
Module SampleProduct.
Record t : Type := mk {
  name : string;
  description : string;
  price : Q;
  stock : Z;
  category : Z;
  image_url : string
}.
End SampleProduct.

(** The body of the loop of seedSampleProducts(). *)
Definition insert_sample (now : Z) (product : SampleProduct.t) : M unit :=
  CreateProduct.insert_product now (SampleProduct.name product)
    (Some (SampleProduct.description product)) (SampleProduct.price product)
    (SampleProduct.stock product) (SampleProduct.category product)
    (Some (SampleProduct.image_url product)) ;;;
  ret tt.

(** function seedSampleProducts(): nothing when the table has a row. *)
Definition seedSampleProducts (now : Z) (sampleProducts : list SampleProduct.t) : M unit :=
  productsCount <- select (fun d => Z.of_nat (List.length (products d))) ;;
  if 0 <? productsCount then ret tt
  else for_of sampleProducts (insert_sample now).

(** [process.env.SUPERUSER_EMAIL || 'admin@cashout.com'] *)
Definition superuser_email (SUPERUSER_EMAIL : option string) : string :=
  match or_else truthy_text SUPERUSER_EMAIL None with
  | Some e => e
  | None => "admin@cashout.com"
  end.

(** "Check if super admin exists": the superuser is inserted when no user
    has the role.  [hashedPassword] is
    [bcrypt.hashSync(process.env.SUPERUSER_PASSWORD || 'Admin123!', 10)]. *)
Definition seed_superuser (now : Z) (SUPERUSER_EMAIL : option string)
    (hashedPassword : string) : M unit :=
  superuserExists <- select select_superuser ;;
  match superuserExists with
  | Some _ => ret tt
  | None =>
      insert_user now (superuser_email SUPERUSER_EMAIL) hashedPassword Superuser None ;;;
      ret tt
  end.

(** The body of the loop over [categories]. *)
Definition seed_category (now : Z) (category : SeedCategory.t) : M unit :=
  exists_ <- select (select_category_by_name (SeedCategory.name category)) ;;
  match exists_ with
  | Some _ => ret tt
  | None =>
      insert_category now (SeedCategory.name category)
        (SeedCategory.description category) ;;;
      ret tt
  end.

(** The statements inside the try block of seedDatabase(); [categories] and
    [sampleProducts] are the two arrays of the file. *)
Definition seed (now : Z) (SUPERUSER_EMAIL : option string) (hashedPassword : string)
    (categories : list SeedCategory.t) (sampleProducts : list SampleProduct.t) : M unit :=
  seed_superuser now SUPERUSER_EMAIL hashedPassword ;;;
  for_of categories (seed_category now) ;;;
  seedSampleProducts now sampleProducts.

(** async function seedDatabase(): an error is logged and seeding stops
    there; what was written before stays. *)
Definition seedDatabase (now : Z) (SUPERUSER_EMAIL : option string) (hashedPassword : string)
    (categories : list SeedCategory.t) (sampleProducts : list SampleProduct.t) (d : db) : db :=
  snd (seed now SUPERUSER_EMAIL hashedPassword categories sampleProducts d).

(** initializeDatabase(): the database of the file when there is one, a new
    one otherwise; schema.sql creates only what is missing; then the seeds. *)
Definition initializeDatabase (now : Z) (SUPERUSER_EMAIL : option string)
    (hashedPassword : string) (categories : list SeedCategory.t)
    (sampleProducts : list SampleProduct.t) (file : option db) : db :=
  seedDatabase now SUPERUSER_EMAIL hashedPassword categories sampleProducts
    match file with
    | Some d => d
    | None => empty_db
    end.

(** What seeding leaves behind: a superuser, every category of the array,
    and products unless the array of samples is empty. *)
Definition seeded (cats : list SeedCategory.t) (samples : list SampleProduct.t) (d : db)
    : Prop :=
  select_superuser d <> None
  /\ (forall c, In c cats -> select_category_by_name (SeedCategory.name c) d <> None)
  /\ (products d <> [] \/ samples = []).

(** * Properties *)

(** ** Rows found by primary key after an UPDATE ... WHERE id = ? *)

Lemma find_map_update {A : Type} (key : A -> Z) (f : A -> A) (k k' : Z) (l : list A) :
  (forall x, key (f x) = key x) ->
  find (fun x => key x =? k') (map (fun x => if key x =? k then f x else x) l)
  = option_map (fun x => if key x =? k then f x else x) (find (fun x => key x =? k') l).
Proof.
  intros Hkey. induction l as [|x l IH]; simpl; [reflexivity|].
  destruct (key x =? k) eqn:Ek.
  - rewrite Hkey. destruct (key x =? k') eqn:Ek'; simpl; [now rewrite Ek | exact IH].
  - destruct (key x =? k') eqn:Ek'; simpl; [now rewrite Ek | exact IH].
Qed.

Lemma select_order_update (id id' : Z) (f : Order.t -> Order.t) (d : db) :
  (forall o, Order.id (f o) = Order.id o) ->
  select_order id' (update_order id f d)
  = option_map (fun o => if Order.id o =? id then f o else o) (select_order id' d).
Proof.
  intros Hid. unfold select_order, update_order, set_orders. simpl.
  now apply find_map_update.
Qed.

Lemma select_order_id (id : Z) (d : db) (o : Order.t) :
  select_order id d = Some o -> Order.id o = id.
Proof.
  unfold select_order. intros H. apply find_some in H. lia.
Qed.

Lemma authenticate_frame (a : authorization) (d d' : db) :
  users d' = users d -> authenticateToken a d' = authenticateToken a d.
Proof.
  intros H. unfold authenticateToken, select_active_user. now rewrite H.
Qed.

(** ** C1: overselling *)

(** C1 (the code departs from it).  Order creation compares each line with
    the stock as it stands before the order, line by line, and only then
    decrements.  In the shop, where product 1 has stock 2, a single order
    with two lines of 2 units of product 1 passes both comparisons, is
    answered 201 and leaves the stock of product 1 at -2. *)
Theorem create_order_same_product_twice_oversells :
  let r := CreateOrder.handler 100 (Bearer 2)
             (contact [CreateOrder.mkLine 1 2; CreateOrder.mkLine 1 2]) shop in
  stock_of 1 shop = Some 2
  /\ status (fst r) = 201
  /\ stock_of 1 (snd r) = Some (-2).
Proof. vm_compute. repeat split. Qed.

(** ** C3: the status machine *)

(** C3, as stated, fails: seller 3 completes order 1 and then asks for
    'pending'; the request is answered 200 and the order is pending again. *)
Lemma completed_order_reopened :
  let d := snd (UpdateStatus.handler 200 (Bearer 3) 1
                  (UpdateStatus.mkBody (Some "completed") None) shop_with_order) in
  let r := UpdateStatus.handler 300 (Bearer 3) 1
             (UpdateStatus.mkBody (Some "pending") None) d in
  option_map Order.status (select_order 1 d) = Some Completed
  /\ status (fst r) = 200
  /\ option_map Order.status (select_order 1 (snd r)) = Some Pending.
Proof. vm_compute. repeat split. Qed.

(** C3 (amended).  PUT /orders/:id/status never looks at the current status:
    for an existing order, whatever its status (completed and cancelled
    included), a request by a seller or the superuser with one of the four
    valid statuses is answered 200 and leaves the order with the requested
    status.  So the status of a completed or cancelled order stays what it
    was exactly when the request asks for that same status. *)
Theorem update_status_sets_requested_status :
  forall (now : Z) (a : authorization) (id : Z) (b : UpdateStatus.body) (d : db)
         (user : ReqUser.t) (st : order_status) (o : Order.t),
    authenticateToken a d = inr user ->
    requireRole [Seller; Superuser] user = None ->
    UpdateStatus.valid_status b = Some st ->
    select_order id d = Some o ->
    let r := UpdateStatus.handler now a id b d in
    status (fst r) = 200
    /\ (exists o', select_order id (snd r) = Some o' /\ Order.status o' = st)
    /\ (forall o', select_order id (snd r) = Some o' ->
          (Order.status o' = Order.status o <-> st = Order.status o)).
Proof.
  intros now a id b d user st o Hauth Hrole Hst Ho.
  pose proof (select_order_id _ _ _ Ho) as Hid.
  unfold UpdateStatus.handler, with_role, try_catch, bind, select, write, ret.
  rewrite Hauth, Hrole, Hst, Ho.
  destruct (order_status_eqb st Processing && negb (truthy_int (Order.seller_id o)));
    cbn [fst snd]; rewrite select_order_update by reflexivity; rewrite Ho; simpl;
    rewrite Hid, Z.eqb_refl; (split; [reflexivity|]); (split; [eexists; split; reflexivity|]);
    intros o' Ho'; inversion Ho'; subst o'; simpl; split; congruence.
Qed.

Lemma update_status_sets_requested_status_witness :
  let r := UpdateStatus.handler 300 (Bearer 3) 1
             (UpdateStatus.mkBody (Some "cancelled") None) shop_with_order in
  status (fst r) = 200
  /\ (exists o', select_order 1 (snd r) = Some o' /\ Order.status o' = Cancelled)
  /\ (forall o', select_order 1 (snd r) = Some o' ->
        (Order.status o' = Pending <-> Cancelled = Pending)).
Proof.
  exact (update_status_sets_requested_status 300 (Bearer 3) 1
           (UpdateStatus.mkBody (Some "cancelled") None) shop_with_order
           (ReqUser.mk 3 "a@example.com" Seller 0%Q) Cancelled
           (Order.mk 1 2 None Pending (0 + 10 * inject_Z 1)%Q (Some "Ana")
              (Some "buyer@example.com") None None None None 100 100)
           eq_refl eq_refl eq_refl eq_refl).
Defined.

(** ** C4: claiming a pending order *)

(** C4, as stated, fails.  Sellers 3 and 4 both ask to take the pending,
    unassigned order 1; the handlers run one after the other.  Both requests
    are answered 200: the second one is not refused with a Conflict (409). *)
Lemma second_claim_is_not_a_conflict :
  let claim := UpdateStatus.mkBody (Some "processing") None in
  let r1 := UpdateStatus.handler 200 (Bearer 3) 1 claim shop_with_order in
  let r2 := UpdateStatus.handler 201 (Bearer 4) 1 claim (snd r1) in
  option_map Order.status (select_order 1 shop_with_order) = Some Pending
  /\ option_map Order.seller_id (select_order 1 shop_with_order) = Some None
  /\ status (fst r1) = 200
  /\ status (fst r2) = 200
  /\ status (fst r2) <> 409.
Proof. vm_compute. repeat split; discriminate. Qed.

(** C4 (amended).  A pending, unassigned order is assigned to at most one
    seller: when two sellers (row ids are never 0) ask for 'processing' on it
    without naming a seller_id, and their requests are served one after the
    other, the first
    request sets seller_id to its caller and the second leaves that seller_id
    in place; the order ends up processing.  Both requests are answered 200:
    there is no Conflict response. *)
Theorem claim_assigns_first_seller_only :
  forall (now1 now2 : Z) (a1 a2 : authorization) (id : Z) (d : db)
         (s1 s2 : ReqUser.t) (o : Order.t),
    authenticateToken a1 d = inr s1 ->
    authenticateToken a2 d = inr s2 ->
    ReqUser.role s1 = Seller ->
    ReqUser.role s2 = Seller ->
    ReqUser.id s1 <> ReqUser.id s2 ->
    ReqUser.id s1 <> 0 ->
    select_order id d = Some o ->
    Order.status o = Pending ->
    Order.seller_id o = None ->
    let claim := UpdateStatus.mkBody (Some "processing") None in
    let r1 := UpdateStatus.handler now1 a1 id claim d in
    let r2 := UpdateStatus.handler now2 a2 id claim (snd r1) in
    status (fst r1) = 200
    /\ status (fst r2) = 200
    /\ (exists o1, select_order id (snd r1) = Some o1
                   /\ Order.seller_id o1 = Some (ReqUser.id s1)
                   /\ Order.status o1 = Processing)
    /\ (exists o2, select_order id (snd r2) = Some o2
                   /\ Order.seller_id o2 = Some (ReqUser.id s1)
                   /\ Order.seller_id o2 <> Some (ReqUser.id s2)
                   /\ Order.status o2 = Processing).
Proof.
  intros now1 now2 a1 a2 id d s1 s2 o Ha1 Ha2 Hr1 Hr2 Hne Hnz Ho Hst Hsel claim r1 r2.
  pose proof (select_order_id _ _ _ Ho) as Hid.
  assert (Hrole1 : requireRole [Seller; Superuser] s1 = None)
    by (unfold requireRole; rewrite Hr1; reflexivity).
  assert (Hrole2 : requireRole [Seller; Superuser] s2 = None)
    by (unfold requireRole; rewrite Hr2; reflexivity).
  assert (E1 : r1 = (res_json (JsonMessage "Estado de orden actualizado exitosamente."),
                     update_order id
                       (Order_with_status_seller Processing (Some (ReqUser.id s1)) now1) d)).
  { unfold r1, UpdateStatus.handler, with_role, try_catch, bind, select, write, ret.
    rewrite Ha1, Hrole1. unfold claim. cbn [UpdateStatus.valid_status UpdateStatus.status].
    change (order_status_of_string "processing") with (Some Processing).
    cbv beta iota. rewrite Ho, Hsel. reflexivity. }
  assert (Ho1 : select_order id (snd r1)
                = Some (Order_with_status_seller Processing (Some (ReqUser.id s1)) now1 o)).
  { rewrite E1. cbn [snd]. rewrite select_order_update by reflexivity.
    rewrite Ho. simpl. now rewrite Hid, Z.eqb_refl. }
  assert (Ha2' : authenticateToken a2 (snd r1) = inr s2).
  { rewrite <- Ha2. apply authenticate_frame. rewrite E1. reflexivity. }
  assert (E2 : r2 = (res_json (JsonMessage "Estado de orden actualizado exitosamente."),
                     update_order id (Order_with_status Processing now2) (snd r1))).
  { unfold r2, UpdateStatus.handler, with_role, try_catch, bind, select, write, ret.
    rewrite Ha2', Hrole2. unfold claim. cbn [UpdateStatus.valid_status UpdateStatus.status].
    change (order_status_of_string "processing") with (Some Processing).
    cbv beta iota. rewrite Ho1. cbn [Order.seller_id Order_with_status_seller truthy_int].
    destruct (ReqUser.id s1 =? 0) eqn:E0; [apply Z.eqb_eq in E0; contradiction|].
    reflexivity. }
  split; [rewrite E1; reflexivity|].
  split; [rewrite E2; reflexivity|].
  split; [eexists; split; [exact Ho1|split; reflexivity]|].
  eexists. split.
  - rewrite E2. cbn [snd]. rewrite select_order_update by reflexivity.
    rewrite Ho1. cbn [option_map Order_with_status_seller Order.id].
    rewrite Hid, Z.eqb_refl. reflexivity.
  - cbn. repeat split. intros H. inversion H. contradiction.
Qed.

Lemma claim_assigns_first_seller_only_witness :
  let claim := UpdateStatus.mkBody (Some "processing") None in
  let r1 := UpdateStatus.handler 200 (Bearer 3) 1 claim shop_with_order in
  let r2 := UpdateStatus.handler 201 (Bearer 4) 1 claim (snd r1) in
  status (fst r1) = 200
  /\ status (fst r2) = 200
  /\ (exists o1, select_order 1 (snd r1) = Some o1
                 /\ Order.seller_id o1 = Some 3
                 /\ Order.status o1 = Processing)
  /\ (exists o2, select_order 1 (snd r2) = Some o2
                 /\ Order.seller_id o2 = Some 3
                 /\ Order.seller_id o2 <> Some 4
                 /\ Order.status o2 = Processing).
Proof.
  refine (claim_assigns_first_seller_only 200 201 (Bearer 3) (Bearer 4) 1 shop_with_order
            (ReqUser.mk 3 "a@example.com" Seller 0%Q)
            (ReqUser.mk 4 "b@example.com" Seller 0%Q)
            (Order.mk 1 2 None Pending (0 + 10 * inject_Z 1)%Q (Some "Ana")
               (Some "buyer@example.com") None None None None 100 100)
            eq_refl eq_refl eq_refl eq_refl _ _ eq_refl eq_refl eq_refl);
    simpl; discriminate.
Defined.

(** ** C5 and C6: the payment webhook *)

(** The UPDATE on [transactions] never gets past [db.prepare]: the table has
    no column updated_at. *)
Lemma verify_transactions_throws (f : string -> option Z) (orderId : string) (d : db) :
  verify_transactions f orderId d = (Throw "no such column: updated_at", d).
Proof. reflexivity. Qed.

(** What a PAY_SUCCESS notification with a splittable reference does. *)
Lemma webhook_pay_success (f : string -> option Z) (now : Z) (req : webhook_request)
    (p : payload) (dt : payload_data) (tradeNo orderId : string) (d : db) :
  parsed_body req = Some p ->
  bizStatus p = Some "PAY_SUCCESS" ->
  data p = Some dt ->
  merchantTradeNo dt = Some tradeNo ->
  nth_error (split "_"%char tradeNo) 1 = Some orderId ->
  webhook f now req d
  = (mkResponse 500 (JsonWebhook "FAIL" (Some "no such column: updated_at")),
     process_order f now orderId d).
Proof.
  intros Hp Hbiz Hdata Hno Hseg.
  unfold webhook, try_catch, bind, write, ret.
  rewrite Hp, Hbiz, Hdata, Hno, Hseg. reflexivity.
Qed.

(** The handler never answers 401. *)
Lemma webhook_never_401 (f : string -> option Z) (now : Z) (req : webhook_request) (d : db) :
  status (fst (webhook f now req d)) <> 401.
Proof.
  unfold webhook, try_catch.
  match goal with |- context [match ?m d with _ => _ end] => destruct (m d) as [[r|e] d'] eqn:E end;
    cbn [fst status]; [|discriminate].
  unfold bind, ret, throw in E.
  destruct (parsed_body req) as [p|]; [|discriminate].
  match type of E with context [match ?m d with _ => _ end] => destruct (m d) as [[[]|e] d''] end;
    inversion E; subst; cbn; discriminate.
Qed.

(** The three signature headers have no influence on what the handler does. *)
Lemma webhook_ignores_headers (f : string -> option Z) (now : Z)
    (s t n s' t' n' : option string) (raw : string) (p : option payload) (d : db) :
  webhook f now (mkWebhook s t n raw p) d = webhook f now (mkWebhook s' t' n' raw p) d.
Proof. reflexivity. Qed.

(** Had [transactions] a column updated_at, the UPDATE would mark every
    transaction of the order, the earlier ones too. *)
Lemma mark_verified_marks_all :
  map Transaction.status (transactions shop_with_proofs) = [TxPending; TxPending]
  /\ map Transaction.status (transactions (mark_verified decimal_rowid "1" shop_with_proofs))
     = [TxVerified; TxVerified].
Proof. vm_compute. split; reflexivity. Qed.

(** C5, as stated, fails.  Order 1 has two pending transactions, the one of
    time 300 being the latest.  On PAY_SUCCESS for ORDER_1_1700000000000 the
    order becomes processing, then the UPDATE on transactions throws and the
    handler answers 500: the latest transaction is still pending. *)
Lemma webhook_leaves_latest_transaction_pending :
  let r := webhook decimal_rowid 400 (pay_success "ORDER_1_1700000000000") shop_with_proofs in
  option_map Transaction.id (select_latest_transaction 1 shop_with_proofs) = Some 2
  /\ option_map Order.status (select_order 1 (snd r)) = Some Processing
  /\ status (fst r) = 500
  /\ option_map Transaction.status (select_latest_transaction 1 (snd r)) = Some TxPending
  /\ option_map Transaction.status (select_latest_transaction 1 (snd r)) <> Some TxVerified.
Proof. vm_compute. repeat split; discriminate. Qed.

(** C5 (amended).  For every webhook payload with bizStatus PAY_SUCCESS whose
    merchantTradeNo has, as its second field between underscores, a text that
    stands for the id of an existing order, the handler sets that order's
    status to 'processing'; it changes no other order and no other column of
    that order but updated_at, and it looks at nothing else in the reference.
    (Nothing is said here about the transactions nor about the response.) *)
Theorem webhook_pay_success_sets_order_processing :
  forall (rowid_of_text : string -> option Z) (now : Z) (req : webhook_request)
         (p : payload) (dt : payload_data) (tradeNo orderId : string) (id : Z)
         (d : db) (o : Order.t),
    parsed_body req = Some p ->
    bizStatus p = Some "PAY_SUCCESS" ->
    data p = Some dt ->
    merchantTradeNo dt = Some tradeNo ->
    nth_error (split "_"%char tradeNo) 1 = Some orderId ->
    rowid_of_text orderId = Some id ->
    select_order id d = Some o ->
    let d' := snd (webhook rowid_of_text now req d) in
    select_order id d' = Some (Order_with_status Processing now o)
    /\ (forall id', id' <> id -> select_order id' d' = select_order id' d)
    /\ (forall req' p' dt' tradeNo',
          parsed_body req' = Some p' ->
          bizStatus p' = Some "PAY_SUCCESS" ->
          data p' = Some dt' ->
          merchantTradeNo dt' = Some tradeNo' ->
          nth_error (split "_"%char tradeNo') 1 = Some orderId ->
          webhook rowid_of_text now req' d = webhook rowid_of_text now req d).
Proof.
  intros f now req p dt tradeNo orderId id d o Hp Hbiz Hdata Hno Hseg Hrow Ho d'.
  pose proof (select_order_id _ _ _ Ho) as Hid.
  assert (Ed : d' = update_order id (Order_with_status Processing now) d).
  { unfold d'. rewrite (webhook_pay_success f now req p dt tradeNo orderId d) by assumption.
    cbn [snd]. unfold process_order. now rewrite Hrow. }
  split; [|split].
  - rewrite Ed, select_order_update by reflexivity. rewrite Ho. simpl.
    now rewrite Hid, Z.eqb_refl.
  - intros id' Hne. rewrite Ed, select_order_update by reflexivity.
    destruct (select_order id' d) as [o'|] eqn:Ho'; [|reflexivity].
    simpl. rewrite (select_order_id _ _ _ Ho').
    destruct (id' =? id) eqn:E; [apply Z.eqb_eq in E; contradiction|reflexivity].
  - intros req' p' dt' tradeNo' Hp' Hbiz' Hdata' Hno' Hseg'.
    rewrite (webhook_pay_success f now req p dt tradeNo orderId d) by assumption.
    now rewrite (webhook_pay_success f now req' p' dt' tradeNo' orderId d) by assumption.
Qed.

Lemma webhook_pay_success_sets_order_processing_witness :
  option_map Order.status
    (select_order 1
       (snd (webhook decimal_rowid 400 (pay_success "ORDER_1_1700000000000") shop_with_proofs)))
  = Some Processing.
Proof.
  destruct (webhook_pay_success_sets_order_processing decimal_rowid 400
              (pay_success "ORDER_1_1700000000000")
              (mkPayload (Some "PAY_SUCCESS") (Some (mkData (Some "ORDER_1_1700000000000"))))
              (mkData (Some "ORDER_1_1700000000000")) "ORDER_1_1700000000000" "1" 1
              shop_with_proofs
              (Order.mk 1 2 None Pending (0 + 10 * inject_Z 1)%Q (Some "Ana")
                 (Some "buyer@example.com") None None (Some "proof-2") (Some "tx-2") 100 300)
              eq_refl eq_refl eq_refl eq_refl eq_refl eq_refl eq_refl) as [H _].
  rewrite H. reflexivity.
Defined.

(** C6 (the code departs from it).  The notification below carries a
    signature header that is not the HMAC-SHA512 signature of the request,
    whatever the secret key.  The handler does not answer 401: it sets order
    1, which was pending, to processing. *)
Theorem webhook_accepts_bad_signature :
  forall (hmac_sha512_hex : string -> string -> string) (BINANCE_SECRET_KEY : string),
    let req := pay_success "ORDER_1_1700000000000" in
    let r := webhook decimal_rowid 400 req shop_with_proofs in
    binancepay_signature req
    <> Some (generateSignature hmac_sha512_hex BINANCE_SECRET_KEY
               "1700000000000" "nonce" (raw_body req)) ->
    status (fst r) <> 401
    /\ option_map Order.status (select_order 1 shop_with_proofs) = Some Pending
    /\ option_map Order.status (select_order 1 (snd r)) = Some Processing.
Proof.
  intros hmac key req r _. split; [apply webhook_never_401|].
  vm_compute. split; reflexivity.
Qed.

Lemma webhook_accepts_bad_signature_witness :
  let r := webhook decimal_rowid 400 (pay_success "ORDER_1_1700000000000") shop_with_proofs in
  status (fst r) <> 401
  /\ option_map Order.status (select_order 1 shop_with_proofs) = Some Pending
  /\ option_map Order.status (select_order 1 (snd r)) = Some Processing.
Proof.
  apply (webhook_accepts_bad_signature (fun key payload => "00ff") "secret").
  vm_compute. discriminate.
Defined.

(** ** C7: payment proof *)

Lemma Forall2_map_r {A : Type} (R : A -> A -> Prop) (f : A -> A) (l : list A) :
  (forall x, R x (f x)) -> Forall2 R l (map f l).
Proof. intros H. induction l; simpl; constructor; auto. Qed.

(** C7.  A buyer who submits a proof text and a txid for an order of theirs
    is answered 200.  Every row of [orders] with that id gets the proof and
    the txid and keeps every other column but updated_at (status, seller,
    total and contact included); the other rows of [orders] are untouched.
    Exactly one row is appended to [transactions]: it is pending, for the
    order's total_amount, and carries the order id, the buyer, the txid and
    the proof.  No other table changes. *)
Theorem payment_proof_records_proof_and_one_pending_transaction :
  forall (now : Z) (a : authorization) (id : Z) (b : PaymentProof.body) (d : db)
         (user : ReqUser.t) (o : Order.t) (proof txid : string),
    authenticateToken a d = inr user ->
    ReqUser.role user = Buyer ->
    select_order_of_buyer id (ReqUser.id user) d = Some o ->
    PaymentProof.payment_proof b = Value proof ->
    PaymentProof.binance_txid b = Value txid ->
    let r := PaymentProof.handler now a id b d in
    status (fst r) = 200
    /\ Forall2
         (fun o0 o1 =>
            same_but_proof o0 o1
            /\ (Order.id o0 = id ->
                  Order.payment_proof o1 = Some proof /\ Order.binance_txid o1 = Some txid)
            /\ (Order.id o0 <> id -> o1 = o0))
         (orders d) (orders (snd r))
    /\ (exists t,
          transactions (snd r) = transactions d ++ [t]
          /\ Transaction.status t = TxPending
          /\ Transaction.amount t = Order.total_amount o
          /\ Transaction.order_id t = id
          /\ Transaction.user_id t = ReqUser.id user
          /\ Transaction.binance_txid t = Some txid
          /\ Transaction.payment_proof_url t = Some proof)
    /\ users (snd r) = users d
    /\ products (snd r) = products d
    /\ order_items (snd r) = order_items d
    /\ seller_earnings (snd r) = seller_earnings d
    /\ categories (snd r) = categories d.
Proof.
  intros now a id b d user o proof txid Hauth Hrole Ho Hproof Htxid r.
  assert (Hreq : requireRole [Buyer] user = None)
    by (unfold requireRole; rewrite Hrole; reflexivity).
  unfold r, PaymentProof.handler, with_role, try_catch, bind, select, write, ret.
  rewrite Hauth, Hreq, Ho, Hproof, Htxid.
  cbn [bind_param ret insert_transaction fst snd status res_json
       orders transactions users products order_items seller_earnings categories
       set_sequence set_transactions update_order set_orders].
  split; [reflexivity|]. split.
  - apply Forall2_map_r. intros x. destruct (Order.id x =? id) eqn:E.
    + split; [unfold same_but_proof; cbn; tauto|]. split; [intros _; split; reflexivity|].
      intros Hne. apply Z.eqb_eq in E. contradiction.
    + split; [unfold same_but_proof; tauto|]. split; [|reflexivity].
      intros He. apply Z.eqb_neq in E. contradiction.
  - split; [eexists; split; [reflexivity|cbn; tauto]|]. tauto.
Qed.

Lemma payment_proof_records_proof_and_one_pending_transaction_witness :
  let r := PaymentProof.handler 200 (Bearer 2) 1
             (PaymentProof.mkBody (Value "proof-1") (Value "tx-1")) shop_with_order in
  status (fst r) = 200
  /\ List.length (transactions (snd r)) = S (List.length (transactions shop_with_order)).
Proof.
  destruct (payment_proof_records_proof_and_one_pending_transaction 200 (Bearer 2) 1
              (PaymentProof.mkBody (Value "proof-1") (Value "tx-1")) shop_with_order
              (ReqUser.mk 2 "buyer@example.com" Buyer 0%Q)
              (Order.mk 1 2 None Pending (0 + 10 * inject_Z 1)%Q (Some "Ana")
                 (Some "buyer@example.com") None None None None 100 100)
              "proof-1" "tx-1" eq_refl eq_refl eq_refl eq_refl eq_refl)
    as (H200 & _ & (t & Ht & _) & _).
  split; [exact H200|]. rewrite Ht. rewrite List.length_app. simpl. lia.
Defined.

(** ** What every handler preserves

    The handlers are sequences of a few elementary writes.  A relation between
    stores that is reflexive and transitive and that each elementary write of
    a handler respects is respected by the handler. *)

Section Preservation.
Variable R : db -> db -> Prop.
Hypothesis R_refl : forall d, R d d.
Hypothesis R_trans : forall d1 d2 d3, R d1 d2 -> R d2 d3 -> R d1 d3.

Lemma keeps_ret {A : Type} (a : A) : keeps R (ret a).
Proof. intros d. apply R_refl. Qed.

Lemma keeps_throw {A : Type} (e : string) : keeps R (@throw A e).
Proof. intros d. apply R_refl. Qed.

Lemma keeps_select {A : Type} (q : db -> A) : keeps R (select q).
Proof. intros d. apply R_refl. Qed.

Lemma keeps_write (f : db -> db) : (forall d, R d (f d)) -> keeps R (write f).
Proof. intros H d. apply H. Qed.

Lemma keeps_bind {A B : Type} (m : M A) (k : A -> M B) :
  keeps R m -> (forall a, keeps R (k a)) -> keeps R (bind m k).
Proof.
  intros Hm Hk d. unfold bind. specialize (Hm d).
  destruct (m d) as [[a|e] d1]; cbn [snd] in *; [|exact Hm].
  eapply R_trans; [exact Hm|apply Hk].
Qed.

Lemma keeps_bind_param {A : Type} (x : field A) : keeps R (bind_param x).
Proof. destruct x; [apply keeps_throw|apply keeps_ret|apply keeps_ret]. Qed.

Lemma keeps_for_of {A : Type} (xs : list A) (body : A -> M unit) :
  (forall x, keeps R (body x)) -> keeps R (for_of xs body).
Proof.
  intros H. induction xs as [|x xs IH]; simpl; [apply keeps_ret|].
  apply keeps_bind; [apply H|intros _; exact IH].
Qed.

Lemma keeps_prepare (cols named : list string) : keeps R (prepare cols named).
Proof. unfold prepare. destruct (find _ named); [apply keeps_throw|apply keeps_ret]. Qed.

Lemma preserved_try_catch (m : M response) (h : string -> response) :
  keeps R m -> preserved R (try_catch m h).
Proof.
  intros Hm d. unfold try_catch. specialize (Hm d).
  destruct (m d) as [[r|e] d1]; exact Hm.
Qed.

Lemma preserved_with_role (a : authorization) (roles : list role)
    (h : ReqUser.t -> db -> response * db) :
  (forall user, preserved R (h user)) -> preserved R (with_role a roles h).
Proof.
  intros H d. unfold with_role.
  destruct (authenticateToken a d) as [r|user]; [apply R_refl|].
  destruct (requireRole roles user); [apply R_refl|apply H].
Qed.

Lemma preserved_with_user (a : authorization) (h : ReqUser.t -> db -> response * db) :
  (forall user, preserved R (h user)) -> preserved R (with_user a h).
Proof.
  intros H d. unfold with_user.
  destruct (authenticateToken a d) as [r|user]; [apply R_refl|apply H].
Qed.
End Preservation.

Section Handlers.
Variable R : db -> db -> Prop.
Hypothesis R_refl : forall d, R d d.
Hypothesis R_trans : forall d1 d2 d3, R d1 d2 -> R d2 d3 -> R d1 d3.

(** The elementary writes. *)
Hypothesis W_sequence :
  forall t n d, t <> T_orders -> R d (set_sequence t n d).
Hypothesis W_products_map :
  forall f, (forall p, Product.id (f p) = Product.id p) ->
            forall d, R d (set_products (map f) d).
Hypothesis W_insert_product :
  forall now n descr p s c image,
    keeps R (CreateProduct.insert_product now n descr p s c image).
Hypothesis W_update_order :
  forall id f, (forall o, order_key (f o) = order_key o) ->
               forall d, R d (update_order id f d).
Hypothesis W_transactions : forall f d, R d (set_transactions f d).
Hypothesis W_seller_earnings : forall f d, R d (set_seller_earnings f d).
Hypothesis W_users_map :
  forall f, (forall u, User.earnings (f u) = User.earnings u) ->
            forall d, R d (set_users (map f) d).
Hypothesis W_insert_user :
  forall now e h r w, keeps R (insert_user now e h r w).
Hypothesis W_update_earnings :
  forall now id q, keeps R (write (UpdateEarnings.update_earnings now id q)).
Hypothesis W_add_earnings :
  forall now id q, keeps R (write (AssignSale.add_earnings now id q)).
Hypothesis W_insert_order :
  forall now buyer total n e p i, keeps R (insert_order now buyer total n e p i).
Hypothesis W_insert_order_item :
  forall oid pid q price, keeps R (insert_order_item oid pid q price).

Lemma keeps_insert_transaction now oid uid amount txid proof :
  keeps R (insert_transaction now oid uid amount txid proof).
Proof.
  intros d. unfold insert_transaction. cbn [snd].
  eapply R_trans; [apply W_transactions|apply W_sequence; discriminate].
Qed.

Lemma keeps_insert_seller_earning now sid oid amount :
  keeps R (AssignSale.insert_seller_earning now sid oid amount).
Proof.
  intros d. unfold AssignSale.insert_seller_earning. cbn [snd].
  eapply R_trans; [apply W_seller_earnings|apply W_sequence; discriminate].
Qed.

Lemma keeps_update_user now id e w act pw :
  keeps R (UpdateSeller.update_user now id e w act pw).
Proof.
  intros d. unfold UpdateSeller.update_user.
  destruct (_ && _); cbn [snd]; [apply R_refl|].
  apply W_users_map. intros u. destruct (User.id u =? id); reflexivity.
Qed.

Lemma keeps_not_null {A : Type} (c : string) (x : option A) :
  keeps R (UpdateProduct.not_null c x).
Proof.
  destruct x; [apply (keeps_ret R R_refl)|apply (keeps_throw R R_refl)].
Qed.

Ltac keeps_step :=
  lazymatch goal with
  | |- keeps _ (bind _ _) => apply (keeps_bind R R_trans); [|intro]
  | |- keeps _ (ret _) => apply (keeps_ret R R_refl)
  | |- keeps _ (throw _) => apply (keeps_throw R R_refl)
  | |- keeps _ (select _) => apply (keeps_select R R_refl)
  | |- keeps _ (bind_param _) => apply (keeps_bind_param R R_refl)
  | |- keeps _ (prepare _ _) => apply (keeps_prepare R R_refl)
  | |- keeps _ (for_of _ _) => apply (keeps_for_of R R_refl R_trans); intro
  | |- keeps _ (UpdateProduct.not_null _ _) => apply keeps_not_null
  | |- keeps _ (insert_transaction _ _ _ _ _ _) => apply keeps_insert_transaction
  | |- keeps _ (AssignSale.insert_seller_earning _ _ _ _) => apply keeps_insert_seller_earning
  | |- keeps _ (UpdateSeller.update_user _ _ _ _ _ _) => apply keeps_update_user
  | |- keeps _ (insert_user _ _ _ _ _) => apply W_insert_user
  | |- keeps _ (insert_order _ _ _ _ _ _ _) => apply W_insert_order
  | |- keeps _ (insert_order_item _ _ _ _) => apply W_insert_order_item
  | |- keeps _ (CreateProduct.insert_product _ _ _ _ _ _ _) => apply W_insert_product
  | |- keeps _ (write (UpdateEarnings.update_earnings _ _ _)) => apply W_update_earnings
  | |- keeps _ (write (AssignSale.add_earnings _ _ _)) => apply W_add_earnings
  | |- keeps _ (write _) => apply keeps_write; intro
  | |- keeps _ (match ?x with _ => _ end) => destruct x
  | |- R _ (update_order _ _ _) => apply W_update_order; reflexivity
  | |- R _ (set_products (map _) _) =>
      apply W_products_map;
      let p := fresh "p" in intro p;
      try match goal with |- context [if ?c then _ else _] => destruct c end; reflexivity
  | |- R _ (set_users (map _) _) =>
      apply W_users_map;
      let u := fresh "u" in intro u;
      try match goal with |- context [if ?c then _ else _] => destruct c end; reflexivity
  | |- R _ (set_transactions _ _) => apply W_transactions
  end.

Ltac handler_preserved :=
  try (apply (preserved_with_role R R_refl); intro);
  try (apply (preserved_with_user R R_refl); intro);
  try (apply (preserved_try_catch R));
  repeat keeps_step.

Lemma Register_preserved now h b : preserved R (Register.handler now h b).
Proof.
  unfold Register.handler, Credentials.create_account. handler_preserved.
Qed.

Lemma CreateSeller_preserved now a h b : preserved R (CreateSeller.handler now a h b).
Proof.
  unfold CreateSeller.handler, Credentials.create_account. handler_preserved.
Qed.

Lemma ListProducts_preserved c : preserved R (ListProducts.handler c).
Proof. intros d. apply R_refl. Qed.

Lemma GetProduct_preserved id : preserved R (GetProduct.handler id).
Proof. intros d. unfold GetProduct.handler. destruct (flat_map _ _); apply R_refl. Qed.

Lemma CreateProduct_preserved now a b : preserved R (CreateProduct.handler now a b).
Proof. unfold CreateProduct.handler. handler_preserved. Qed.

Lemma UpdateProduct_preserved now a id b : preserved R (UpdateProduct.handler now a id b).
Proof. unfold UpdateProduct.handler. handler_preserved. Qed.

Lemma DeleteProduct_preserved a id : preserved R (DeleteProduct.handler a id).
Proof.
  unfold DeleteProduct.handler, DeleteProduct.soft_delete. handler_preserved.
Qed.

Lemma CreateOrder_preserved now a b : preserved R (CreateOrder.handler now a b).
Proof.
  unfold CreateOrder.handler, CreateOrder.add_item, update_product_stock.
  handler_preserved.
Qed.

Lemma ListOrders_preserved a : preserved R (ListOrders.handler a).
Proof.
  unfold ListOrders.handler. apply (preserved_with_user R R_refl).
  intros user d. apply R_refl.
Qed.

Lemma GetOrder_preserved a id : preserved R (GetOrder.handler a id).
Proof.
  unfold GetOrder.handler. apply (preserved_with_user R R_refl).
  intros user d. destruct (select_order_with_emails id d) as [[[o e] s]|]; [|apply R_refl].
  destruct (GetOrder.forbidden user o); apply R_refl.
Qed.

Lemma UpdateStatus_preserved now a id b : preserved R (UpdateStatus.handler now a id b).
Proof. unfold UpdateStatus.handler. handler_preserved. Qed.

Lemma PaymentProof_preserved now a id b : preserved R (PaymentProof.handler now a id b).
Proof. unfold PaymentProof.handler. handler_preserved. Qed.

Lemma CreatePayment_preserved now ts key a b :
  preserved R (CreatePayment.handler now ts key a b).
Proof. unfold CreatePayment.handler. handler_preserved. Qed.

Lemma PaymentStatus_preserved a oid : preserved R (PaymentStatus.handler a oid).
Proof.
  unfold PaymentStatus.handler. apply (preserved_with_user R R_refl).
  intros user d. destruct (select_latest_transaction oid d); apply R_refl.
Qed.

Lemma webhook_preserved f now req : preserved R (webhook f now req).
Proof.
  unfold webhook, verify_transactions, process_order, mark_verified.
  apply (preserved_try_catch R). repeat keeps_step;
    match goal with
    | |- R _ (match ?x with _ => _ end _) => destruct x; [repeat keeps_step|apply R_refl]
    end.
Qed.

Lemma UpdateSeller_preserved now a id h b : preserved R (UpdateSeller.handler now a id h b).
Proof. unfold UpdateSeller.handler. handler_preserved. Qed.

Lemma DeactivateSeller_preserved a id : preserved R (DeactivateSeller.handler a id).
Proof. unfold DeactivateSeller.handler. handler_preserved. Qed.

Lemma UpdateEarnings_preserved now a id b : preserved R (UpdateEarnings.handler now a id b).
Proof. unfold UpdateEarnings.handler. handler_preserved. Qed.

Lemma AssignSale_preserved now a id b : preserved R (AssignSale.handler now a id b).
Proof. unfold AssignSale.handler. handler_preserved. Qed.
End Handlers.

(** ** Row ids *)

Lemma max_rowid_ge (ids : list Z) (x : Z) : In x ids -> x <= max_rowid ids.
Proof.
  induction ids as [|y ids IH]; simpl; [tauto|].
  intros [->|H]; [lia|]. specialize (IH H). lia.
Qed.

Lemma next_rowid_fresh (t : table) (ids : list Z) (d : db) : ~ In (next_rowid t ids d) ids.
Proof.
  intros H. apply max_rowid_ge in H. unfold next_rowid in H. lia.
Qed.

Lemma NoDup_key_eq {A : Type} (key : A -> Z) (l : list A) (x y : A) :
  NoDup (map key l) -> In x l -> In y l -> key x = key y -> x = y.
Proof.
  induction l as [|z l IH]; simpl; [tauto|].
  intros Hnd Hx Hy Hk. inversion Hnd as [|? ? Hnotin Hnd']; subst.
  destruct Hx as [->|Hx], Hy as [->|Hy]; auto.
  - exfalso. apply Hnotin. rewrite Hk. now apply in_map.
  - exfalso. apply Hnotin. rewrite <- Hk. now apply in_map.
Qed.

Lemma find_key_map {A B : Type} (key : A -> Z) (val : A -> B) (k : Z) (l l' : list A) :
  map (fun x => (key x, val x)) l' = map (fun x => (key x, val x)) l ->
  option_map val (find (fun x => key x =? k) l') = option_map val (find (fun x => key x =? k) l).
Proof.
  revert l'. induction l as [|x l IH]; intros [|x' l'] H; simpl in *; try discriminate;
    [reflexivity|].
  inversion H as [[Hk Hv Hl]]. rewrite Hk.
  destruct (key x =? k); simpl; [now rewrite Hv|now apply IH].
Qed.

Lemma find_app_l {A : Type} (p : A -> bool) (l l' : list A) (x : A) :
  find p l = Some x -> find p (l ++ l') = Some x.
Proof.
  induction l as [|y l IH]; simpl; [discriminate|]. destruct (p y); auto.
Qed.

Lemma find_app_none {A : Type} (p : A -> bool) (l l' : list A) :
  find p l = None -> find p (l ++ l') = find p l'.
Proof.
  induction l as [|y l IH]; simpl; [reflexivity|]. destruct (p y); [discriminate|auto].
Qed.

Lemma filter_none {A : Type} (p : A -> bool) (l : list A) :
  (forall x, In x l -> p x = false) -> filter p l = [].
Proof.
  induction l as [|y l IH]; simpl; [reflexivity|]. intros H.
  rewrite (H y (or_introl eq_refl)). apply IH. intros x Hx. apply H. now right.
Qed.

Lemma filter_all {A : Type} (p : A -> bool) (l : list A) :
  (forall x, In x l -> p x = true) -> filter p l = l.
Proof.
  induction l as [|y l IH]; simpl; [reflexivity|]. intros H.
  rewrite (H y (or_introl eq_refl)). f_equal. apply IH. intros x Hx. apply H. now right.
Qed.

(** ** The frame of the orders *)

Lemma orders_frame_refl (d : db) : orders_frame d d.
Proof. unfold orders_frame. tauto. Qed.

Lemma orders_frame_trans (d1 d2 d3 : db) :
  orders_frame d1 d2 -> orders_frame d2 d3 -> orders_frame d1 d3.
Proof.
  unfold orders_frame. intros (A1 & B1 & C1 & D1) (A2 & B2 & C2 & D2).
  repeat split; try congruence. auto.
Qed.

Lemma orders_frame_sequence (t : table) (n : Z) (d : db) :
  t <> T_orders -> orders_frame d (set_sequence t n d).
Proof.
  intros Ht. unfold orders_frame. cbn. repeat split; auto.
  destruct t; try reflexivity. contradiction.
Qed.

Lemma orders_frame_products_map (f : Product.t -> Product.t) :
  (forall p, Product.id (f p) = Product.id p) ->
  forall d, orders_frame d (set_products (map f) d).
Proof.
  intros Hf d. unfold orders_frame, products_unique. cbn. repeat split; auto.
  rewrite map_map. now rewrite (map_ext _ Product.id Hf).
Qed.

Lemma orders_frame_insert_product now n descr p s c image :
  keeps orders_frame (CreateProduct.insert_product now n descr p s c image).
Proof.
  intros d. unfold orders_frame, products_unique. cbn. repeat split; auto.
  intros Hnd. rewrite map_app. cbn.
  apply NoDup_app; [exact Hnd|constructor; [tauto|constructor]|].
  intros x Hx [<-|[]]. revert Hx. apply next_rowid_fresh.
Qed.

Lemma orders_frame_update_order (id : Z) (f : Order.t -> Order.t) :
  (forall o, order_key (f o) = order_key o) ->
  forall d, orders_frame d (update_order id f d).
Proof.
  intros Hf d. unfold orders_frame. cbn. repeat split; auto.
  rewrite map_map. apply map_ext. intros o. destruct (Order.id o =? id); auto.
Qed.

Lemma orders_frame_users (f : list User.t -> list User.t) (d : db) :
  orders_frame d (set_users f d).
Proof. unfold orders_frame. cbn. tauto. Qed.

Lemma orders_frame_insert_user now e h r w : keeps orders_frame (insert_user now e h r w).
Proof.
  intros d. unfold insert_user. destruct (existsb _ _); cbn [snd];
    [apply orders_frame_refl|].
  eapply orders_frame_trans;
    [apply orders_frame_users|apply orders_frame_sequence; discriminate].
Qed.

(** Every handler but POST /orders keeps the frame of the orders. *)
Lemma handle_orders_frame (f : string -> option Z) (r : request) (d : db) :
  (forall now a b, r <> POST_orders now a b) ->
  orders_frame d (snd (handle f r d)).
Proof.
  intros Hr.
  assert (Wseq := orders_frame_sequence).
  assert (Wpm := orders_frame_products_map).
  assert (Wip := orders_frame_insert_product).
  assert (Wuo := orders_frame_update_order).
  assert (Wtx : forall g x, orders_frame x (set_transactions g x))
    by (intros; unfold orders_frame; cbn; tauto).
  assert (Wse : forall g x, orders_frame x (set_seller_earnings g x))
    by (intros; unfold orders_frame; cbn; tauto).
  assert (Wum : forall g, (forall u, User.earnings (g u) = User.earnings u) ->
                          forall x, orders_frame x (set_users (map g) x))
    by (intros; apply orders_frame_users).
  assert (Wiu := orders_frame_insert_user).
  assert (Wue : forall now id q,
             keeps orders_frame (write (UpdateEarnings.update_earnings now id q)))
    by (intros now id q x; apply orders_frame_users).
  assert (Wae : forall now id q,
             keeps orders_frame (write (AssignSale.add_earnings now id q)))
    by (intros now id q x; apply orders_frame_users).
  pose proof orders_frame_refl as Rr. pose proof orders_frame_trans as Rt.
  destruct r; cbn [handle].
  - apply Register_preserved; auto.
  - apply ListProducts_preserved; auto.
  - apply GetProduct_preserved; auto.
  - apply CreateProduct_preserved; auto.
  - apply UpdateProduct_preserved; auto.
  - apply DeleteProduct_preserved; auto.
  - exfalso. eapply Hr. reflexivity.
  - apply ListOrders_preserved; auto.
  - apply GetOrder_preserved; auto.
  - apply UpdateStatus_preserved; auto.
  - apply PaymentProof_preserved; auto.
  - apply CreatePayment_preserved; auto.
  - apply webhook_preserved; auto.
  - apply PaymentStatus_preserved; auto.
  - apply CreateSeller_preserved; auto.
  - apply UpdateSeller_preserved; auto.
  - apply DeactivateSeller_preserved; auto.
  - apply UpdateEarnings_preserved; auto.
  - apply AssignSale_preserved; auto.
Qed.

Lemma orders_frame_bound (d d' : db) : orders_frame d d' -> order_bound d' = order_bound d.
Proof.
  intros (_ & Hs & Hk & _). unfold order_bound. rewrite Hs.
  replace (map Order.id (orders d')) with (map fst (map order_key (orders d')))
    by (rewrite map_map; reflexivity).
  rewrite Hk, map_map. reflexivity.
Qed.

Lemma orders_frame_select (d d' : db) (id : Z) (o : Order.t) :
  orders_frame d d' -> select_order id d = Some o ->
  exists o', select_order id d' = Some o' /\ Order.total_amount o' = Order.total_amount o.
Proof.
  intros (_ & _ & Hk & _) Ho. unfold select_order in *.
  pose proof (find_key_map Order.id Order.total_amount id (orders d) (orders d') Hk) as H.
  rewrite Ho in H. destruct (find _ (orders d')) as [o'|]; [|discriminate].
  exists o'. split; [reflexivity|]. now inversion H.
Qed.

Lemma orders_frame_well_formed (d d' : db) :
  orders_frame d d' -> well_formed d -> well_formed d'.
Proof.
  intros F [Hp Hi]. pose proof (orders_frame_bound _ _ F) as Hb.
  destruct F as (Hitems & _ & _ & Hu). split; [auto|].
  intros oi Hoi. rewrite Hb. apply Hi. now rewrite <- Hitems.
Qed.

Lemma orders_frame_settled (d d' : db) (id : Z) (total : Q) (its : list OrderItem.t) :
  orders_frame d d' -> settled id total its d -> settled id total its d'.
Proof.
  intros F ((o & Ho & Ht) & Hits & Hsum & Hb).
  destruct (orders_frame_select _ _ _ _ F Ho) as (o' & Ho' & Ht').
  pose proof (orders_frame_bound _ _ F) as Hb'.
  destruct F as (Hitems & _). repeat split.
  - exists o'. split; [exact Ho'|congruence].
  - unfold items_of in *. now rewrite Hitems.
  - exact Hsum.
  - now rewrite Hb'.
Qed.

(** ** POST /orders *)

Lemma price_of_same_keys (d d' : db) (pid : Z) :
  map product_key (products d') = map product_key (products d) ->
  price_of d' pid = price_of d pid.
Proof.
  intros H. unfold price_of, select_product.
  pose proof (find_key_map Product.id Product.price pid (products d) (products d') H) as E.
  destruct (find _ (products d')), (find _ (products d)); simpl in E;
    try discriminate; [now inversion E|reflexivity].
Qed.

(** The second loop, from any store: it appends line items of the new order
    and touches neither [orders] nor the ids and prices of [products]; when
    it completes, the appended items are the requested lines at the prices of
    the store it started from. *)
Lemma add_items_effect (oid : Z) (lines : list CreateOrder.line) :
  forall (d1 : db) (out : outcome unit) (d2 : db),
    for_of lines (CreateOrder.add_item oid) d1 = (out, d2) ->
    orders d2 = orders d1
    /\ users d2 = users d1
    /\ sqlite_sequence d2 T_orders = sqlite_sequence d1 T_orders
    /\ map product_key (products d2) = map product_key (products d1)
    /\ exists its,
         order_items d2 = order_items d1 ++ its
         /\ Forall (fun oi => OrderItem.order_id oi = oid) its
         /\ (out = Return tt -> map item_columns its = map (line_columns d1) lines).
Proof.
  induction lines as [|l lines IH]; intros d1 out d2 H.
  - inversion H; subst. repeat split. exists []. rewrite app_nil_r. auto.
  - cbn [for_of] in H. unfold bind at 1 in H.
    destruct (CreateOrder.add_item oid l d1) as [[[]|e] dm] eqn:Estep.
    + unfold CreateOrder.add_item, bind, select, write, throw in Estep.
      destruct (select_product (CreateOrder.product_id l) d1) as [p|] eqn:Ep;
        [|discriminate].
      cbn in Estep. inversion Estep as [Edm]. clear Estep.
      destruct (IH dm out d2 H) as (Ho & Hu & Hs & Hk & its & Hits & Hall & Hcols).
      rewrite <- Edm in Ho, Hu, Hs, Hk, Hits. cbn in Ho, Hu, Hs, Hk, Hits.
      assert (Hkeys : map product_key (products dm) = map product_key (products d1)).
      { rewrite <- Edm. cbn. rewrite map_map. apply map_ext. intros x.
        destruct (Product.id x =? CreateOrder.product_id l); reflexivity. }
      repeat split; try assumption.
      * rewrite Hk, map_map. apply map_ext. intros x.
        destruct (Product.id x =? CreateOrder.product_id l); reflexivity.
      * eexists (_ :: its). split; [rewrite Hits, <- app_assoc; reflexivity|].
        split; [constructor; [reflexivity|exact Hall]|].
        intros Hout. cbn [map]. f_equal.
        -- unfold item_columns, line_columns, price_of. cbn. now rewrite Ep.
        -- rewrite (Hcols Hout). apply map_ext. intros l'. unfold line_columns.
           now rewrite (price_of_same_keys d1 dm _ Hkeys).
    + inversion H; subst.
      unfold CreateOrder.add_item, bind, select, write, throw in Estep.
      destruct (select_product (CreateOrder.product_id l) d1) as [p|] eqn:Ep.
      * cbn in Estep. discriminate.
      * inversion Estep; subst. repeat split. exists []. rewrite app_nil_r.
        repeat split; [constructor|discriminate].
Qed.

(** The first loop: when it lets the order through, the total it returns is
    the total of the lines at the prices of the store. *)
Lemma verify_stock_total (d : db) (lines : list CreateOrder.line) :
  products_unique d ->
  forall acc total,
    CreateOrder.verify_stock d lines acc = inr total -> total = lines_total d lines acc.
Proof.
  intros Hu. induction lines as [|l lines IH]; intros acc total H; simpl in H.
  - now inversion H.
  - destruct (select_active_product (CreateOrder.product_id l) d) as [p|] eqn:Ep;
      [|discriminate].
    destruct (Product.stock p <? CreateOrder.quantity l); [discriminate|].
    apply IH in H. rewrite H. cbn [lines_total fold_left]. unfold lines_total.
    f_equal. f_equal. f_equal. unfold price_of.
    unfold select_active_product in Ep. apply find_some in Ep. destruct Ep as [Hin Hc].
    apply andb_true_iff in Hc. destruct Hc as [Hid _].
    destruct (select_product (CreateOrder.product_id l) d) as [p'|] eqn:Ep'.
    + unfold select_product in Ep'. apply find_some in Ep'. destruct Ep' as [Hin' Hid'].
      assert (p' = p) by (apply (NoDup_key_eq Product.id (products d)); auto; lia).
      now subst.
    + unfold select_product in Ep'. eapply find_none in Ep'; [|exact Hin]. cbn in Ep'.
      congruence.
Qed.

Lemma items_total_columns (its : list OrderItem.t) (d : db) (lines : list CreateOrder.line) :
  map item_columns its = map (line_columns d) lines ->
  forall acc,
    fold_left (fun total oi =>
                 (total + OrderItem.price oi * inject_Z (OrderItem.quantity oi))%Q) its acc
    = lines_total d lines acc.
Proof.
  revert lines. induction its as [|oi its IH]; intros [|l lines] H acc; simpl in H;
    try discriminate; [reflexivity|].
  inversion H as [[Hp Hq Hprice Hrest]]. cbn [fold_left lines_total].
  unfold lines_total in IH. rewrite (IH lines Hrest). now rewrite Hq, Hprice, Hp.
Qed.

(** What POST /orders does to the store: nothing (and the answer is not 201),
    or one new order with the next id and the verified total, and line items
    of that order; when the answer is 201, the line items are the requested
    lines at the prices of the store. *)
Lemma create_order_effect (now : Z) (a : authorization) (b : CreateOrder.body)
    (d : db) (r : response) (d' : db) :
  CreateOrder.handler now a b d = (r, d') ->
  let oid := order_bound d + 1 in
  (d' = d /\ status r <> 201)
  \/ (exists row its total,
        CreateOrder.verify_stock d (CreateOrder.items b) 0%Q = inr total
        /\ orders d' = orders d ++ [row]
        /\ Order.id row = oid
        /\ Order.total_amount row = total
        /\ Order.status row = Pending
        /\ users d' = users d
        /\ sqlite_sequence d' T_orders = oid
        /\ map product_key (products d') = map product_key (products d)
        /\ order_items d' = order_items d ++ its
        /\ Forall (fun oi => OrderItem.order_id oi = oid) its
        /\ (status r = 201 ->
              (exists msg, r = mkResponse 201 (JsonOrderCreated msg oid total))
              /\ map item_columns its = map (line_columns d) (CreateOrder.items b))).
Proof.
  intros H oid. unfold CreateOrder.handler, with_role in H.
  destruct (authenticateToken a d) as [r0|user] eqn:Ea.
  { left. injection H as <- <-. split; [reflexivity|].
    destruct a; cbn in Ea; try (inversion Ea; cbn; discriminate).
    destruct (select_active_user userId d); inversion Ea; cbn; discriminate. }
  destruct (requireRole [Buyer] user) as [r0|] eqn:Er.
  { left. injection H as <- <-. split; [reflexivity|]. unfold requireRole in Er.
    destruct (existsb _ _); inversion Er; cbn; discriminate. }
  unfold try_catch in H.
  destruct (CreateOrder.items b) as [|l0 ls] eqn:Eitems.
  { left. injection H as <- <-. cbn. split; [reflexivity|discriminate]. }
  cbv iota in H. rewrite <- Eitems in H. rewrite <- Eitems.
  destruct (negb (truthy_text (CreateOrder.contact_name b)
                  && truthy_text (CreateOrder.contact_email b))).
  { left. injection H as <- <-. cbn. split; [reflexivity|discriminate]. }
  unfold bind at 1 in H. unfold select at 1 in H. cbv beta iota in H.
  destruct (CreateOrder.verify_stock d (CreateOrder.items b) 0%Q) as [r0|total] eqn:Ev.
  { left. injection H as <- <-. split; [reflexivity|].
    clear - Ev. revert Ev. generalize 0%Q. generalize (CreateOrder.items b).
    induction l as [|l ls IH]; intros q Ev; simpl in Ev; [discriminate|].
    destruct (select_active_product _ d); [|inversion Ev; subst; cbn; discriminate].
    destruct (_ <? _); [inversion Ev; subst; cbn; discriminate|]. eapply IH, Ev. }
  right. unfold bind at 1 in H. unfold insert_order at 1 in H. cbv beta iota zeta in H.
  unfold next_rowid in H. fold (order_bound d) in H. fold oid in H.
  set (row := Order.mk oid (ReqUser.id user) None Pending total
                (CreateOrder.contact_name b) (CreateOrder.contact_email b)
                (or_else truthy_text (CreateOrder.contact_phone b) None)
                (or_else truthy_text (CreateOrder.contact_info b) None)
                None None now now) in H.
  set (d1 := set_sequence T_orders oid (set_orders (fun rows => rows ++ [row]) d)) in H.
  unfold bind at 1 in H.
  destruct (for_of (CreateOrder.items b) (CreateOrder.add_item oid) d1) as [out d2] eqn:Eloop.
  destruct (add_items_effect oid _ d1 out d2 Eloop)
    as (Ho & Hu & Hs & Hk & its & Hits & Hall & Hcols).
  exists row, its, total.
  assert (Hd : d' = d2) by (destruct out as [[]|e]; cbn in H; injection H as _ <-; reflexivity).
  subst d'. rewrite Ho, Hu, Hs, Hk, Hits. subst d1. cbn.
  repeat split; auto.
  - destruct out as [[]|e]; cbn in H; injection H as <-; [eexists; reflexivity|].
    cbn in *; discriminate.
  - destruct out as [[]|e]; cbn in H; injection H as <-; [|cbn in *; discriminate].
    rewrite (Hcols eq_refl). apply map_ext. intros l. unfold line_columns.
    f_equal.
Qed.

Lemma find_all_false {A : Type} (p : A -> bool) (l : list A) :
  (forall x, In x l -> p x = false) -> find p l = None.
Proof.
  induction l as [|y l IH]; simpl; [reflexivity|]. intros H.
  rewrite (H y (or_introl eq_refl)). apply IH. intros x Hx. apply H. now right.
Qed.

Lemma order_id_le_bound (d : db) (o : Order.t) : In o (orders d) -> Order.id o <= order_bound d.
Proof.
  intros H. unfold order_bound.
  pose proof (max_rowid_ge (map Order.id (orders d)) (Order.id o) (in_map _ _ _ H)). lia.
Qed.

Lemma order_bound_sequence (d : db) : sqlite_sequence d T_orders <= order_bound d.
Proof. unfold order_bound. lia. Qed.

Lemma map_product_key_ids (l l' : list Product.t) :
  map product_key l' = map product_key l -> map Product.id l' = map Product.id l.
Proof.
  intros H.
  replace (map Product.id l') with (map fst (map product_key l'))
    by (rewrite map_map; reflexivity).
  rewrite H, map_map. reflexivity.
Qed.

Lemma order_bound_app (d d' : db) (rows : list Order.t) :
  orders d' = orders d ++ rows ->
  sqlite_sequence d T_orders <= sqlite_sequence d' T_orders ->
  order_bound d <= order_bound d'.
Proof.
  intros Ho Hs. unfold order_bound. rewrite Ho, map_app.
  assert (max_rowid (map Order.id (orders d))
          <= max_rowid (map Order.id (orders d) ++ map Order.id rows)).
  { generalize (map Order.id (orders d)). intros l.
    induction l as [|x l IH]; simpl.
    - induction (map Order.id rows) as [|y ys IHy]; simpl; lia.
    - lia. }
  lia.
Qed.

(** POST /orders keeps a well-formed store well-formed. *)
Lemma create_order_well_formed (now : Z) (a : authorization) (b : CreateOrder.body) (d : db) :
  well_formed d -> well_formed (snd (CreateOrder.handler now a b d)).
Proof.
  intros [Hp Hi].
  destruct (CreateOrder.handler now a b d) as [r d'] eqn:E. cbn [snd].
  destruct (create_order_effect _ _ _ _ _ _ E)
    as [[-> _]|(row & its & total & _ & Ho & Hid & _ & _ & _ & Hs & Hk & Hits & Hall & _)];
    [split; assumption|].
  assert (Hb : order_bound d + 1 <= order_bound d').
  { rewrite <- Hs. apply order_bound_sequence. }
  split.
  - unfold products_unique in *. now rewrite (map_product_key_ids _ _ Hk).
  - intros oi Hoi. rewrite Hits in Hoi. apply in_app_or in Hoi. destruct Hoi as [Hoi|Hoi].
    + specialize (Hi oi Hoi). lia.
    + rewrite Forall_forall in Hall. rewrite (Hall oi Hoi). exact Hb.
Qed.

(** An order that POST /orders answers with 201 is settled: it is there with
    the total of the answer, and that total is the sum over its line items. *)
Lemma create_order_settles (now : Z) (a : authorization) (b : CreateOrder.body)
    (d d' : db) (msg : string) (oid : Z) (total : Q) :
  well_formed d ->
  CreateOrder.handler now a b d = (mkResponse 201 (JsonOrderCreated msg oid total), d') ->
  settled oid total (items_of oid d') d'
  /\ map item_columns (items_of oid d') = map (line_columns d) (CreateOrder.items b)
  /\ total = lines_total d (CreateOrder.items b) 0%Q.
Proof.
  intros [Hp Hi] E.
  destruct (create_order_effect _ _ _ _ _ _ E)
    as [[_ Hne]|(row & its & total' & Hv & Ho & Hid & Htot & _ & _ & Hs & Hk & Hits & Hall & H201)];
    [cbn in Hne; contradiction|].
  destruct (H201 eq_refl) as [[msg' Hr] Hcols].
  injection Hr as _ Eoid Etotal. subst total' total.
  assert (Hitems : items_of oid d' = its).
  { unfold items_of. rewrite Hits, filter_app, filter_none, filter_all; [reflexivity| |].
    - intros oi Hoi. rewrite Forall_forall in Hall. rewrite (Hall oi Hoi), Eoid.
      apply Z.eqb_refl.
    - intros oi Hoi. specialize (Hi oi Hoi). apply Z.eqb_neq. lia. }
  pose proof (verify_stock_total d _ Hp _ _ Hv) as Hsum.
  split; [|split; [now rewrite Hitems|exact Hsum]].
  split; [|split; [reflexivity|split]].
  - exists row. split; [|reflexivity]. unfold select_order. rewrite Ho.
    rewrite find_app_none.
    + cbn. rewrite Hid, <- Eoid, Z.eqb_refl. reflexivity.
    + apply find_all_false. intros o Hin. apply Z.eqb_neq.
      pose proof (order_id_le_bound d o Hin). lia.
  - rewrite Hitems. unfold items_total.
    rewrite (items_total_columns its d _ Hcols). symmetry. exact Hsum.
  - rewrite Eoid, <- Hs. apply order_bound_sequence.
Qed.

(** POST /orders leaves the earlier orders settled. *)
Lemma create_order_keeps_settled (now : Z) (a : authorization) (b : CreateOrder.body)
    (d : db) (id : Z) (total : Q) (items : list OrderItem.t) :
  settled id total items d -> settled id total items (snd (CreateOrder.handler now a b d)).
Proof.
  intros ((o & Ho & Ht) & Hitems & Hsum & Hb).
  destruct (CreateOrder.handler now a b d) as [r d'] eqn:E. cbn [snd].
  destruct (create_order_effect _ _ _ _ _ _ E)
    as [[-> _]|(row & its & total' & _ & Hor & Hid & _ & _ & _ & Hs & _ & Hits & Hall & _)].
  { repeat split; eauto. }
  split; [|split; [|split]].
  - exists o. split; [|exact Ht]. unfold select_order in *. rewrite Hor.
    now apply find_app_l.
  - unfold items_of in *. rewrite Hits, filter_app, (filter_none _ its), app_nil_r;
      [exact Hitems|].
    intros oi Hoi. rewrite Forall_forall in Hall. rewrite (Hall oi Hoi).
    apply Z.eqb_neq. lia.
  - exact Hsum.
  - pose proof (order_bound_sequence d'). lia.
Qed.

Lemma handle_well_formed (f : string -> option Z) (r : request) (d : db) :
  well_formed d -> well_formed (snd (handle f r d)).
Proof.
  intros H. destruct r;
    try (eapply orders_frame_well_formed; [apply handle_orders_frame; discriminate|exact H]).
  now apply create_order_well_formed.
Qed.

Lemma handle_settled (f : string -> option Z) (r : request) (d : db) (id : Z) (total : Q)
    (its : list OrderItem.t) :
  settled id total its d -> settled id total its (snd (handle f r d)).
Proof.
  intros H. destruct r;
    try (eapply orders_frame_settled; [apply handle_orders_frame; discriminate|exact H]).
  now apply create_order_keeps_settled.
Qed.

Lemma serve_well_formed (f : string -> option Z) (rs : list request) :
  forall d, well_formed d -> well_formed (serve f rs d).
Proof.
  induction rs as [|r rs IH]; intros d H; [exact H|].
  apply IH. now apply handle_well_formed.
Qed.

Lemma serve_settled (f : string -> option Z) (rs : list request) (id : Z) (total : Q)
    (its : list OrderItem.t) :
  forall d, settled id total its d -> settled id total its (serve f rs d).
Proof.
  induction rs as [|r rs IH]; intros d H; [exact H|].
  apply IH. now apply handle_settled.
Qed.

Lemma empty_db_well_formed : well_formed empty_db.
Proof. split; [constructor|intros oi []]. Qed.

(** ** C2: the total of an order *)

(** C2.  Start from a well-formed store (unique product ids, no line item of
    an order not yet created; the empty database is one) and serve any
    requests.  If POST /orders then answers 201 with an order id and a total,
    then after any further requests the order with that id is there with
    that total_amount, the total is the sum, over the order's line items in
    insertion order, of price times quantity, and the line items are still
    the ones written at creation: the requested lines with the product prices
    of the store at order time.  With no further request this is the
    statement at creation time. *)
Theorem order_total_is_sum_of_items :
  forall (rowid_of_text : string -> option Z) (d : db) (before : list request)
         (now : Z) (a : authorization) (b : CreateOrder.body)
         (msg : string) (oid : Z) (total : Q) (d1 : db) (after : list request),
    well_formed d ->
    CreateOrder.handler now a b (serve rowid_of_text before d)
    = (mkResponse 201 (JsonOrderCreated msg oid total), d1) ->
    let d0 := serve rowid_of_text before d in
    let d2 := serve rowid_of_text after d1 in
    (exists o, select_order oid d2 = Some o /\ Order.total_amount o = total)
    /\ total = items_total (items_of oid d2)
    /\ items_of oid d2 = items_of oid d1
    /\ map item_columns (items_of oid d1) = map (line_columns d0) (CreateOrder.items b).
Proof.
  intros f d before now a b msg oid total d1 after Hwf E d0 d2.
  pose proof (serve_well_formed f before d Hwf) as Hwf0.
  destruct (create_order_settles _ _ _ _ _ _ _ _ Hwf0 E) as (Hs & Hcols & _).
  pose proof (serve_settled f after _ _ _ d1 Hs) as (Ho & Hitems & Hsum & _).
  fold d2 in Ho, Hitems. repeat split; auto.
  rewrite Hitems. symmetry. exact Hsum.
Qed.

Lemma shop_well_formed : well_formed shop.
Proof.
  split; [|intros oi []]. unfold products_unique. cbn. constructor; [tauto|constructor].
Qed.

Lemma order_total_is_sum_of_items_witness :
  let later :=
    [ PUT_products_id 500 (Bearer 1) 1
        (UpdateProduct.mkBody (Value "Netflix Gift Card 1 mes") Null (Value 99%Q)
           (Some 7) (Value 1) Null true);
      POST_orders 600 (Bearer 2) (contact [CreateOrder.mkLine 1 3]);
      PUT_orders_id_status 700 (Bearer 3) 1 (UpdateStatus.mkBody (Some "completed") None) ] in
  let d2 := serve decimal_rowid later shop_with_order in
  (exists o, select_order 1 d2 = Some o /\ Order.total_amount o = 10%Q)
  /\ 10%Q = items_total (items_of 1 d2)
  /\ price_of d2 1 = 99%Q.
Proof.
  intros later d2.
  destruct (order_total_is_sum_of_items decimal_rowid shop [] 100 (Bearer 2)
              (contact [CreateOrder.mkLine 1 1])
              "Orden creada exitosamente. Por favor realiza el pago." 1 10%Q
              shop_with_order later shop_well_formed eq_refl)
    as (Ho & Hsum & _).
  split; [exact Ho|]. split; [exact Hsum|]. reflexivity.
Defined.

(** ** C8: earnings *)

Lemma earnings_users_map (g : User.t -> User.t) (d : db) :
  (forall u, In u (users d) -> (0 <= User.earnings u)%Q -> (0 <= User.earnings (g u))%Q) ->
  earnings_kept d (set_users (map g) d).
Proof.
  intros Hg H u Hu. cbn in Hu. apply in_map_iff in Hu. destruct Hu as (u0 & <- & Hin).
  apply Hg; auto.
Qed.

Lemma earnings_same_users (d d' : db) : users d' = users d -> earnings_kept d d'.
Proof. intros E H u Hu. apply H. now rewrite <- E. Qed.

Lemma earnings_insert_user now e h r w : keeps earnings_kept (insert_user now e h r w).
Proof.
  intros d. unfold insert_user. destruct (existsb _ _); cbn [snd]; [intros H; exact H|].
  intros H u Hu. cbn in Hu. apply in_app_or in Hu. destruct Hu as [Hu|[<-|[]]]; [now apply H|].
  cbn. apply Qle_refl.
Qed.

Lemma select_seller_in (id : Z) (d : db) (u : User.t) : select_seller id d = Some u -> In u (users d).
Proof. unfold select_seller. intros H. now apply find_some in H. Qed.

(** PUT /admin/sellers/:id/earnings with a non-negative amount keeps earnings
    non-negative, and so does the new_earnings of its answer. *)
Lemma update_earnings_nonneg (now : Z) (a : authorization) (id : Z)
    (b : UpdateEarnings.body) (d : db) :
  nonneg_amount (PUT_admin_sellers_id_earnings now a id b) ->
  earnings_nonneg d ->
  earnings_nonneg (snd (UpdateEarnings.handler now a id b d))
  /\ (forall msg q, json (fst (UpdateEarnings.handler now a id b d)) = JsonEarnings msg q ->
                    (0 <= q)%Q).
Proof.
  intros Hb H. cbn in Hb. unfold UpdateEarnings.handler, with_role.
  destruct (authenticateToken a d) as [r0|user] eqn:Ea.
  { split; [exact H|]. intros msg q. destruct a; cbn in Ea; try (inversion Ea; discriminate).
    destruct (select_active_user userId d); inversion Ea; discriminate. }
  destruct (requireRole [Superuser] user) as [r0|] eqn:Er.
  { split; [exact H|]. intros msg q. unfold requireRole in Er.
    destruct (existsb _ _); inversion Er; discriminate. }
  unfold try_catch, bind, select, write, ret.
  destruct (UpdateEarnings.amount b) as [amt|]; [|split; [exact H|discriminate]].
  destruct (UpdateEarnings.operation b) as [op|]; [|split; [exact H|discriminate]].
  destruct (truthy_real (Some amt) && truthy_text (Some op)); [|split; [exact H|discriminate]].
  destruct (select_seller id d) as [seller|] eqn:Es; [|split; [exact H|discriminate]].
  pose proof (H seller (select_seller_in _ _ _ Es)) as Hseller.
  destruct (op =? "add")%string; [|destruct (op =? "set")%string];
    cbn [fst snd json res_json]; try (split; [exact H|discriminate]).
  - split.
    + apply earnings_users_map; [|exact H]. intros u Hu Hnn.
      destruct (User.id u =? id); cbn; [lra|exact Hnn].
    + intros msg q E. injection E as _ <-. lra.
  - split.
    + apply earnings_users_map; [|exact H]. intros u Hu Hnn.
      destruct (User.id u =? id); cbn; [lra|exact Hnn].
    + intros msg q E. injection E as _ <-. lra.
Qed.

(** POST /admin/sellers/:id/sales with a non-negative amount keeps earnings
    non-negative. *)
Lemma assign_sale_nonneg (now : Z) (a : authorization) (id : Z)
    (b : AssignSale.body) (d : db) :
  nonneg_amount (POST_admin_sellers_id_sales now a id b) ->
  earnings_nonneg d ->
  earnings_nonneg (snd (AssignSale.handler now a id b d)).
Proof.
  intros Hb H. cbn in Hb. unfold AssignSale.handler, with_role.
  destruct (authenticateToken a d) as [r0|user]; [exact H|].
  destruct (requireRole [Superuser] user) as [r0|]; [exact H|].
  unfold try_catch, bind, select, write, ret.
  destruct (AssignSale.order_id b) as [oid|]; [|exact H].
  destruct (AssignSale.amount b) as [amt|]; [|exact H].
  destruct (truthy_int (Some oid) && truthy_real (Some amt)); [|exact H].
  destruct (select_seller id d) as [seller|] eqn:Es; [|exact H].
  cbn [AssignSale.insert_seller_earning fst snd].
  intros u Hu. cbn in Hu. apply in_map_iff in Hu. destruct Hu as (u0 & <- & Hin).
  specialize (H u0 Hin). destruct (User.id u0 =? id); cbn; [lra|exact H].
Qed.

Lemma handle_earnings (f : string -> option Z) (r : request) (d : db) :
  nonneg_amount r -> earnings_nonneg d -> earnings_nonneg (snd (handle f r d)).
Proof.
  intros Hr.
  assert (Rr : forall x, earnings_kept x x) by (intros x H; exact H).
  assert (Rt : forall x y z, earnings_kept x y -> earnings_kept y z -> earnings_kept x z)
    by (intros x y z A B H; auto).
  assert (Wseq : forall t n x, t <> T_orders -> earnings_kept x (set_sequence t n x))
    by (intros; now apply earnings_same_users).
  assert (Wpm : forall g, (forall p, Product.id (g p) = Product.id p) ->
                          forall x, earnings_kept x (set_products (map g) x))
    by (intros; now apply earnings_same_users).
  assert (Wip : forall now n descr p s c image,
             keeps earnings_kept (CreateProduct.insert_product now n descr p s c image))
    by (intros now n descr p s c image x; now apply earnings_same_users).
  assert (Wuo : forall id g, (forall o, order_key (g o) = order_key o) ->
                             forall x, earnings_kept x (update_order id g x))
    by (intros; now apply earnings_same_users).
  assert (Wtx : forall g x, earnings_kept x (set_transactions g x))
    by (intros; now apply earnings_same_users).
  assert (Wse : forall g x, earnings_kept x (set_seller_earnings g x))
    by (intros; now apply earnings_same_users).
  assert (Wum : forall g, (forall u, User.earnings (g u) = User.earnings u) ->
                          forall x, earnings_kept x (set_users (map g) x)).
  { intros g Hg x. apply earnings_users_map. intros u _ Hu. now rewrite Hg. }
  assert (Wiu := earnings_insert_user).
  assert (Wio : forall now buyer total n e p i,
             keeps earnings_kept (insert_order now buyer total n e p i))
    by (intros now buyer total n e p i x; now apply earnings_same_users).
  assert (Wii : forall oid pid q price,
             keeps earnings_kept (insert_order_item oid pid q price))
    by (intros oid pid q price x; now apply earnings_same_users).
  destruct r; cbn [handle].
  - apply (Register_preserved earnings_kept); auto.
  - apply (ListProducts_preserved earnings_kept); auto.
  - apply (GetProduct_preserved earnings_kept); auto.
  - apply (CreateProduct_preserved earnings_kept); auto.
  - apply (UpdateProduct_preserved earnings_kept); auto.
  - apply (DeleteProduct_preserved earnings_kept); auto.
  - apply (CreateOrder_preserved earnings_kept); auto.
  - apply (ListOrders_preserved earnings_kept); auto.
  - apply (GetOrder_preserved earnings_kept); auto.
  - apply (UpdateStatus_preserved earnings_kept); auto.
  - apply (PaymentProof_preserved earnings_kept); auto.
  - apply (CreatePayment_preserved earnings_kept); auto.
  - apply (webhook_preserved earnings_kept); auto.
  - apply (PaymentStatus_preserved earnings_kept); auto.
  - apply (CreateSeller_preserved earnings_kept); auto.
  - apply (UpdateSeller_preserved earnings_kept); auto.
  - apply (DeactivateSeller_preserved earnings_kept); auto.
  - intros H. now apply update_earnings_nonneg.
  - intros H. now apply assign_sale_nonneg.
Qed.

(** C8, as stated, fails: the superuser sets the earnings of seller 3 to -5;
    the request is accepted (200) and the seller's earnings are -5. *)
Lemma set_negative_earnings_accepted :
  let r := UpdateEarnings.handler 100 (Bearer 1) 3
             (UpdateEarnings.mkBody (Some (-5)%Q) (Some "set")) shop in
  status (fst r) = 200
  /\ option_map User.earnings (select_seller 3 shop) = Some 0%Q
  /\ option_map User.earnings (select_seller 3 (snd r)) = Some (-5)%Q
  /\ ~ (0 <= -5)%Q.
Proof. vm_compute. repeat split. intros H. apply H. reflexivity. Qed.

(** C8 (amended).  The handlers never check the sign of an amount.  If every
    PUT /admin/sellers/:id/earnings and POST /admin/sellers/:id/sales request
    carries a non-negative amount, then every user's earnings are
    non-negative after every operation; in particular, on a store with
    non-negative earnings, the new_earnings that an accepted PUT
    /admin/sellers/:id/earnings request ('add' or 'set') with a non-negative
    amount answers, and stores, is non-negative. *)
Theorem earnings_nonneg_for_nonneg_amounts :
  forall (rowid_of_text : string -> option Z) (rs : list request) (d : db),
    earnings_nonneg d ->
    Forall nonneg_amount rs ->
    earnings_nonneg (serve rowid_of_text rs d)
    /\ (forall now a id b msg q,
          nonneg_amount (PUT_admin_sellers_id_earnings now a id b) ->
          json (fst (UpdateEarnings.handler now a id b (serve rowid_of_text rs d)))
          = JsonEarnings msg q ->
          (0 <= q)%Q).
Proof.
  intros f rs. induction rs as [|r rs IH]; intros d H Hall.
  - split; [exact H|]. intros now a id b msg q Hb. now apply update_earnings_nonneg.
  - inversion Hall as [|? ? Hr Hrs]; subst. cbn [serve fold_left].
    apply (IH (snd (handle f r d))); [|exact Hrs]. now apply handle_earnings.
Qed.

Lemma shop_earnings_nonneg : earnings_nonneg shop.
Proof.
  intros u Hu. cbn in Hu.
  destruct Hu as [<-|[<-|[<-|[<-|[]]]]]; cbn; apply Qle_refl.
Qed.

Lemma earnings_nonneg_for_nonneg_amounts_witness :
  let rs :=
    [ PUT_admin_sellers_id_earnings 100 (Bearer 1) 3
        (UpdateEarnings.mkBody (Some 12.5%Q) (Some "add"));
      POST_admin_sellers_id_sales 200 (Bearer 1) 3
        (AssignSale.mkBody (Some 1) (Some 10%Q)) ] in
  earnings_nonneg (serve decimal_rowid rs shop).
Proof.
  intros rs.
  refine (proj1 (earnings_nonneg_for_nonneg_amounts decimal_rowid rs shop
                   shop_earnings_nonneg _)).
  repeat constructor; cbn; discriminate.
Defined.

(** ** C9: soft-deleted products *)

Lemma in_insert_desc {A : Type} (key : A -> Z) (x y : A) (l : list A) :
  In y (insert_desc key x l) <-> y = x \/ In y l.
Proof.
  induction l as [|z l IH]; simpl; [intuition congruence|].
  destruct (key z <=? key x); simpl; [intuition congruence|].
  rewrite IH. intuition congruence.
Qed.

Lemma in_order_by_desc {A : Type} (key : A -> Z) (y : A) (l : list A) :
  In y (order_by_desc key l) <-> In y l.
Proof.
  unfold order_by_desc. induction l as [|x l IH]; simpl; [tauto|].
  rewrite in_insert_desc, IH. intuition congruence.
Qed.

Lemma soft_delete_items (pid oid : Z) (d : db) :
  select_order_items oid (DeleteProduct.soft_delete pid d) = select_order_items oid d.
Proof.
  unfold select_order_items, DeleteProduct.soft_delete. cbn.
  apply flat_map_ext. intros oi.
  induction (products d) as [|p ps IH]; [reflexivity|]. cbn [map filter].
  assert (E : Product.id (if Product.id p =? pid then Product_with_is_active false p else p)
              = Product.id p) by (destruct (Product.id p =? pid); reflexivity).
  rewrite E. destruct (Product.id p =? OrderItem.product_id oi); [|exact IH].
  cbn [map]. rewrite IH. f_equal. f_equal.
  destruct (Product.id p =? pid); reflexivity.
Qed.

Lemma soft_delete_not_listed (pid : Z) (category : option Z) (d : db) (v : product_view) :
  In v (select_products category (DeleteProduct.soft_delete pid d)) ->
  Product.id (product v) <> pid.
Proof.
  unfold select_products. rewrite in_order_by_desc, in_flat_map.
  intros (p & Hp & Hv). apply filter_In in Hp. destruct Hp as [Hin Hact].
  apply in_map_iff in Hv. destruct Hv as (c & <- & _). cbn [product].
  cbn in Hin. apply in_map_iff in Hin. destruct Hin as (p0 & <- & _).
  destruct (Product.id p0 =? pid) eqn:E; [cbn in Hact; discriminate|].
  now apply Z.eqb_neq.
Qed.

(** C9.  When DELETE /products/:id is answered 200, the product is in no
    answer of GET /products, with or without a category filter; the line
    items of every order are joined with their products exactly as before,
    so a line item of an existing order that referred to the product still
    comes with the product's name; and GET /orders and GET /orders/:id
    answer every caller as before. *)
Theorem soft_deleted_product_unlisted_but_resolved :
  forall (a : authorization) (pid : Z) (d : db) (r : response) (d' : db),
    DeleteProduct.handler a pid d = (r, d') ->
    status r = 200 ->
    (forall category v, In v (select_products category d') -> Product.id (product v) <> pid)
    /\ (forall oid, select_order_items oid d' = select_order_items oid d)
    /\ (forall oi p,
          In oi (order_items d) -> In p (products d) ->
          Product.id p = pid -> OrderItem.product_id oi = pid ->
          In (mkItemView oi (Product.name p))
             (select_order_items (OrderItem.order_id oi) d'))
    /\ (forall a', fst (ListOrders.handler a' d') = fst (ListOrders.handler a' d))
    /\ (forall a' id, fst (GetOrder.handler a' id d') = fst (GetOrder.handler a' id d)).
Proof.
  intros a pid d r d' H H200.
  assert (Ed : d' = DeleteProduct.soft_delete pid d).
  { unfold DeleteProduct.handler, with_role in H.
    destruct (authenticateToken a d) as [r0|user] eqn:Ea.
    - injection H as <- <-. exfalso.
      destruct a; cbn in Ea; try (injection Ea as <-; discriminate).
      destruct (select_active_user userId d); [discriminate|].
      injection Ea as <-. discriminate.
    - destruct (requireRole [Superuser] user) as [r0|] eqn:Er.
      + injection H as <- <-. exfalso. unfold requireRole in Er.
        destruct (existsb _ _); [discriminate|]. injection Er as <-. discriminate.
      + cbn in H. now injection H as _ <-. }
  subst d'.
  split; [intros category v; apply soft_delete_not_listed|].
  split; [intros oid; apply soft_delete_items|].
  split; [|split].
  - intros oi p Hoi Hp Hid Hpid. rewrite soft_delete_items.
    unfold select_order_items. apply in_flat_map. exists oi. split.
    + apply filter_In. split; [exact Hoi|apply Z.eqb_refl].
    + apply in_map_iff. exists p. split; [reflexivity|].
      apply filter_In. split; [exact Hp|]. apply Z.eqb_eq. congruence.
  - intros a'. unfold ListOrders.handler, with_user.
    change (authenticateToken a' (DeleteProduct.soft_delete pid d))
      with (authenticateToken a' d).
    destruct (authenticateToken a' d) as [r0|user]; [reflexivity|].
    cbn [fst]. f_equal. f_equal.
    change (select_orders user (DeleteProduct.soft_delete pid d)) with (select_orders user d).
    apply map_ext. intros [o e]. now rewrite soft_delete_items.
  - intros a' id. unfold GetOrder.handler, with_user.
    change (authenticateToken a' (DeleteProduct.soft_delete pid d))
      with (authenticateToken a' d).
    destruct (authenticateToken a' d) as [r0|user]; [reflexivity|].
    change (select_order_with_emails id (DeleteProduct.soft_delete pid d))
      with (select_order_with_emails id d).
    destruct (select_order_with_emails id d) as [[[o e] s]|]; [|reflexivity].
    destruct (GetOrder.forbidden user o); [reflexivity|].
    cbn [fst]. now rewrite soft_delete_items.
Qed.

Lemma soft_deleted_product_unlisted_but_resolved_witness :
  let d' := snd (DeleteProduct.handler (Bearer 1) 1 shop_with_order) in
  select_products None d' = []
  /\ map product_name (select_order_items 1 d') = ["Netflix Gift Card 1 mes"].
Proof.
  destruct (soft_deleted_product_unlisted_but_resolved (Bearer 1) 1 shop_with_order
              (res_json (JsonMessage "Producto eliminado exitosamente."))
              (snd (DeleteProduct.handler (Bearer 1) 1 shop_with_order))
              eq_refl eq_refl) as (_ & Hitems & _).
  split; [reflexivity|]. rewrite Hitems. reflexivity.
Defined.

(** ** C10: updating a seller *)

Lemma find_map_same {A : Type} (p : A -> bool) (g : A -> A) (l : list A) :
  (forall x, p (g x) = p x) -> find p (map g l) = option_map g (find p l).
Proof.
  intros H. induction l as [|x l IH]; simpl; [reflexivity|].
  rewrite H. destruct (p x); [reflexivity|exact IH].
Qed.

Lemma select_seller_id (id : Z) (d : db) (u : User.t) :
  select_seller id d = Some u -> User.id u = id.
Proof.
  unfold select_seller. intros H. apply find_some in H. destruct H as [_ H].
  apply andb_true_iff in H. lia.
Qed.

(** What PUT /admin/sellers/:id does to the store when the seller exists:
    nothing, with a 500, when the UPDATE fails; otherwise the UPDATE. *)
Lemma update_seller_effect (now : Z) (a : authorization) (id : Z) (h : string)
    (b : UpdateSeller.body) (d : db) (user : ReqUser.t) (seller : User.t) :
  authenticateToken a d = inr user ->
  ReqUser.role user = Superuser ->
  select_seller id d = Some seller ->
  let pw := if truthy_text (UpdateSeller.password b) then Some h else None in
  let g := fun u =>
    if User.id u =? id then
      User.mk (User.id u) (UpdateSeller.new_email b seller) (User.username u)
        match pw with Some h' => h' | None => User.password u end
        (User.role u) (UpdateSeller.new_binance_wallet b seller) (User.earnings u)
        (User.created_at u) now (UpdateSeller.new_is_active b seller)
    else u in
  UpdateSeller.handler now a id h b d
  = (res_error 500 "Error al actualizar vendedor.", d)
  \/ UpdateSeller.handler now a id h b d
     = (res_json (JsonMessage "Vendedor actualizado exitosamente."), set_users (map g) d).
Proof.
  intros Ha Hr Hs pw g.
  assert (Hreq : requireRole [Superuser] user = None)
    by (unfold requireRole; rewrite Hr; reflexivity).
  unfold UpdateSeller.handler, with_role, try_catch, bind, select, ret.
  rewrite Ha, Hreq, Hs. subst pw g.
  destruct (truthy_text (UpdateSeller.password b)); unfold UpdateSeller.update_user;
    destruct (_ && _); auto.
Qed.

(** C10.  For an existing seller and a superuser caller, PUT
    /admin/sellers/:id keeps the stored email, binance_wallet and password
    when the body field is absent or empty, and the stored is_active when the
    field is undefined; it never touches id, username, role, earnings or
    created_at, nor any other user.  When it answers 200 the fields that were
    provided are stored: the email, the wallet, the hash of the password and
    the truth value of is_active.  (It answers 500, and changes nothing, when
    the new email belongs to another user.) *)
Theorem update_seller_keeps_omitted_fields :
  forall (now : Z) (a : authorization) (id : Z) (hashedPassword : string)
         (b : UpdateSeller.body) (d : db) (user : ReqUser.t) (seller : User.t),
    authenticateToken a d = inr user ->
    ReqUser.role user = Superuser ->
    select_seller id d = Some seller ->
    let r := UpdateSeller.handler now a id hashedPassword b d in
    exists seller',
      select_seller id (snd r) = Some seller'
      /\ same_but_profile seller seller'
      /\ (truthy_text (UpdateSeller.email b) = false -> User.email seller' = User.email seller)
      /\ (truthy_text (UpdateSeller.binance_wallet b) = false ->
            User.binance_wallet seller' = User.binance_wallet seller)
      /\ (truthy_text (UpdateSeller.password b) = false ->
            User.password seller' = User.password seller)
      /\ (UpdateSeller.is_active b = None -> User.is_active seller' = User.is_active seller)
      /\ Forall2 (fun u u' => User.id u <> id -> u' = u) (users d) (users (snd r))
      /\ (status (fst r) = 200 ->
            (truthy_text (UpdateSeller.email b) = true ->
               Some (User.email seller') = UpdateSeller.email b)
            /\ (truthy_text (UpdateSeller.binance_wallet b) = true ->
                  User.binance_wallet seller' = UpdateSeller.binance_wallet b)
            /\ (truthy_text (UpdateSeller.password b) = true ->
                  User.password seller' = hashedPassword)
            /\ (forall flag, UpdateSeller.is_active b = Some flag ->
                  User.is_active seller' = flag)).
Proof.
  intros now a id h b d user seller Ha Hr Hs r.
  pose proof (select_seller_id _ _ _ Hs) as Hid.
  destruct (update_seller_effect now a id h b d user seller Ha Hr Hs) as [E|E];
    unfold r; rewrite E; clear E; cbn [fst snd].
  - exists seller. split; [exact Hs|]. split; [unfold same_but_profile; tauto|].
    repeat split; auto; try (cbn; discriminate).
    clear. induction (users d); constructor; auto.
  - eexists. split.
    + unfold select_seller. cbn [users set_users]. rewrite find_map_same.
      * unfold select_seller in Hs. rewrite Hs. cbn [option_map]. reflexivity.
      * intros x. cbv beta. destruct (User.id x =? id) eqn:Ex; cbn; rewrite ?Ex; reflexivity.
    + rewrite Hid, Z.eqb_refl. split; [unfold same_but_profile; cbn; repeat split; congruence|].
      cbn [User.email User.binance_wallet User.password User.is_active].
      unfold UpdateSeller.new_email, UpdateSeller.new_binance_wallet,
        UpdateSeller.new_is_active, or_else.
      split; [intros ->; reflexivity|]. split; [intros ->; reflexivity|].
      split; [intros ->; reflexivity|]. split; [intros ->; reflexivity|].
      split.
      * cbn [users set_users]. clear. induction (users d) as [|u us IH]; constructor; auto.
        intros Hne. apply Z.eqb_neq in Hne. now rewrite Hne.
      * intros _. split; [|split; [|split]].
        -- intros Ht. rewrite Ht. destruct (UpdateSeller.email b); [reflexivity|discriminate].
        -- intros Ht. now rewrite Ht.
        -- intros Ht. now rewrite Ht.
        -- intros flag ->. reflexivity.
Qed.

Lemma update_seller_keeps_omitted_fields_witness :
  let r := UpdateSeller.handler 100 (Bearer 1) 3 ""
             (UpdateSeller.mkBody None (Some "") (Some "wallet-new") None) shop in
  option_map User.email (select_seller 3 (snd r)) = Some "a@example.com"
  /\ option_map User.password (select_seller 3 (snd r)) = Some "$2a$10$a"
  /\ option_map User.binance_wallet (select_seller 3 (snd r)) = Some (Some "wallet-new").
Proof.
  destruct (update_seller_keeps_omitted_fields 100 (Bearer 1) 3 ""
              (UpdateSeller.mkBody None (Some "") (Some "wallet-new") None) shop
              (ReqUser.mk 1 "admin@cashout.com" Superuser 0%Q)
              (User.mk 3 "a@example.com" None "$2a$10$a" Seller (Some "wallet-a") 0%Q 20 20 true)
              eq_refl eq_refl eq_refl)
    as (seller' & Hs & _ & He & _ & Hp & _ & _ & H200).
  cbv zeta. rewrite Hs. cbn [option_map].
  rewrite (He eq_refl), (Hp eq_refl).
  destruct (H200 eq_refl) as (_ & Hw & _). rewrite (Hw eq_refl). repeat split.
Defined.

(** ** C1, continued: what the stock check does achieve *)

(** The first loop lets a line through only if the (unique) product row with
    its id holds at least the requested quantity. *)
Lemma verify_stock_checked (d : db) (lines : list CreateOrder.line) :
  products_unique d ->
  forall acc total,
    CreateOrder.verify_stock d lines acc = inr total ->
    forall l p, In l lines -> In p (products d) ->
                Product.id p = CreateOrder.product_id l ->
                CreateOrder.quantity l <= Product.stock p.
Proof.
  intros Hu. induction lines as [|l0 lines IH]; intros acc total H l p Hl Hp Hid;
    [destruct Hl|]. simpl in H.
  destruct (select_active_product (CreateOrder.product_id l0) d) as [p0|] eqn:Ep;
    [|discriminate].
  destruct (Product.stock p0 <? CreateOrder.quantity l0) eqn:Elt; [discriminate|].
  destruct Hl as [->|Hl]; [|eapply IH; eauto].
  unfold select_active_product in Ep. apply find_some in Ep. destruct Ep as [Hin Hc].
  apply andb_true_iff in Hc. destruct Hc as [Hid0 _].
  assert (p = p0) by (apply (NoDup_key_eq Product.id (products d)); auto; lia).
  subst p0. apply Z.ltb_ge in Elt. exact Elt.
Qed.

(** The second loop, on lines that name pairwise distinct products each in
    sufficient stock, leaves no stock negative. *)
Lemma add_items_stock (oid : Z) (lines : list CreateOrder.line) :
  forall (d1 : db) (out : outcome unit) (d2 : db),
    NoDup (map CreateOrder.product_id lines) ->
    (forall l p, In l lines -> In p (products d1) ->
                 Product.id p = CreateOrder.product_id l ->
                 CreateOrder.quantity l <= Product.stock p) ->
    stocks_nonneg d1 ->
    for_of lines (CreateOrder.add_item oid) d1 = (out, d2) ->
    stocks_nonneg d2.
Proof.
  induction lines as [|l lines IH]; intros d1 out d2 Hnd Hq Hs H.
  - injection H as _ <-. exact Hs.
  - cbn [for_of] in H. unfold bind at 1 in H.
    destruct (CreateOrder.add_item oid l d1) as [[[]|e] dm] eqn:Estep.
    + unfold CreateOrder.add_item, bind, select, write, throw in Estep.
      destruct (select_product (CreateOrder.product_id l) d1) as [p0|]; [|discriminate].
      cbn in Estep. injection Estep as Edm.
      assert (Hnotin : ~ In (CreateOrder.product_id l) (map CreateOrder.product_id lines))
        by (inversion Hnd; assumption).
      assert (Hnd' : NoDup (map CreateOrder.product_id lines))
        by (inversion Hnd; assumption).
      apply (IH dm out d2 Hnd'); [| |exact H].
      * intros l' p Hl' Hp Hid. rewrite <- Edm in Hp. cbn in Hp. apply in_map_iff in Hp.
        destruct Hp as (p1 & <- & Hp1).
        destruct (Product.id p1 =? CreateOrder.product_id l) eqn:E.
        -- exfalso. apply Hnotin. apply Z.eqb_eq in E. cbn in Hid.
           rewrite <- E, Hid. now apply in_map.
        -- apply (Hq l' p1); auto. now right.
      * intros p Hp. rewrite <- Edm in Hp. cbn in Hp.
        apply in_map_iff in Hp. destruct Hp as (p1 & <- & Hp1).
        destruct (Product.id p1 =? CreateOrder.product_id l) eqn:E; [|now apply Hs].
        cbn. apply Z.eqb_eq in E.
        specialize (Hq l p1 (or_introl eq_refl) Hp1 E). lia.
    + injection H as _ <-.
      unfold CreateOrder.add_item, bind, select, write, throw in Estep.
      destruct (select_product (CreateOrder.product_id l) d1); [cbn in Estep; discriminate|].
      injection Estep as _ <-. exact Hs.
Qed.

(** X15.  POST /orders with an order that names every product at most once
    leaves every stock non-negative, when product ids are unique and no
    stock is negative before: overselling needs a repeated product. *)
Lemma create_order_distinct_products_stock_nonneg (now : Z) (a : authorization)
    (b : CreateOrder.body) (d : db) :
  products_unique d ->
  stocks_nonneg d ->
  NoDup (map CreateOrder.product_id (CreateOrder.items b)) ->
  stocks_nonneg (snd (CreateOrder.handler now a b d)).
Proof.
  intros Hu Hs Hnd. unfold CreateOrder.handler, with_role.
  destruct (authenticateToken a d) as [r0|user]; [exact Hs|].
  destruct (requireRole [Buyer] user) as [r0|]; [exact Hs|].
  unfold try_catch.
  destruct (CreateOrder.items b) as [|l0 ls] eqn:Eitems; [exact Hs|].
  cbv iota. rewrite <- Eitems. rewrite <- Eitems in Hnd.
  destruct (negb (truthy_text (CreateOrder.contact_name b)
                  && truthy_text (CreateOrder.contact_email b))); [exact Hs|].
  unfold bind at 1. unfold select at 1. cbv beta iota.
  destruct (CreateOrder.verify_stock d (CreateOrder.items b) 0%Q) as [r0|total] eqn:Ev;
    [exact Hs|].
  unfold bind at 1. unfold insert_order at 1. cbv beta iota zeta.
  unfold bind at 1.
  match goal with
  | |- context [for_of (CreateOrder.items b) ?body ?d1] =>
      destruct (for_of (CreateOrder.items b) body d1) as [out d2] eqn:Eloop;
      assert (H2 : stocks_nonneg d2)
        by (refine (add_items_stock _ _ _ _ _ Hnd _ _ Eloop);
            [exact (verify_stock_checked d _ Hu _ _ Ev)|exact Hs])
  end.
  destruct out as [[]|e]; exact H2.
Qed.

(** * Further properties of the routes *)

(** ** middleware/auth.js on every guarded route *)

Lemma authenticate_refusal_status (a : authorization) (d : db) (resp : response) :
  authenticateToken a d = inl resp -> status resp = 401 \/ status resp = 403.
Proof.
  destruct a; cbn; intros H.
  - injection H as <-. now left.
  - injection H as <-. now right.
  - destruct (select_active_user userId d); [discriminate|]. injection H as <-. now left.
Qed.

(** X1.  Every route but the four public ones (register, the two product
    reads, the webhook) runs [authenticateToken] first: a request without a
    token, with a token that does not verify, or with the token of an unknown
    or deactivated user is answered 401 or 403 and leaves the store as it
    is. *)
Theorem unauthenticated_request_refused :
  forall (rowid_of_text : string -> option Z) (r : request) (a : authorization)
         (d : db) (resp : response),
    authorization_of r = Some a ->
    authenticateToken a d = inl resp ->
    handle rowid_of_text r d = (resp, d)
    /\ (status resp = 401 \/ status resp = 403).
Proof.
  intros f r a d resp Ha Hr. split; [|eapply authenticate_refusal_status; eauto].
  destruct r; cbn in Ha; try discriminate; injection Ha as ->; cbn [handle];
    cbv delta [CreateProduct.handler UpdateProduct.handler DeleteProduct.handler
               CreateOrder.handler ListOrders.handler GetOrder.handler
               UpdateStatus.handler PaymentProof.handler CreatePayment.handler
               PaymentStatus.handler CreateSeller.handler UpdateSeller.handler
               DeactivateSeller.handler UpdateEarnings.handler AssignSale.handler
               with_role with_user] beta;
    rewrite Hr; reflexivity.
Qed.

Lemma unauthenticated_request_refused_witness :
  handle decimal_rowid (GET_orders NoToken) shop
  = (res_error 401 "Acceso denegado. Token no proporcionado.", shop)
  /\ (status (res_error 401 "Acceso denegado. Token no proporcionado.") = 401
      \/ status (res_error 401 "Acceso denegado. Token no proporcionado.") = 403).
Proof.
  exact (unauthenticated_request_refused decimal_rowid (GET_orders NoToken) NoToken shop
           (res_error 401 "Acceso denegado. Token no proporcionado.") eq_refl eq_refl).
Defined.

(** X2.  The role check is plain membership, with no hierarchy: on a route
    behind [requireRole], an authenticated caller whose role is not one of
    the listed ones is answered 403 and the store is left as it is -- the
    superuser included, on the buyer-only routes. *)
Theorem wrong_role_forbidden :
  forall (rowid_of_text : string -> option Z) (r : request) (a : authorization)
         (roles : list role) (d : db) (user : ReqUser.t),
    authorization_of r = Some a ->
    allowed_roles r = Some roles ->
    authenticateToken a d = inr user ->
    existsb (role_eqb (ReqUser.role user)) roles = false ->
    handle rowid_of_text r d
    = (res_error 403 "No tienes permisos para realizar esta acción.", d).
Proof.
  intros f r a roles d user Ha Hroles Hu Hno.
  assert (Hreq : requireRole roles user
                 = Some (res_error 403 "No tienes permisos para realizar esta acción."))
    by (unfold requireRole; now rewrite Hno).
  destruct r; cbn in Ha, Hroles; try discriminate;
    injection Ha as ->; injection Hroles as <-; cbn [handle];
    cbv delta [CreateProduct.handler UpdateProduct.handler DeleteProduct.handler
               CreateOrder.handler UpdateStatus.handler PaymentProof.handler
               CreateSeller.handler UpdateSeller.handler DeactivateSeller.handler
               UpdateEarnings.handler AssignSale.handler with_role] beta;
    rewrite Hu, Hreq; reflexivity.
Qed.

Lemma wrong_role_forbidden_witness :
  handle decimal_rowid (POST_orders 100 (Bearer 1) (contact [CreateOrder.mkLine 1 1])) shop
  = (res_error 403 "No tienes permisos para realizar esta acción.", shop).
Proof.
  exact (wrong_role_forbidden decimal_rowid
           (POST_orders 100 (Bearer 1) (contact [CreateOrder.mkLine 1 1]))
           (Bearer 1) [Buyer] shop (ReqUser.mk 1 "admin@cashout.com" Superuser 0%Q)
           eq_refl eq_refl eq_refl eq_refl).
Defined.

(** ** Listings: what they hold and in which order *)

Lemma insert_desc_sorted {A : Type} (key : A -> Z) (x : A) (l : list A) :
  StronglySorted (fun a b => key b <= key a) l ->
  StronglySorted (fun a b => key b <= key a) (insert_desc key x l).
Proof.
  induction l as [|y l IH]; intros Hs; simpl.
  - constructor; constructor.
  - inversion Hs as [|? ? Hs' Hall]; subst.
    destruct (key y <=? key x) eqn:E.
    + apply Z.leb_le in E. constructor; [exact Hs|].
      constructor; [exact E|]. rewrite Forall_forall in *. intros z Hz.
      specialize (Hall z Hz). lia.
    + apply Z.leb_gt in E. constructor; [now apply IH|].
      rewrite Forall_forall in *. intros z Hz. apply in_insert_desc in Hz.
      destruct Hz as [->|Hz]; [lia|now apply Hall].
Qed.

Lemma order_by_desc_sorted {A : Type} (key : A -> Z) (l : list A) :
  StronglySorted (fun a b => key b <= key a) (order_by_desc key l).
Proof.
  unfold order_by_desc. induction l as [|x l IH]; simpl; [constructor|].
  now apply insert_desc_sorted.
Qed.

Lemma StronglySorted_map {A B : Type} (R : A -> A -> Prop) (S : B -> B -> Prop)
    (g : A -> B) (l : list A) :
  (forall a b, R a b -> S (g a) (g b)) ->
  StronglySorted R l -> StronglySorted S (map g l).
Proof.
  intros H. induction 1 as [|a l Hs IH Hall]; simpl; constructor; auto.
  rewrite Forall_forall in *. intros b Hb. apply in_map_iff in Hb.
  destruct Hb as (x & <- & Hx). auto.
Qed.

(** X3.  GET /products lists exactly the active products that have a category
    row, each with the name of its category; with a category filter, only the
    products of that category.  (A product whose category_id names no
    category is listed nowhere.)  The list is sorted by created_at, newest
    first. *)
Theorem list_products_active_joined_newest_first :
  forall (category : option Z) (d : db),
    (forall v,
       In v (select_products category d) <->
       exists p c,
         In p (products d) /\ In c (categories d)
         /\ Product.is_active p = true
         /\ Category.id c = Product.category_id p
         /\ match category with Some id => Category.id c = id | None => True end
         /\ v = mkProductView p (Category.name c))
    /\ StronglySorted
         (fun v w => Product.created_at (product w) <= Product.created_at (product v))
         (select_products category d).
Proof.
  intros category d. split; [|apply order_by_desc_sorted].
  intros v. unfold select_products. rewrite in_order_by_desc, in_flat_map. split.
  - intros (p & Hp & Hv). apply filter_In in Hp. destruct Hp as [Hp Hact].
    apply in_map_iff in Hv. destruct Hv as (c & <- & Hc).
    apply filter_In in Hc. destruct Hc as [Hc Hcond].
    apply andb_true_iff in Hcond. destruct Hcond as [Hid Hcat].
    exists p, c. repeat split; auto; [lia|].
    destruct category; [lia|exact I].
  - intros (p & c & Hp & Hc & Hact & Hid & Hcat & ->).
    exists p. split; [apply filter_In; auto|].
    apply in_map_iff. exists c. split; [reflexivity|].
    apply filter_In. split; [exact Hc|]. apply andb_true_iff. split; [lia|].
    destruct category; [lia|reflexivity].
Qed.

(** X4.  GET /orders answers an authenticated caller 200 and leaves the store
    as it is.  Every order of the answer is an order of the store that the
    caller may see (their own for a buyer; assigned to them or pending for a
    seller; any for the superuser), comes with its line items and the e-mail
    of its buyer; every such order whose buyer exists is in the answer; the
    answer is sorted by created_at, newest first. *)
Theorem list_orders_visible_complete_newest_first :
  forall (a : authorization) (d : db) (user : ReqUser.t),
    authenticateToken a d = inr user ->
    exists views,
      ListOrders.handler a d = (res_json (JsonOrders views), d)
      /\ (forall v, In v views ->
            In (order v) (orders d)
            /\ visible_in_list user (order v) = true
            /\ items v = select_order_items (Order.id (order v)) d
            /\ exists u, In u (users d) /\ User.id u = Order.buyer_id (order v)
                         /\ buyer_email v = User.email u)
      /\ (forall o u, In o (orders d) -> visible_in_list user o = true ->
                      In u (users d) -> User.id u = Order.buyer_id o ->
                      exists v, In v views /\ order v = o /\ buyer_email v = User.email u)
      /\ StronglySorted
           (fun v w => Order.created_at (order w) <= Order.created_at (order v)) views.
Proof.
  intros a d user Ha. unfold ListOrders.handler, with_user. rewrite Ha.
  eexists. split; [reflexivity|]. split; [|split].
  - intros v Hv. apply in_map_iff in Hv. destruct Hv as ([o e] & <- & Hr).
    unfold select_orders in Hr. rewrite in_order_by_desc, in_flat_map in Hr.
    destruct Hr as (o' & Ho' & Hr). apply filter_In in Ho'. destruct Ho' as [Hin Hvis].
    apply in_map_iff in Hr. destruct Hr as (u & E & Hu). injection E as -> <-.
    apply filter_In in Hu. destruct Hu as [Hu Hid].
    cbn. repeat split; auto. exists u. repeat split; auto. lia.
  - intros o u Ho Hvis Hu Hid.
    exists (mkOrderView o (User.email u) None (select_order_items (Order.id o) d)).
    split; [|split; reflexivity].
    apply in_map_iff. exists (o, User.email u). split; [reflexivity|].
    unfold select_orders. rewrite in_order_by_desc, in_flat_map.
    exists o. split; [apply filter_In; auto|].
    apply in_map_iff. exists u. split; [reflexivity|].
    apply filter_In. split; [exact Hu|lia].
  - apply (StronglySorted_map
             (fun r1 r2 : Order.t * string =>
                Order.created_at (fst r2) <= Order.created_at (fst r1))).
    + intros r1 r2 H. exact H.
    + unfold select_orders.
      apply (order_by_desc_sorted (fun r : Order.t * string => Order.created_at (fst r))).
Qed.

Lemma list_orders_visible_complete_newest_first_witness :
  exists views,
    ListOrders.handler (Bearer 4) shop_with_order = (res_json (JsonOrders views), shop_with_order)
    /\ List.length views = 1%nat.
Proof.
  destruct (list_orders_visible_complete_newest_first (Bearer 4) shop_with_order
              (ReqUser.mk 4 "b@example.com" Seller 0%Q) eq_refl)
    as (views & E & _).
  exists views. split; [exact E|].
  assert (H : fst (ListOrders.handler (Bearer 4) shop_with_order) = res_json (JsonOrders views))
    by (rewrite E; reflexivity).
  vm_compute in H. injection H as <-. reflexivity.
Defined.

(** X5.  GET /orders/:id applies the rule of GET /orders: for an order that
    exists (with its buyer), an authenticated caller is answered 200 exactly
    when the order is one the listing would show them, and 403 otherwise. *)
Theorem get_order_follows_listing_rule :
  forall (a : authorization) (id : Z) (d : db) (user : ReqUser.t)
         (o : Order.t) (buyer : string) (seller : option string),
    authenticateToken a d = inr user ->
    select_order_with_emails id d = Some (o, buyer, seller) ->
    let r := fst (GetOrder.handler a id d) in
    (visible_in_list user o = true ->
       r = res_json (JsonOrder (mkOrderView o buyer seller (select_order_items (Order.id o) d))))
    /\ (visible_in_list user o = false -> status r = 403)
    /\ snd (GetOrder.handler a id d) = d.
Proof.
  intros a id d user o buyer seller Ha Ho r.
  assert (Hf : GetOrder.forbidden user o = negb (visible_in_list user o)).
  { unfold GetOrder.forbidden, visible_in_list.
    destruct (ReqUser.role user); [reflexivity| |reflexivity].
    destruct (int_eqb_opt (Order.seller_id o) (ReqUser.id user));
      destruct (order_status_eqb (Order.status o) Pending); reflexivity. }
  unfold r, GetOrder.handler, with_user. rewrite Ha, Ho, Hf.
  destruct (visible_in_list user o); cbn; repeat split; auto; discriminate.
Qed.

Lemma get_order_follows_listing_rule_witness :
  status (fst (GetOrder.handler (Bearer 4) 1 shop_with_order)) = 200
  /\ status (fst (GetOrder.handler (Bearer 4) 1
                    (snd (UpdateStatus.handler 200 (Bearer 3) 1
                            (UpdateStatus.mkBody (Some "processing") None)
                            shop_with_order)))) = 403.
Proof.
  split.
  - destruct (get_order_follows_listing_rule (Bearer 4) 1 shop_with_order
                (ReqUser.mk 4 "b@example.com" Seller 0%Q)
                (Order.mk 1 2 None Pending (0 + 10 * inject_Z 1)%Q (Some "Ana")
                   (Some "buyer@example.com") None None None None 100 100)
                "buyer@example.com" None eq_refl eq_refl) as (H & _).
    rewrite (H eq_refl). reflexivity.
  - reflexivity.
Defined.

(** ** POST /orders: all or nothing, and what it takes from the stock *)

Lemma verify_stock_products_exist (d : db) (lines : list CreateOrder.line) :
  forall acc total,
    CreateOrder.verify_stock d lines acc = inr total ->
    forall l, In l lines -> select_product (CreateOrder.product_id l) d <> None.
Proof.
  induction lines as [|l0 lines IH]; intros acc total H l Hl; [destruct Hl|].
  simpl in H.
  destruct (select_active_product (CreateOrder.product_id l0) d) as [p|] eqn:Ep;
    [|discriminate].
  destruct (Product.stock p <? CreateOrder.quantity l0); [discriminate|].
  destruct Hl as [->|Hl]; [|eapply IH; eauto].
  unfold select_active_product in Ep. apply find_some in Ep. destruct Ep as [Hin Hc].
  apply andb_true_iff in Hc. destruct Hc as [Hid _].
  unfold select_product. intros Hnone. eapply find_none in Hnone; [|exact Hin].
  cbn in Hnone. congruence.
Qed.

Lemma select_product_same_keys (d d' : db) (pid : Z) :
  map product_key (products d') = map product_key (products d) ->
  select_product pid d <> None -> select_product pid d' <> None.
Proof.
  intros H Hn. unfold select_product in *.
  pose proof (find_key_map Product.id Product.price pid (products d) (products d') H) as E.
  destruct (find _ (products d)); [|contradiction].
  destruct (find _ (products d')); [discriminate|]. discriminate.
Qed.

(** The second loop runs to its end when every line names a product row. *)
Lemma add_items_complete (oid : Z) (lines : list CreateOrder.line) :
  forall d1,
    (forall l, In l lines -> select_product (CreateOrder.product_id l) d1 <> None) ->
    fst (for_of lines (CreateOrder.add_item oid) d1) = Return tt.
Proof.
  induction lines as [|l lines IH]; intros d1 H; [reflexivity|].
  cbn [for_of]. unfold bind at 1.
  unfold CreateOrder.add_item at 1. unfold bind at 1, select at 1.
  destruct (select_product (CreateOrder.product_id l) d1) as [p|] eqn:Ep;
    [|exfalso; apply (H l (or_introl eq_refl)); exact Ep].
  cbn [bind insert_order_item write fst snd]. apply IH.
  intros l' Hl'. apply (select_product_same_keys d1); [|apply H; now right].
  cbn. rewrite map_map. apply map_ext. intros x.
  destruct (Product.id x =? CreateOrder.product_id l); reflexivity.
Qed.

Lemma stock_of_update (q pid pid' : Z) (d : db) :
  stock_of pid' (update_product_stock q pid d)
  = option_map (fun s => if pid' =? pid then s - q else s) (stock_of pid' d).
Proof.
  unfold stock_of, select_product, update_product_stock. cbn.
  rewrite (find_map_update Product.id) by reflexivity.
  destruct (find _ (products d)) as [p|] eqn:E; [|reflexivity]. cbn.
  apply find_some in E. destruct E as [_ E]. apply Z.eqb_eq in E. rewrite E.
  destruct (pid' =? pid); reflexivity.
Qed.

(** When the second loop runs to its end, every stock has gone down by the
    quantity the lines request of the product. *)
Lemma add_items_stocks (oid : Z) (lines : list CreateOrder.line) :
  forall d1 d2,
    for_of lines (CreateOrder.add_item oid) d1 = (Return tt, d2) ->
    forall pid,
      stock_of pid d2 = option_map (fun s => s - ordered_quantity lines pid) (stock_of pid d1).
Proof.
  induction lines as [|l lines IH]; intros d1 d2 H pid.
  - injection H as <-. cbn. destruct (stock_of pid d1); cbn; [f_equal; lia|reflexivity].
  - cbn [for_of] in H. unfold bind at 1 in H.
    destruct (CreateOrder.add_item oid l d1) as [[[]|e] dm] eqn:Estep; [|discriminate].
    unfold CreateOrder.add_item, bind, select, write, throw in Estep.
    destruct (select_product (CreateOrder.product_id l) d1) as [p|]; [|discriminate].
    cbn in Estep. injection Estep as Edm.
    rewrite (IH dm d2 H pid), <- Edm, stock_of_update.
    change (stock_of pid (set_sequence _ _ _)) with (stock_of pid d1).
    cbn [ordered_quantity fold_right]. fold (ordered_quantity lines pid).
    destruct (stock_of pid d1) as [s|]; [|reflexivity]. cbn. f_equal.
    rewrite (Z.eqb_sym pid). destruct (CreateOrder.product_id l =? pid); lia.
Qed.

(** The two ways POST /orders can end. *)
Lemma create_order_outcome (now : Z) (a : authorization) (b : CreateOrder.body)
    (d : db) (r : response) (d' : db) :
  CreateOrder.handler now a b d = (r, d') ->
  (d' = d /\ (status r = 400 \/ status r = 401 \/ status r = 403))
  \/ (exists user total row,
        authenticateToken a d = inr user
        /\ ReqUser.role user = Buyer
        /\ CreateOrder.verify_stock d (CreateOrder.items b) 0%Q = inr total
        /\ Order.id row = order_bound d + 1
        /\ Order.buyer_id row = ReqUser.id user
        /\ for_of (CreateOrder.items b) (CreateOrder.add_item (order_bound d + 1))
             (set_sequence T_orders (order_bound d + 1)
                (set_orders (fun rows => rows ++ [row]) d))
           = (Return tt, d')
        /\ r = mkResponse 201
                 (JsonOrderCreated "Orden creada exitosamente. Por favor realiza el pago."
                    (order_bound d + 1) total)).
Proof.
  intros H. unfold CreateOrder.handler, with_role in H.
  destruct (authenticateToken a d) as [r0|user] eqn:Ea.
  { left. injection H as <- <-. split; [reflexivity|].
    destruct (authenticate_refusal_status _ _ _ Ea); auto. }
  destruct (requireRole [Buyer] user) as [r0|] eqn:Er.
  { left. injection H as <- <-. split; [reflexivity|]. unfold requireRole in Er.
    destruct (existsb _ _); [discriminate|]. injection Er as <-. auto. }
  assert (Hrole : ReqUser.role user = Buyer).
  { unfold requireRole in Er. destruct (ReqUser.role user); cbn in Er;
      [reflexivity|discriminate|discriminate]. }
  unfold try_catch in H.
  destruct (CreateOrder.items b) as [|l0 ls] eqn:Eitems.
  { left. injection H as <- <-. cbn. auto. }
  cbv iota in H. rewrite <- Eitems in H. rewrite <- Eitems.
  destruct (negb (truthy_text (CreateOrder.contact_name b)
                  && truthy_text (CreateOrder.contact_email b))).
  { left. injection H as <- <-. cbn. auto. }
  unfold bind at 1 in H. unfold select at 1 in H. cbv beta iota in H.
  destruct (CreateOrder.verify_stock d (CreateOrder.items b) 0%Q) as [r0|total] eqn:Ev.
  { left. injection H as <- <-. split; [reflexivity|]. left.
    clear - Ev. revert Ev. generalize 0%Q. generalize (CreateOrder.items b).
    induction l as [|l ls IH]; intros q Ev; simpl in Ev; [discriminate|].
    destruct (select_active_product _ d); [|injection Ev as <-; reflexivity].
    destruct (_ <? _); [injection Ev as <-; reflexivity|]. eapply IH, Ev. }
  right. unfold bind at 1 in H. unfold insert_order at 1 in H. cbv beta iota zeta in H.
  unfold next_rowid in H. fold (order_bound d) in H.
  match type of H with
  | context [set_orders (fun rows => rows ++ [?x]) d] => set (row := x) in H
  end.
  exists user, total, row. unfold bind at 1 in H.
  match type of H with
  | context [for_of ?ls ?body ?d1] =>
      pose proof (add_items_complete (order_bound d + 1) ls d1) as Hc;
      destruct (for_of ls body d1) as [out d2] eqn:Eloop
  end.
  cbn [fst] in Hc.
  assert (Hout : out = Return tt).
  { apply Hc. intros l Hl. change (select_product (CreateOrder.product_id l) d <> None).
    eapply verify_stock_products_exist; eauto. }
  subst out. cbn in H. injection H as <- <-. repeat split; auto.
Qed.



(** X7.  An order answered 201 takes from the stock of every product exactly
    the quantity it requests of it (the sum of its lines naming the product),
    and nothing from the other products. *)
Theorem create_order_decrements_stock :
  forall (now : Z) (a : authorization) (b : CreateOrder.body) (d : db)
         (r : response) (d' : db),
    CreateOrder.handler now a b d = (r, d') ->
    status r = 201 ->
    forall pid,
      stock_of pid d'
      = option_map (fun s => s - ordered_quantity (CreateOrder.items b) pid) (stock_of pid d).
Proof.
  intros now a b d r d' H H201 pid.
  destruct (create_order_outcome _ _ _ _ _ _ H)
    as [[_ Hs]|(user & total & row & _ & _ & _ & _ & _ & Hloop & _)].
  - rewrite H201 in Hs. destruct Hs as [Hs|[Hs|Hs]]; discriminate.
  - exact (add_items_stocks _ _ _ _ Hloop pid).
Qed.

Lemma create_order_decrements_stock_witness :
  stock_of 1 shop_with_order = Some 1.
Proof.
  rewrite (create_order_decrements_stock 100 (Bearer 2) (contact [CreateOrder.mkLine 1 1]) shop
             (fst (CreateOrder.handler 100 (Bearer 2) (contact [CreateOrder.mkLine 1 1]) shop))
             shop_with_order eq_refl eq_refl 1).
  reflexivity.
Defined.

(** ** What the handlers that write orders and transactions do *)

Lemma with_role_cases (a : authorization) (roles : list role)
    (h : ReqUser.t -> db -> response * db) (d : db) :
  with_role a roles h d = (fst (with_role a roles h d), d)
  \/ exists user, authenticateToken a d = inr user
                  /\ requireRole roles user = None
                  /\ with_role a roles h d = h user d.
Proof.
  unfold with_role. destruct (authenticateToken a d) as [r|user]; [now left|].
  destruct (requireRole roles user) eqn:E; [now left|].
  right. exists user. auto.
Qed.

Lemma with_user_cases (a : authorization) (h : ReqUser.t -> db -> response * db) (d : db) :
  with_user a h d = (fst (with_user a h d), d)
  \/ exists user, authenticateToken a d = inr user /\ with_user a h d = h user d.
Proof.
  unfold with_user. destruct (authenticateToken a d) as [r|user]; [now left|].
  right. exists user. auto.
Qed.

(** PUT /orders/:id/status: nothing, or one UPDATE of the order. *)
Lemma update_status_effect (now : Z) (a : authorization) (id : Z) (b : UpdateStatus.body)
    (d : db) :
  let d' := snd (UpdateStatus.handler now a id b d) in
  d' = d
  \/ exists user st o,
       authenticateToken a d = inr user
       /\ UpdateStatus.valid_status b = Some st
       /\ select_order id d = Some o
       /\ ((st = Processing /\ truthy_int (Order.seller_id o) = false
            /\ d' = update_order id
                      (Order_with_status_seller st
                         (or_else truthy_int (UpdateStatus.seller_id b)
                            (Some (ReqUser.id user))) now) d)
           \/ ((st <> Processing \/ truthy_int (Order.seller_id o) = true)
               /\ d' = update_order id (Order_with_status st now) d)).
Proof.
  cbv zeta. unfold UpdateStatus.handler.
  destruct (with_role_cases a [Seller; Superuser]
              (fun user => try_catch
                 (match UpdateStatus.valid_status b with
                  | None => ret (res_error 400 "Estado inválido.")
                  | Some st =>
                      found <- select (select_order id) ;;
                      match found with
                      | None => ret (res_error 404 "Orden no encontrada.")
                      | Some order =>
                          (if order_status_eqb st Processing
                              && negb (truthy_int (Order.seller_id order))
                           then
                             write (update_order id
                                      (Order_with_status_seller st
                                         (or_else truthy_int (UpdateStatus.seller_id b)
                                            (Some (ReqUser.id user))) now))
                           else write (update_order id (Order_with_status st now))) ;;;
                          ret (res_json (JsonMessage "Estado de orden actualizado exitosamente."))
                      end
                  end)
                 (fun _ => res_error 500 "Error al actualizar estado de orden.")) d)
    as [E|(user & Ha & _ & E)]; rewrite E; [now left|].
  unfold try_catch, bind, select, write, ret.
  destruct (UpdateStatus.valid_status b) as [st|] eqn:Est; [|now left].
  destruct (select_order id d) as [o|] eqn:Eo; [|now left].
  right. exists user, st, o. repeat split; auto.
  destruct (order_status_eqb st Processing) eqn:Es;
    destruct (truthy_int (Order.seller_id o)) eqn:Et; cbn [andb negb snd].
  - right. auto.
  - left. destruct st; try discriminate. auto.
  - right. split; [|reflexivity]. auto.
  - right. split; [|reflexivity]. left. intros ->. discriminate.
Qed.

(** POST /orders/:id/payment-proof: nothing, or the UPDATE of the order and
    one pending transaction. *)
Lemma payment_proof_effect (now : Z) (a : authorization) (id : Z) (b : PaymentProof.body)
    (d : db) :
  let r := PaymentProof.handler now a id b d in
  (snd r = d /\ status (fst r) <> 200)
  \/ exists user o proof txid,
       authenticateToken a d = inr user
       /\ ReqUser.role user = Buyer
       /\ select_order_of_buyer id (ReqUser.id user) d = Some o
       /\ bind_param (PaymentProof.payment_proof b) d = (Return proof, d)
       /\ bind_param (PaymentProof.binance_txid b) d = (Return txid, d)
       /\ status (fst r) = 200
       /\ snd r
          = snd (insert_transaction now id (ReqUser.id user) (Order.total_amount o) txid proof
                   (update_order id (Order_with_proof proof txid now) d)).
Proof.
  cbv zeta. unfold PaymentProof.handler, with_role.
  destruct (authenticateToken a d) as [r0|user] eqn:Ea.
  { left. split; [reflexivity|]. cbn [fst].
    destruct (authenticate_refusal_status _ _ _ Ea) as [E|E]; rewrite E; discriminate. }
  destruct (requireRole [Buyer] user) as [r0|] eqn:Er.
  { left. split; [reflexivity|]. unfold requireRole in Er.
    destruct (existsb _ _); [discriminate|]. injection Er as <-. cbn. discriminate. }
  assert (Hrole : ReqUser.role user = Buyer).
  { unfold requireRole in Er. destruct (ReqUser.role user); cbn in Er;
      [reflexivity|discriminate|discriminate]. }
  unfold try_catch, bind, select, write, ret.
  destruct (select_order_of_buyer id (ReqUser.id user) d) as [o|] eqn:Eo;
    [|left; cbn; split; [reflexivity|discriminate]].
  destruct (PaymentProof.payment_proof b) as [| |p] eqn:Ep;
    [left; cbn; split; [reflexivity|discriminate]| |];
    (destruct (PaymentProof.binance_txid b) as [| |t] eqn:Et;
     [left; cbn; split; [reflexivity|discriminate]| |]);
    right; eexists user, o, _, _; cbn [bind_param ret fst snd];
    repeat split; auto.
Qed.

(** POST /payments/create: nothing, or one UPDATE of binance_txid. *)
Lemma create_payment_effect (now ts : Z) (key : option string) (a : authorization)
    (b : CreatePayment.body) (d : db) :
  let r := CreatePayment.handler now ts key a b d in
  (snd r = d /\ status (fst r) <> 200)
  \/ exists user oid o,
       authenticateToken a d = inr user
       /\ CreatePayment.order_id b = Some oid
       /\ select_order_of_buyer oid (ReqUser.id user) d = Some o
       /\ fst r = res_json (JsonPayment "Orden de pago creada exitosamente."
                              (String.append "SIMULATED_" (string_of_Z ts)))
       /\ snd r = update_order oid
                    (Order_with_txid (Some (String.append "SIMULATED_" (string_of_Z ts))) now) d.
Proof.
  cbv zeta. unfold CreatePayment.handler, with_user.
  destruct (authenticateToken a d) as [r0|user] eqn:Ea.
  { left. split; [reflexivity|]. cbn [fst].
    destruct (authenticate_refusal_status _ _ _ Ea) as [E|E]; rewrite E; discriminate. }
  unfold try_catch, bind, select, write, ret, throw.
  destruct (CreatePayment.order_id b) as [oid|] eqn:Eoid;
    [|left; cbn; split; [reflexivity|discriminate]].
  destruct (CreatePayment.amount b) as [amt|];
    [|left; cbn; split; [reflexivity|discriminate]].
  destruct (truthy_int (Some oid) && truthy_real (Some amt));
    [|left; cbn; split; [reflexivity|discriminate]].
  destruct (select_order_of_buyer oid (ReqUser.id user) d) as [o|] eqn:Eo;
    [|left; cbn; split; [reflexivity|discriminate]].
  destruct key; [|left; cbn; split; [reflexivity|discriminate]].
  right. exists user, oid, o. cbn. repeat split; auto.
Qed.

(** POST /payments/webhook: nothing, or the UPDATE of the order. *)
Lemma webhook_effect (f : string -> option Z) (now : Z) (req : webhook_request) (d : db) :
  snd (webhook f now req d) = d
  \/ exists p dt tradeNo orderId,
       parsed_body req = Some p
       /\ bizStatus p = Some "PAY_SUCCESS"
       /\ data p = Some dt
       /\ merchantTradeNo dt = Some tradeNo
       /\ nth_error (split "_"%char tradeNo) 1 = Some orderId
       /\ webhook f now req d
          = (mkResponse 500 (JsonWebhook "FAIL" (Some "no such column: updated_at")),
             process_order f now orderId d).
Proof.
  destruct (parsed_body req) as [p|] eqn:Ep;
    [|left; unfold webhook, try_catch; rewrite Ep; reflexivity].
  destruct (bizStatus p) as [s|] eqn:Eb;
    [|left; unfold webhook, try_catch, bind, ret; rewrite Ep, Eb; reflexivity].
  destruct (s =? "PAY_SUCCESS")%string eqn:Es;
    [|left; unfold webhook, try_catch, bind, ret; rewrite Ep, Eb, Es; reflexivity].
  apply String.eqb_eq in Es. subst s.
  destruct (data p) as [dt|] eqn:Ed;
    [|left; unfold webhook, try_catch, bind, ret, throw; rewrite Ep, Eb, Ed; reflexivity].
  destruct (merchantTradeNo dt) as [tradeNo|] eqn:Em;
    [|left; unfold webhook, try_catch, bind, ret, throw; rewrite Ep, Eb, Ed, Em; reflexivity].
  destruct (nth_error (split "_"%char tradeNo) 1) as [orderId|] eqn:En;
    [|left; unfold webhook, try_catch, bind, ret, throw;
      rewrite Ep, Eb, Ed, Em, En; reflexivity].
  right. exists p, dt, tradeNo, orderId. repeat split; auto.
  now apply (webhook_pay_success f now req p dt tradeNo orderId d).
Qed.

(** ** Transactions are append-only, and pending *)

Lemma transactions_appended_refl (d : db) : transactions_appended d d.
Proof. exists []. rewrite app_nil_r. auto. Qed.

Lemma transactions_appended_trans (d1 d2 d3 : db) :
  transactions_appended d1 d2 -> transactions_appended d2 d3 -> transactions_appended d1 d3.
Proof.
  intros (n1 & E1 & F1) (n2 & E2 & F2). exists (n1 ++ n2).
  split; [rewrite E2, E1, app_assoc; reflexivity|]. apply Forall_app. auto.
Qed.

Lemma transactions_appended_same (d d' : db) :
  transactions d' = transactions d -> transactions_appended d d'.
Proof. intros E. exists []. rewrite app_nil_r. auto. Qed.

Lemma handle_transactions_appended (f : string -> option Z) (r : request) (d : db) :
  transactions_appended d (snd (handle f r d)).
Proof.
  pose proof transactions_appended_refl as Rr.
  pose proof transactions_appended_trans as Rt.
  assert (Wseq : forall t n x, t <> T_orders -> transactions_appended x (set_sequence t n x))
    by (intros; now apply transactions_appended_same).
  assert (Wpm : forall g, (forall p, Product.id (g p) = Product.id p) ->
                          forall x, transactions_appended x (set_products (map g) x))
    by (intros; now apply transactions_appended_same).
  assert (Wip : forall now n descr p s c image,
             keeps transactions_appended (CreateProduct.insert_product now n descr p s c image))
    by (intros now n descr p s c image x; now apply transactions_appended_same).
  assert (Wse : forall g x, transactions_appended x (set_seller_earnings g x))
    by (intros; now apply transactions_appended_same).
  assert (Wum : forall g, (forall u, User.earnings (g u) = User.earnings u) ->
                          forall x, transactions_appended x (set_users (map g) x))
    by (intros; now apply transactions_appended_same).
  assert (Wiu : forall now e h r0 w, keeps transactions_appended (insert_user now e h r0 w)).
  { intros now e h r0 w x. unfold insert_user. destruct (existsb _ _); cbn [snd];
      now apply transactions_appended_same. }
  assert (Wue : forall now id q,
             keeps transactions_appended (write (UpdateEarnings.update_earnings now id q)))
    by (intros now id q x; now apply transactions_appended_same).
  assert (Wae : forall now id q,
             keeps transactions_appended (write (AssignSale.add_earnings now id q)))
    by (intros now id q x; now apply transactions_appended_same).
  assert (Wio : forall now buyer total n e p i,
             keeps transactions_appended (insert_order now buyer total n e p i))
    by (intros now buyer total n e p i x; now apply transactions_appended_same).
  assert (Wii : forall oid pid q price,
             keeps transactions_appended (insert_order_item oid pid q price))
    by (intros oid pid q price x; now apply transactions_appended_same).
  assert (Wuo : forall id g, (forall o, order_key (g o) = order_key o) ->
                             forall x, transactions_appended x (update_order id g x))
    by (intros; now apply transactions_appended_same).
  destruct r; cbn [handle].
  - apply (Register_preserved transactions_appended); auto.
  - apply (ListProducts_preserved transactions_appended); auto.
  - apply (GetProduct_preserved transactions_appended); auto.
  - apply (CreateProduct_preserved transactions_appended); auto.
  - apply (UpdateProduct_preserved transactions_appended); auto.
  - apply (DeleteProduct_preserved transactions_appended); auto.
  - apply (CreateOrder_preserved transactions_appended); auto.
  - apply (ListOrders_preserved transactions_appended); auto.
  - apply (GetOrder_preserved transactions_appended); auto.
  - apply (UpdateStatus_preserved transactions_appended); auto.
  - destruct (payment_proof_effect now a id b d)
      as [[E _]|(user & o & proof & txid & _ & _ & _ & _ & _ & _ & E)]; rewrite E.
    + apply Rr.
    + eexists [_]. split; [reflexivity|]. constructor; [reflexivity|constructor].
  - apply (CreatePayment_preserved transactions_appended); auto.
  - destruct (webhook_effect f now req d) as [E|(p & dt & t & o & _ & _ & _ & _ & _ & E)];
      rewrite E; [apply Rr|].
    cbn [snd]. apply transactions_appended_same. unfold process_order.
    destruct (f o); reflexivity.
  - apply (PaymentStatus_preserved transactions_appended); auto.
  - apply (CreateSeller_preserved transactions_appended); auto.
  - apply (UpdateSeller_preserved transactions_appended); auto.
  - apply (DeactivateSeller_preserved transactions_appended); auto.
  - apply (UpdateEarnings_preserved transactions_appended); auto.
  - apply (AssignSale_preserved transactions_appended); auto.
Qed.

(** X8.  Through any sequence of requests the table of transactions only
    grows, and only by pending rows: no request removes or rewrites a
    transaction, and none sets one to 'verified' or 'failed' -- the webhook
    included, whose UPDATE of transactions cannot be prepared. *)
Theorem transactions_only_appended_pending :
  forall (rowid_of_text : string -> option Z) (rs : list request) (d : db),
    exists new,
      transactions (serve rowid_of_text rs d) = transactions d ++ new
      /\ Forall (fun t => Transaction.status t = TxPending) new.
Proof.
  intros f rs. induction rs as [|r rs IH]; intros d.
  - apply transactions_appended_refl.
  - cbn [serve fold_left].
    exact (transactions_appended_trans _ _ _
             (handle_transactions_appended f r d) (IH (snd (handle f r d)))).
Qed.

(** ** A seller, once assigned, stays *)

Lemma assignment_kept_refl (d : db) : assignment_kept d d.
Proof. intros id o s Ho Hs _. eauto. Qed.

Lemma assignment_kept_trans (d1 d2 d3 : db) :
  assignment_kept d1 d2 -> assignment_kept d2 d3 -> assignment_kept d1 d3.
Proof.
  intros H1 H2 id o s Ho Hs Hz. destruct (H1 id o s Ho Hs Hz) as (o' & Ho' & Hs').
  eauto.
Qed.

Lemma assignment_kept_same (d d' : db) : orders d' = orders d -> assignment_kept d d'.
Proof. intros E id o s Ho Hs _. exists o. unfold select_order in *. now rewrite E. Qed.

Lemma assignment_kept_update (id : Z) (g : Order.t -> Order.t) (d : db) :
  (forall o, Order.id (g o) = Order.id o) ->
  (forall o, select_order id d = Some o -> truthy_int (Order.seller_id o) = true ->
             Order.seller_id (g o) = Order.seller_id o) ->
  assignment_kept d (update_order id g d).
Proof.
  intros Hid Hg id' o s Ho Hs Hz. rewrite select_order_update by exact Hid.
  rewrite Ho. cbn [option_map]. eexists. split; [reflexivity|].
  destruct (Order.id o =? id) eqn:E; [|exact Hs].
  rewrite Hg; [exact Hs| |].
  - apply Z.eqb_eq in E. pose proof (select_order_id _ _ _ Ho). congruence.
  - rewrite Hs. cbn. now apply negb_true_iff, Z.eqb_neq.
Qed.

Lemma handle_assignment_kept (f : string -> option Z) (r : request) (d : db) :
  assignment_kept d (snd (handle f r d)).
Proof.
  pose proof assignment_kept_refl as Rr.
  pose proof assignment_kept_trans as Rt.
  assert (Wseq : forall t n x, t <> T_orders -> assignment_kept x (set_sequence t n x))
    by (intros; now apply assignment_kept_same).
  assert (Wpm : forall g, (forall p, Product.id (g p) = Product.id p) ->
                          forall x, assignment_kept x (set_products (map g) x))
    by (intros; now apply assignment_kept_same).
  assert (Wip : forall now n descr p s c image,
             keeps assignment_kept (CreateProduct.insert_product now n descr p s c image))
    by (intros now n descr p s c image x; now apply assignment_kept_same).
  assert (Wtx : forall g x, assignment_kept x (set_transactions g x))
    by (intros; now apply assignment_kept_same).
  assert (Wse : forall g x, assignment_kept x (set_seller_earnings g x))
    by (intros; now apply assignment_kept_same).
  assert (Wum : forall g, (forall u, User.earnings (g u) = User.earnings u) ->
                          forall x, assignment_kept x (set_users (map g) x))
    by (intros; now apply assignment_kept_same).
  assert (Wiu : forall now e h r0 w, keeps assignment_kept (insert_user now e h r0 w)).
  { intros now e h r0 w x. unfold insert_user. destruct (existsb _ _); cbn [snd];
      now apply assignment_kept_same. }
  assert (Wue : forall now id q,
             keeps assignment_kept (write (UpdateEarnings.update_earnings now id q)))
    by (intros now id q x; now apply assignment_kept_same).
  assert (Wae : forall now id q,
             keeps assignment_kept (write (AssignSale.add_earnings now id q)))
    by (intros now id q x; now apply assignment_kept_same).
  destruct r; cbn [handle].
  - apply (Register_preserved assignment_kept); auto.
  - apply (ListProducts_preserved assignment_kept); auto.
  - apply (GetProduct_preserved assignment_kept); auto.
  - apply (CreateProduct_preserved assignment_kept); auto.
  - apply (UpdateProduct_preserved assignment_kept); auto.
  - apply (DeleteProduct_preserved assignment_kept); auto.
  - destruct (CreateOrder.handler now a b d) as [r d'] eqn:E. cbn [snd].
    destruct (create_order_effect _ _ _ _ _ _ E)
      as [[-> _]|(row & its & total & _ & Ho & _)]; [apply Rr|].
    intros id o s Hsel Hs _. exists o. split; [|exact Hs].
    unfold select_order in *. rewrite Ho. now apply find_app_l.
  - apply (ListOrders_preserved assignment_kept); auto.
  - apply (GetOrder_preserved assignment_kept); auto.
  - destruct (update_status_effect now a id b d)
      as [E|(user & st & o & _ & _ & Ho & [(_ & Hf & E)|(_ & E)])]; rewrite E.
    + apply Rr.
    + apply assignment_kept_update; [reflexivity|].
      intros o' Ho' Ht. rewrite Ho in Ho'. injection Ho' as <-. congruence.
    + apply assignment_kept_update; reflexivity.
  - destruct (payment_proof_effect now a id b d)
      as [[E _]|(user & o & proof & txid & _ & _ & _ & _ & _ & _ & E)]; rewrite E.
    + apply Rr.
    + cbn [insert_transaction snd].
      apply (Rt _ (update_order id (Order_with_proof proof txid now) d));
        [apply assignment_kept_update; reflexivity|].
      now apply assignment_kept_same.
  - destruct (create_payment_effect now timestamp BINANCE_SECRET_KEY a b d)
      as [[E _]|(user & oid & o & _ & _ & _ & _ & E)]; rewrite E; [apply Rr|].
    apply assignment_kept_update; reflexivity.
  - destruct (webhook_effect f now req d) as [E|(p & dt & t & o & _ & _ & _ & _ & _ & E)];
      rewrite E; [apply Rr|].
    cbn [snd]. unfold process_order. destruct (f o); [|apply Rr].
    apply assignment_kept_update; reflexivity.
  - apply (PaymentStatus_preserved assignment_kept); auto.
  - apply (CreateSeller_preserved assignment_kept); auto.
  - apply (UpdateSeller_preserved assignment_kept); auto.
  - apply (DeactivateSeller_preserved assignment_kept); auto.
  - apply (UpdateEarnings_preserved assignment_kept); auto.
  - apply (AssignSale_preserved assignment_kept); auto.
Qed.

(** X9.  Once an order has a seller, no sequence of requests of any route
    takes the order away from that seller: the order stays, with the same
    seller_id. *)
Theorem assigned_seller_is_permanent :
  forall (rowid_of_text : string -> option Z) (rs : list request) (d : db)
         (id : Z) (o : Order.t) (s : Z),
    select_order id d = Some o ->
    Order.seller_id o = Some s ->
    s <> 0 ->
    exists o', select_order id (serve rowid_of_text rs d) = Some o'
               /\ Order.seller_id o' = Some s.
Proof.
  intros f rs. induction rs as [|r rs IH]; intros d id o s Ho Hs Hz.
  - eauto.
  - cbn [serve fold_left].
    destruct (handle_assignment_kept f r d id o s Ho Hs Hz) as (o1 & Ho1 & Hs1).
    exact (IH _ id o1 s Ho1 Hs1 Hz).
Qed.

Lemma assigned_seller_is_permanent_witness :
  let claimed := snd (UpdateStatus.handler 200 (Bearer 3) 1
                        (UpdateStatus.mkBody (Some "processing") None) shop_with_order) in
  let later :=
    [ PUT_orders_id_status 300 (Bearer 4) 1 (UpdateStatus.mkBody (Some "processing") (Some 4));
      POST_payments_webhook 400 (pay_success "ORDER_1_1700000000000");
      PUT_orders_id_status 500 (Bearer 1) 1 (UpdateStatus.mkBody (Some "pending") (Some 4)) ] in
  exists o', select_order 1 (serve decimal_rowid later claimed) = Some o'
             /\ Order.seller_id o' = Some 3.
Proof.
  intros claimed later.
  refine (assigned_seller_is_permanent decimal_rowid later claimed 1
            (Order.mk 1 2 (Some 3) Processing (0 + 10 * inject_Z 1)%Q (Some "Ana")
               (Some "buyer@example.com") None None None None 100 200)
            3 eq_refl eq_refl _).
  discriminate.
Defined.

(** ** Users: never removed, never re-keyed, unique *)

Lemma users_appended_refl (d : db) : users_appended d d.
Proof. exists []. now rewrite app_nil_r. Qed.

Lemma users_appended_trans (d1 d2 d3 : db) :
  users_appended d1 d2 -> users_appended d2 d3 -> users_appended d1 d3.
Proof.
  intros (n1 & E1) (n2 & E2). exists (n1 ++ n2). now rewrite E2, E1, app_assoc.
Qed.

Lemma users_appended_same (d d' : db) : users d' = users d -> users_appended d d'.
Proof. intros E. exists []. now rewrite app_nil_r, E. Qed.

Lemma users_appended_map (g : User.t -> User.t) (d : db) :
  (forall u, user_identity (g u) = user_identity u) ->
  users_appended d (set_users (map g) d).
Proof.
  intros H. exists []. rewrite app_nil_r. cbn. rewrite map_map. now apply map_ext.
Qed.

Lemma accounts_kept_same (d d' : db) : users d' = users d -> accounts_kept d d'.
Proof. intros E H. unfold accounts_unique in *. now rewrite E. Qed.

Lemma accounts_kept_map (g : User.t -> User.t) (d : db) :
  (forall u, User.id (g u) = User.id u) ->
  (forall u, User.email (g u) = User.email u) ->
  accounts_kept d (set_users (map g) d).
Proof.
  intros Hid He [H1 H2]. unfold accounts_unique. cbn. rewrite !map_map.
  rewrite (map_ext _ _ Hid), (map_ext _ _ He). auto.
Qed.

Lemma existsb_email_false (e : string) (l : list User.t) :
  existsb (fun u => (User.email u =? e)%string) l = false -> ~ In e (map User.email l).
Proof.
  intros H Hin. apply in_map_iff in Hin. destruct Hin as (u & <- & Hu).
  assert (existsb (fun u0 => (User.email u0 =? User.email u)%string) l = true)
    by (apply existsb_exists; exists u; split; [exact Hu|apply String.eqb_refl]).
  congruence.
Qed.

Lemma NoDup_snoc {A : Type} (l : list A) (x : A) : NoDup l -> ~ In x l -> NoDup (l ++ [x]).
Proof.
  intros Hl Hx. apply NoDup_app; [exact Hl|constructor; [tauto|constructor]|].
  intros y Hy [<-|[]]. contradiction.
Qed.

Lemma insert_user_users (now : Z) (e h : string) (r : role) (w : option string) (d : db) :
  snd (insert_user now e h r w d) = d
  \/ (existsb (fun u => (User.email u =? e)%string) (users d) = false
      /\ users (snd (insert_user now e h r w d))
         = users d ++ [User.mk (next_rowid T_users (map User.id (users d)) d)
                         e None h r w 0%Q now now true]).
Proof.
  unfold insert_user. destruct (existsb _ _) eqn:E; [now left|right]. split; reflexivity.
Qed.

Lemma accounts_kept_insert_user now e h r w : keeps accounts_kept (insert_user now e h r w).
Proof.
  intros d. destruct (insert_user_users now e h r w d) as [->|[Hn E]]; [intros H; exact H|].
  intros [H1 H2]. unfold accounts_unique. rewrite E, !map_app. cbn. split.
  - apply NoDup_snoc; [exact H1|apply next_rowid_fresh].
  - apply NoDup_snoc; [exact H2|now apply existsb_email_false].
Qed.

(** The UPDATE of PUT /admin/sellers/:id keeps ids and e-mail addresses
    unique: SQLite refuses it otherwise. *)
Lemma accounts_kept_update_user now id e w act pw :
  keeps accounts_kept (UpdateSeller.update_user now id e w act pw).
Proof.
  intros d. unfold UpdateSeller.update_user.
  destruct (existsb (fun u => User.id u =? id) (users d)) eqn:Eid; cbn [andb].
  - destruct (existsb (fun u => negb (User.id u =? id) && (User.email u =? e)%string)
                (users d)) eqn:Eother; cbn [snd]; [intros H; exact H|].
    intros [H1 H2]. unfold accounts_unique. cbn [users set_users]. split.
    + rewrite map_map. erewrite map_ext; [exact H1|].
      intros u. destruct (User.id u =? id); reflexivity.
    + assert (Hother : forall u, In u (users d) -> User.id u <> id -> User.email u <> e).
      { intros u Hu Hne He.
        assert (existsb (fun u0 => negb (User.id u0 =? id) && (User.email u0 =? e)%string)
                  (users d) = true).
        { apply existsb_exists. exists u. split; [exact Hu|].
          apply andb_true_iff. split; [now apply negb_true_iff, Z.eqb_neq|].
          now apply String.eqb_eq. }
        congruence. }
      clear Eid Eother. revert H1 H2 Hother.
      induction (users d) as [|u us IH]; intros H1 H2 Hother; [constructor|].
      cbn [map] in *. inversion H1 as [|? ? Hn1 H1']; inversion H2 as [|? ? Hn2 H2']; subst.
      constructor; [|apply IH; auto; intros u' Hu'; apply Hother; now right].
      intros Hin. rewrite map_map in Hin. apply in_map_iff in Hin.
      destruct Hin as (u' & Hu'e & Hu').
      destruct (User.id u =? id) eqn:Eu; destruct (User.id u' =? id) eqn:Eu';
        cbn in Hu'e.
      * apply Z.eqb_eq in Eu, Eu'. apply Hn1. apply in_map_iff. exists u'.
        split; [congruence|exact Hu'].
      * apply Z.eqb_neq in Eu'. apply (Hother u' (or_intror Hu') Eu'). exact Hu'e.
      * apply Z.eqb_neq in Eu. apply (Hother u (or_introl eq_refl) Eu). now symmetry.
      * apply Hn2. apply in_map_iff. exists u'. split; [exact Hu'e|exact Hu'].
  - cbn [snd]. intros [H1 H2]. unfold accounts_unique. cbn [users set_users].
    assert (E : map (fun u =>
                       if User.id u =? id
                       then User.mk (User.id u) e (User.username u)
                              match pw with Some h => h | None => User.password u end
                              (User.role u) w (User.earnings u) (User.created_at u) now act
                       else u) (users d) = users d).
    { rewrite <- (map_id (users d)) at 2. apply map_ext_in. intros u Hu.
      destruct (User.id u =? id) eqn:Eu; [|reflexivity].
      assert (existsb (fun u0 => User.id u0 =? id) (users d) = true)
        by (apply existsb_exists; eauto).
      congruence. }
    rewrite E. auto.
Qed.

Lemma users_appended_update_user now id e w act pw :
  keeps users_appended (UpdateSeller.update_user now id e w act pw).
Proof.
  intros d. unfold UpdateSeller.update_user. destruct (_ && _); cbn [snd];
    [apply users_appended_refl|].
  apply users_appended_map. intros u. destruct (User.id u =? id); reflexivity.
Qed.

Lemma users_appended_insert_user now e h r w : keeps users_appended (insert_user now e h r w).
Proof.
  intros d. destruct (insert_user_users now e h r w d) as [->|[_ E]];
    [apply users_appended_refl|].
  eexists. rewrite E, map_app. reflexivity.
Qed.

Section UserHandlers.
Variable R : db -> db -> Prop.
Hypothesis R_refl : forall d, R d d.
Hypothesis R_trans : forall d1 d2 d3, R d1 d2 -> R d2 d3 -> R d1 d3.
Hypothesis W_update_user :
  forall now id e w act pw, keeps R (UpdateSeller.update_user now id e w act pw).
Hypothesis W_deactivate :
  forall id d,
    R d (set_users (map (fun u => if (User.id u =? id) && role_eqb (User.role u) Seller
                                  then User_with_is_active false u else u)) d).

Lemma UpdateSeller_preserved_users now a id h b :
  preserved R (UpdateSeller.handler now a id h b).
Proof.
  unfold UpdateSeller.handler. apply (preserved_with_role R R_refl). intros user.
  apply (preserved_try_catch R). apply (keeps_bind R R_trans);
    [apply (keeps_select R R_refl)|].
  intros [seller|]; [|apply (keeps_ret R R_refl)].
  apply (keeps_bind R R_trans); [|intros _; apply (keeps_ret R R_refl)].
  destruct (truthy_text (UpdateSeller.password b)); apply W_update_user.
Qed.

Lemma DeactivateSeller_preserved_users a id : preserved R (DeactivateSeller.handler a id).
Proof.
  unfold DeactivateSeller.handler. apply (preserved_with_role R R_refl). intros user.
  apply (preserved_try_catch R). apply (keeps_bind R R_trans);
    [|intros _; apply (keeps_ret R R_refl)].
  apply keeps_write. intros d. apply W_deactivate.
Qed.
End UserHandlers.

Lemma handle_users_appended (f : string -> option Z) (r : request) (d : db) :
  users_appended d (snd (handle f r d)).
Proof.
  pose proof users_appended_refl as Rr.
  pose proof users_appended_trans as Rt.
  assert (Wseq : forall t n x, t <> T_orders -> users_appended x (set_sequence t n x))
    by (intros; now apply users_appended_same).
  assert (Wpm : forall g, (forall p, Product.id (g p) = Product.id p) ->
                          forall x, users_appended x (set_products (map g) x))
    by (intros; now apply users_appended_same).
  assert (Wip : forall now n descr p s c image,
             keeps users_appended (CreateProduct.insert_product now n descr p s c image))
    by (intros now n descr p s c image x; now apply users_appended_same).
  assert (Wuo : forall id g, (forall o, order_key (g o) = order_key o) ->
                             forall x, users_appended x (update_order id g x))
    by (intros; now apply users_appended_same).
  assert (Wtx : forall g x, users_appended x (set_transactions g x))
    by (intros; now apply users_appended_same).
  assert (Wse : forall g x, users_appended x (set_seller_earnings g x))
    by (intros; now apply users_appended_same).
  assert (Wiu := users_appended_insert_user).
  assert (Wue : forall now id q,
             keeps users_appended (write (UpdateEarnings.update_earnings now id q))).
  { intros now id q x. apply users_appended_map. intros u.
    destruct (User.id u =? id); reflexivity. }
  assert (Wae : forall now id q,
             keeps users_appended (write (AssignSale.add_earnings now id q))).
  { intros now id q x. apply users_appended_map. intros u.
    destruct (User.id u =? id); reflexivity. }
  assert (Wio : forall now buyer total n e p i,
             keeps users_appended (insert_order now buyer total n e p i))
    by (intros now buyer total n e p i x; now apply users_appended_same).
  assert (Wii : forall oid pid q price,
             keeps users_appended (insert_order_item oid pid q price))
    by (intros oid pid q price x; now apply users_appended_same).
  destruct r; cbn [handle].
  - apply (Register_preserved users_appended); auto.
  - apply (ListProducts_preserved users_appended); auto.
  - apply (GetProduct_preserved users_appended); auto.
  - apply (CreateProduct_preserved users_appended); auto.
  - apply (UpdateProduct_preserved users_appended); auto.
  - apply (DeleteProduct_preserved users_appended); auto.
  - apply (CreateOrder_preserved users_appended); auto.
  - apply (ListOrders_preserved users_appended); auto.
  - apply (GetOrder_preserved users_appended); auto.
  - apply (UpdateStatus_preserved users_appended); auto.
  - apply (PaymentProof_preserved users_appended); auto.
  - apply (CreatePayment_preserved users_appended); auto.
  - apply (webhook_preserved users_appended); auto.
  - apply (PaymentStatus_preserved users_appended); auto.
  - apply (CreateSeller_preserved users_appended); auto.
  - apply (UpdateSeller_preserved_users users_appended); auto.
    apply users_appended_update_user.
  - apply (DeactivateSeller_preserved_users users_appended); auto.
    intros id0 x. apply users_appended_map. intros u. destruct (_ && _); reflexivity.
  - apply (UpdateEarnings_preserved users_appended); auto.
  - apply (AssignSale_preserved users_appended); auto.
Qed.

Lemma handle_accounts_kept (f : string -> option Z) (r : request) (d : db) :
  accounts_kept d (snd (handle f r d)).
Proof.
  assert (Rr : forall x, accounts_kept x x) by (intros x H; exact H).
  assert (Rt : forall x y z, accounts_kept x y -> accounts_kept y z -> accounts_kept x z)
    by (intros x y z A B H; auto).
  assert (Wseq : forall t n x, t <> T_orders -> accounts_kept x (set_sequence t n x))
    by (intros; now apply accounts_kept_same).
  assert (Wpm : forall g, (forall p, Product.id (g p) = Product.id p) ->
                          forall x, accounts_kept x (set_products (map g) x))
    by (intros; now apply accounts_kept_same).
  assert (Wip : forall now n descr p s c image,
             keeps accounts_kept (CreateProduct.insert_product now n descr p s c image))
    by (intros now n descr p s c image x; now apply accounts_kept_same).
  assert (Wuo : forall id g, (forall o, order_key (g o) = order_key o) ->
                             forall x, accounts_kept x (update_order id g x))
    by (intros; now apply accounts_kept_same).
  assert (Wtx : forall g x, accounts_kept x (set_transactions g x))
    by (intros; now apply accounts_kept_same).
  assert (Wse : forall g x, accounts_kept x (set_seller_earnings g x))
    by (intros; now apply accounts_kept_same).
  assert (Wiu := accounts_kept_insert_user).
  assert (Wue : forall now id q,
             keeps accounts_kept (write (UpdateEarnings.update_earnings now id q))).
  { intros now id q x. apply accounts_kept_map; intros u;
      destruct (User.id u =? id); reflexivity. }
  assert (Wae : forall now id q,
             keeps accounts_kept (write (AssignSale.add_earnings now id q))).
  { intros now id q x. apply accounts_kept_map; intros u;
      destruct (User.id u =? id); reflexivity. }
  assert (Wio : forall now buyer total n e p i,
             keeps accounts_kept (insert_order now buyer total n e p i))
    by (intros now buyer total n e p i x; now apply accounts_kept_same).
  assert (Wii : forall oid pid q price,
             keeps accounts_kept (insert_order_item oid pid q price))
    by (intros oid pid q price x; now apply accounts_kept_same).
  destruct r; cbn [handle].
  - apply (Register_preserved accounts_kept); auto.
  - apply (ListProducts_preserved accounts_kept); auto.
  - apply (GetProduct_preserved accounts_kept); auto.
  - apply (CreateProduct_preserved accounts_kept); auto.
  - apply (UpdateProduct_preserved accounts_kept); auto.
  - apply (DeleteProduct_preserved accounts_kept); auto.
  - apply (CreateOrder_preserved accounts_kept); auto.
  - apply (ListOrders_preserved accounts_kept); auto.
  - apply (GetOrder_preserved accounts_kept); auto.
  - apply (UpdateStatus_preserved accounts_kept); auto.
  - apply (PaymentProof_preserved accounts_kept); auto.
  - apply (CreatePayment_preserved accounts_kept); auto.
  - apply (webhook_preserved accounts_kept); auto.
  - apply (PaymentStatus_preserved accounts_kept); auto.
  - apply (CreateSeller_preserved accounts_kept); auto.
  - apply (UpdateSeller_preserved_users accounts_kept); auto.
    apply accounts_kept_update_user.
  - apply (DeactivateSeller_preserved_users accounts_kept); auto.
    intros id0 x. apply accounts_kept_map; intros u; destruct (_ && _); reflexivity.
  - apply (UpdateEarnings_preserved accounts_kept); auto.
  - apply (AssignSale_preserved accounts_kept); auto.
Qed.

(** X10.  No sequence of requests removes a user or changes a user's id,
    username, role or creation time: the users of the store are still there,
    in the same order, followed by the accounts created since.
    (Deactivating a seller keeps the row.) *)
Theorem users_never_removed :
  forall (rowid_of_text : string -> option Z) (rs : list request) (d : db),
    exists new,
      map user_identity (users (serve rowid_of_text rs d))
      = map user_identity (users d) ++ new.
Proof.
  intros f rs. induction rs as [|r rs IH]; intros d.
  - apply users_appended_refl.
  - cbn [serve fold_left].
    exact (users_appended_trans _ _ _ (handle_users_appended f r d) (IH (snd (handle f r d)))).
Qed.

(** X11.  If user ids and e-mail addresses are unique, they are unique after
    every sequence of requests: registration and seller creation refuse an
    address in use, and the UPDATE of a seller to an address in use fails. *)
Theorem accounts_stay_unique :
  forall (rowid_of_text : string -> option Z) (rs : list request) (d : db),
    accounts_unique d -> accounts_unique (serve rowid_of_text rs d).
Proof.
  intros f rs. induction rs as [|r rs IH]; intros d H; [exact H|].
  cbn [serve fold_left]. apply IH. now apply handle_accounts_kept.
Qed.

Lemma shop_accounts_unique : accounts_unique shop.
Proof.
  split; cbn; repeat constructor; cbn; intuition (try discriminate).
Qed.

Lemma accounts_stay_unique_witness :
  accounts_unique
    (serve decimal_rowid
       [ POST_auth_register 100 "$2a$10$new"
           (Credentials.mkBody (Some "new@example.com") (Some "secret") None);
         PUT_admin_sellers_id 200 (Bearer 1) 3 ""
           (UpdateSeller.mkBody (Some "b@example.com") None None None) ]
       shop).
Proof.
  exact (accounts_stay_unique decimal_rowid _ shop shop_accounts_unique).
Defined.

(** ** Accounts: registration, deactivation, reactivation *)

Lemma truthy_text_some (s : string) : s <> "" -> truthy_text (Some s) = true.
Proof.
  intros H. cbn. apply negb_true_iff. now apply String.eqb_neq.
Qed.

Lemma find_none_existsb {A : Type} (p : A -> bool) (l : list A) :
  find p l = None -> existsb p l = false.
Proof.
  induction l as [|x l IH]; simpl; [reflexivity|].
  destruct (p x); [discriminate|exact IH].
Qed.

Lemma select_active_user_new (d : db) (u : User.t) :
  User.id u = next_rowid T_users (map User.id (users d)) d ->
  User.is_active u = true ->
  find (fun x => (User.id x =? User.id u) && User.is_active x) (users d ++ [u]) = Some u.
Proof.
  intros Hid Hact. rewrite find_app_none.
  - cbn. now rewrite Z.eqb_refl, Hact.
  - apply find_all_false. intros x Hx. apply andb_false_iff. left. apply Z.eqb_neq.
    intros E. apply (next_rowid_fresh T_users (map User.id (users d)) d).
    rewrite <- Hid, <- E. now apply in_map.
Qed.

(** X12.  POST /auth/register with an e-mail address and a password: if the
    address is not in use, the answer is 201 with a new user id, the store
    gains exactly one user -- an active buyer with that address, the hash of
    the password and earnings 0 -- and a token carrying the new id
    authenticates as that buyer; if the address is in use, the answer is 400
    and the store is left as it is. *)
Theorem register_creates_buyer_or_refuses_duplicate :
  forall (now : Z) (hashedPassword : string) (b : Credentials.body) (d : db)
         (e pw : string),
    Credentials.email b = Some e -> e <> "" ->
    Credentials.password b = Some pw -> pw <> "" ->
    let r := Register.handler now hashedPassword b d in
    (select_user_by_email e d = None ->
       exists uid,
         fst r = mkResponse 201 (JsonUser "Usuario registrado exitosamente." uid e Buyer)
         /\ users (snd r)
            = users d ++ [User.mk uid e None hashedPassword Buyer
                            (or_else truthy_text (Credentials.binance_wallet b) None)
                            0%Q now now true]
         /\ authenticateToken (Bearer uid) (snd r) = inr (ReqUser.mk uid e Buyer 0%Q))
    /\ (select_user_by_email e d <> None ->
          r = (res_error 400 "Este email ya está registrado.", d)).
Proof.
  intros now h b d e pw He Hne Hp Hnp r.
  unfold r, Register.handler, try_catch, Credentials.create_account, bind, select, ret.
  rewrite He, Hp, (truthy_text_some e Hne), (truthy_text_some pw Hnp). cbn [andb].
  split.
  - intros Hnone. rewrite Hnone. unfold insert_user.
    unfold select_user_by_email in Hnone. rewrite (find_none_existsb _ _ Hnone).
    eexists. cbn [fst snd]. split; [reflexivity|]. split; [reflexivity|].
    unfold authenticateToken, select_active_user. cbn [users set_users set_sequence].
    match goal with
    | |- context [users d ++ [?u]] =>
        pose proof (select_active_user_new d u eq_refl eq_refl) as Hfind
    end.
    cbn [User.id] in Hfind. rewrite Hfind. reflexivity.
  - intros Hsome. destruct (select_user_by_email e d); [reflexivity|contradiction].
Qed.

Lemma register_creates_buyer_or_refuses_duplicate_witness :
  let b := Credentials.mkBody (Some "new@example.com") (Some "secret") None in
  exists uid,
    fst (Register.handler 100 "$2a$10$new" b shop)
    = mkResponse 201 (JsonUser "Usuario registrado exitosamente." uid "new@example.com" Buyer)
    /\ authenticateToken (Bearer uid) (snd (Register.handler 100 "$2a$10$new" b shop))
       = inr (ReqUser.mk uid "new@example.com" Buyer 0%Q).
Proof.
  intros b.
  destruct (register_creates_buyer_or_refuses_duplicate 100 "$2a$10$new" b shop
              "new@example.com" "secret" eq_refl ltac:(discriminate)
              eq_refl ltac:(discriminate)) as [H _].
  destruct (H eq_refl) as (uid & Hr & _ & Ha). exists uid. split; assumption.
Defined.

Lemma find_map_stable {A : Type} (p : A -> bool) (g : A -> A) (l : list A) (x : A) :
  find p l = Some x -> g x = x -> (forall y, p (g y) = true -> p y = true) ->
  find p (map g l) = Some x.
Proof.
  intros H Hx Hg. induction l as [|y l IH]; simpl in *; [discriminate|].
  destruct (p y) eqn:Ey.
  - injection H as ->. now rewrite Hx, Ey.
  - destruct (p (g y)) eqn:Egy; [apply Hg in Egy; congruence|auto].
Qed.

Lemma NoDup_key_eq_string {A : Type} (key : A -> string) (l : list A) (x y : A) :
  NoDup (map key l) -> In x l -> In y l -> key x = key y -> x = y.
Proof.
  induction l as [|z l IH]; simpl; [tauto|].
  intros Hnd Hx Hy Hk. inversion Hnd as [|? ? Hnotin Hnd']; subst.
  destruct Hx as [->|Hx], Hy as [->|Hy]; auto.
  - exfalso. apply Hnotin. rewrite Hk. now apply in_map.
  - exfalso. apply Hnotin. rewrite <- Hk. now apply in_map.
Qed.

(** X13.  DELETE /admin/sellers/:id by the superuser, on a store with unique
    user ids and e-mail addresses, keeps the seller's row and only clears
    is_active; from then on the seller's token is refused with 401.  PUT
    /admin/sellers/:id with is_active true brings the account back: the
    seller's token authenticates again, with the same e-mail address, role
    and earnings. *)
Theorem deactivated_seller_locked_out_until_reactivated :
  forall (now : Z) (a : authorization) (id : Z) (hashedPassword : string) (d : db)
         (admin : ReqUser.t) (seller : User.t),
    accounts_unique d ->
    authenticateToken a d = inr admin ->
    ReqUser.role admin = Superuser ->
    select_seller id d = Some seller ->
    let d1 := snd (DeactivateSeller.handler a id d) in
    let d2 := snd (UpdateSeller.handler now a id hashedPassword
                     (UpdateSeller.mkBody None None None (Some true)) d1) in
    select_seller id d1 = Some (User_with_is_active false seller)
    /\ authenticateToken (Bearer id) d1 = inl (res_error 401 "Usuario no encontrado o inactivo.")
    /\ authenticateToken (Bearer id) d2
       = inr (ReqUser.mk id (User.email seller) Seller (User.earnings seller)).
Proof.
  intros now a id h d admin seller [Hnd Hne] Ha Hrole Hs d1 d2.
  pose proof (select_seller_id _ _ _ Hs) as Hid.
  pose proof (select_seller_in _ _ _ Hs) as Hin.
  assert (Hsr : User.role seller = Seller).
  { unfold select_seller in Hs. apply find_some in Hs. destruct Hs as [_ Hs].
    apply andb_true_iff in Hs. destruct Hs as [_ Hs].
    destruct (User.role seller); cbn in Hs; congruence. }
  assert (Hreq : requireRole [Superuser] admin = None)
    by (unfold requireRole; rewrite Hrole; reflexivity).
  set (g := fun u => if (User.id u =? id) && role_eqb (User.role u) Seller
                     then User_with_is_active false u else u).
  assert (E1 : d1 = set_users (map g) d).
  { unfold d1, DeactivateSeller.handler, with_role. rewrite Ha, Hreq. reflexivity. }
  assert (Hg_id : forall u, User.id (g u) = User.id u)
    by (intros u; unfold g; destruct (_ && _); reflexivity).
  assert (Hg_email : forall u, User.email (g u) = User.email u)
    by (intros u; unfold g; destruct (_ && _); reflexivity).
  assert (Hg_seller : g seller = User_with_is_active false seller)
    by (unfold g; rewrite Hid, Z.eqb_refl, Hsr; reflexivity).
  assert (Honly : forall u, In u (users d) -> User.id u = id -> u = seller)
    by (intros u Hu Hu_id; apply (NoDup_key_eq User.id (users d)); auto; congruence).
  assert (Hsel1 : select_seller id d1 = Some (User_with_is_active false seller)).
  { rewrite E1. unfold select_seller. cbn [users set_users]. rewrite find_map_same.
    - unfold select_seller in Hs. rewrite Hs. cbn [option_map]. now rewrite Hg_seller.
    - intros x. cbv beta. unfold g.
      destruct ((User.id x =? id) && role_eqb (User.role x) Seller) eqn:E;
        cbn; rewrite ?E; reflexivity. }
  assert (Ha1 : authenticateToken a d1 = inr admin).
  { rewrite E1. destruct a as [| |uid]; cbn in Ha; try discriminate.
    unfold authenticateToken, select_active_user in *. cbn [users set_users].
    destruct (find (fun u => (User.id u =? uid) && User.is_active u) (users d)) as [u0|] eqn:Ef;
      [|discriminate].
    injection Ha as Ha.
    rewrite (find_map_stable _ g _ u0 Ef); [now rewrite Ha| |].
    - unfold g. destruct ((User.id u0 =? id) && role_eqb (User.role u0) Seller) eqn:E;
        [|reflexivity].
      apply andb_true_iff in E. destruct E as [_ E]. rewrite <- Ha in Hrole. cbn in Hrole.
      rewrite Hrole in E. discriminate.
    - intros y. unfold g. destruct ((User.id y =? id) && role_eqb (User.role y) Seller);
        [cbn; rewrite andb_false_r; discriminate|auto]. }
  split; [exact Hsel1|]. split.
  - rewrite E1. unfold authenticateToken, select_active_user. cbn [users set_users].
    rewrite find_all_false; [reflexivity|].
    intros y Hy. apply in_map_iff in Hy. destruct Hy as (u & <- & Hu).
    destruct (User.id (g u) =? id) eqn:E; [|reflexivity]. cbn [andb].
    apply Z.eqb_eq in E. rewrite Hg_id in E. rewrite (Honly u Hu E), Hg_seller. reflexivity.
  - set (g2 := fun u =>
                 if User.id u =? id then
                   User.mk (User.id u) (User.email seller) (User.username u)
                     (User.password u) (User.role u) (User.binance_wallet seller)
                     (User.earnings u) (User.created_at u) now true
                 else u).
    assert (Hother : existsb (fun u => negb (User.id u =? id)
                                       && (User.email u =? User.email seller)%string)
                       (users d1) = false).
    { destruct (existsb _ (users d1)) eqn:Ex; [|reflexivity]. exfalso.
      apply existsb_exists in Ex. destruct Ex as (y & Hy & Hc).
      apply andb_true_iff in Hc. destruct Hc as [Hn He].
      rewrite E1 in Hy. cbn in Hy. apply in_map_iff in Hy. destruct Hy as (u & <- & Hu).
      rewrite Hg_id in Hn. apply negb_true_iff, Z.eqb_neq in Hn.
      apply String.eqb_eq in He. rewrite Hg_email in He.
      apply Hn. rewrite <- Hid. f_equal.
      apply (NoDup_key_eq_string User.email (users d)); auto. }
    assert (E2 : d2 = set_users (map g2) d1).
    { unfold d2, UpdateSeller.handler, with_role, try_catch, bind, select, ret.
      rewrite Ha1, Hreq, Hsel1. cbn [truthy_text UpdateSeller.password].
      unfold UpdateSeller.update_user, UpdateSeller.new_email, UpdateSeller.new_binance_wallet,
        UpdateSeller.new_is_active.
      cbn [or_else truthy_text UpdateSeller.email UpdateSeller.binance_wallet
           UpdateSeller.is_active User.email User.binance_wallet User_with_is_active].
      rewrite Hother, andb_false_r. reflexivity. }
    rewrite E2, E1. unfold authenticateToken, select_active_user. cbn [users set_users].
    rewrite map_map.
    assert (Hfind : find (fun u => (User.id u =? id) && User.is_active u)
                      (map (fun u => g2 (g u)) (users d))
                    = Some (g2 (g seller))).
    { destruct (find _ (map (fun u => g2 (g u)) (users d))) as [x|] eqn:Ef.
      - apply find_some in Ef. destruct Ef as [Hx Hc].
        apply in_map_iff in Hx. destruct Hx as (u & <- & Hu).
        apply andb_true_iff in Hc. destruct Hc as [Hc _]. apply Z.eqb_eq in Hc.
        assert (Hu_id : User.id u = id).
        { rewrite <- Hc. unfold g2. rewrite Hg_id.
          destruct (User.id u =? id); cbn; now rewrite ?Hg_id. }
        now rewrite (Honly u Hu Hu_id).
      - exfalso. eapply find_none in Ef; [|apply in_map_iff; exists seller; eauto].
        revert Ef. unfold g2. rewrite Hg_id, Hid, Z.eqb_refl. cbn.
        rewrite Z.eqb_refl. discriminate. }
    rewrite Hfind. unfold g2. rewrite Hg_id, Hid, Z.eqb_refl, Hg_seller. cbn.
    now rewrite Hsr.
Qed.

Lemma deactivated_seller_locked_out_until_reactivated_witness :
  let d1 := snd (DeactivateSeller.handler (Bearer 1) 3 shop) in
  let d2 := snd (UpdateSeller.handler 900 (Bearer 1) 3 ""
                   (UpdateSeller.mkBody None None None (Some true)) d1) in
  authenticateToken (Bearer 3) d1 = inl (res_error 401 "Usuario no encontrado o inactivo.")
  /\ authenticateToken (Bearer 3) d2 = inr (ReqUser.mk 3 "a@example.com" Seller 0%Q).
Proof.
  destruct (deactivated_seller_locked_out_until_reactivated 900 (Bearer 1) 3 "" shop
              (ReqUser.mk 1 "admin@cashout.com" Superuser 0%Q)
              (User.mk 3 "a@example.com" None "$2a$10$a" Seller (Some "wallet-a") 0%Q 20 20 true)
              shop_accounts_unique eq_refl eq_refl eq_refl) as (_ & H1 & H2).
  split; assumption.
Defined.

(** ** The earnings ledger *)

Lemma reconciled_kept_same (d d' : db) :
  users d' = users d -> seller_earnings d' = seller_earnings d -> reconciled_kept d d'.
Proof.
  intros Hu Hs [H1 H2]. unfold reconciled, ledger_total. rewrite Hu, Hs. split; assumption.
Qed.

Lemma reconciled_kept_map (g : User.t -> User.t) (d : db) :
  (forall u, User.id (g u) = User.id u) ->
  (forall u, User.earnings (g u) = User.earnings u) ->
  reconciled_kept d (set_users (map g) d).
Proof.
  intros Hi He [H1 H2]. split.
  - intros u Hu. cbn [users set_users] in Hu. apply in_map_iff in Hu.
    destruct Hu as (v & <- & Hv). rewrite Hi, He. exact (H1 v Hv).
  - intros e Hin. cbn [users set_users]. rewrite map_map, (map_ext _ User.id Hi).
    apply H2. exact Hin.
Qed.

Lemma reconciled_kept_insert_user now e h r w : keeps reconciled_kept (insert_user now e h r w).
Proof.
  intros d. unfold insert_user. destruct (existsb _ _); cbn [snd]; [intros H; exact H|].
  intros [H1 H2]. split.
  - intros u Hu. cbn [users set_users set_sequence] in Hu. apply in_app_iff in Hu.
    destruct Hu as [Hu|[<-|[]]]; [exact (H1 u Hu)|].
    unfold ledger_total. cbn [User.earnings User.id seller_earnings set_users set_sequence].
    rewrite filter_none; [reflexivity|].
    intros x Hx. apply Z.eqb_neq. intros E.
    apply (next_rowid_fresh T_users (map User.id (users d)) d). rewrite <- E. now apply H2.
  - intros x Hx. cbn [users set_users set_sequence]. rewrite map_app. apply in_app_iff.
    left. now apply H2.
Qed.

Lemma reconciled_kept_update_user now id e w act pw :
  keeps reconciled_kept (UpdateSeller.update_user now id e w act pw).
Proof.
  intros d. unfold UpdateSeller.update_user. destruct (_ && _); cbn [snd];
    [intros H; exact H|].
  apply reconciled_kept_map; intros u; destruct (User.id u =? id); reflexivity.
Qed.

(** POST /admin/sellers/:id/sales writes the ledger entry and adds the same
    amount to the seller's earnings. *)
Lemma assign_sale_reconciled (now : Z) (a : authorization) (id : Z)
    (b : AssignSale.body) (d : db) :
  reconciled_kept d (snd (AssignSale.handler now a id b d)).
Proof.
  intros H. unfold AssignSale.handler, with_role.
  destruct (authenticateToken a d) as [r0|user]; [exact H|].
  destruct (requireRole [Superuser] user) as [r0|]; [exact H|].
  unfold try_catch, bind, select, write, ret.
  destruct (AssignSale.order_id b) as [oid|]; [|exact H].
  destruct (AssignSale.amount b) as [amt|]; [|exact H].
  destruct (truthy_int (Some oid) && truthy_real (Some amt)); [|exact H].
  destruct (select_seller id d) as [seller|] eqn:Es; [|exact H].
  cbn [AssignSale.insert_seller_earning fst snd].
  destruct H as [H1 H2]. split.
  - intros u Hu. cbn in Hu. apply in_map_iff in Hu. destruct Hu as (v & <- & Hv).
    unfold ledger_total.
    cbn [seller_earnings AssignSale.add_earnings set_users set_sequence set_seller_earnings].
    rewrite filter_app. cbn [filter SellerEarning.seller_id].
    specialize (H1 v Hv). unfold ledger_total in H1.
    destruct (User.id v =? id) eqn:E.
    + cbn [User.id User.earnings User_with_earnings]. rewrite Z.eqb_sym, E, fold_left_app.
      cbn [fold_left SellerEarning.amount]. now rewrite H1.
    + rewrite Z.eqb_sym, E, app_nil_r. exact H1.
  - intros e He. cbn in He. apply in_app_iff in He.
    cbn [users AssignSale.add_earnings set_users set_sequence set_seller_earnings].
    rewrite map_map.
    rewrite (map_ext _ User.id); [|intros u; destruct (User.id u =? id); reflexivity].
    destruct He as [He|[<-|[]]]; [now apply H2|].
    cbn [SellerEarning.seller_id]. rewrite <- (select_seller_id _ _ _ Es).
    apply in_map. exact (select_seller_in _ _ _ Es).
Qed.

Lemma handle_reconciled (f : string -> option Z) (r : request) (d : db) :
  ledgered r -> reconciled_kept d (snd (handle f r d)).
Proof.
  intros Hr.
  assert (Rr : forall x, reconciled_kept x x) by (intros x H; exact H).
  assert (Rt : forall x y z, reconciled_kept x y -> reconciled_kept y z -> reconciled_kept x z)
    by (intros x y z A B H; auto).
  assert (Wseq : forall t n x, t <> T_orders -> reconciled_kept x (set_sequence t n x))
    by (intros; now apply reconciled_kept_same).
  assert (Wpm : forall g, (forall p, Product.id (g p) = Product.id p) ->
                          forall x, reconciled_kept x (set_products (map g) x))
    by (intros; now apply reconciled_kept_same).
  assert (Wip : forall now n descr p s c image,
             keeps reconciled_kept (CreateProduct.insert_product now n descr p s c image))
    by (intros now n descr p s c image x; now apply reconciled_kept_same).
  assert (Wuo : forall id g, (forall o, order_key (g o) = order_key o) ->
                             forall x, reconciled_kept x (update_order id g x))
    by (intros; now apply reconciled_kept_same).
  assert (Wtx : forall g x, reconciled_kept x (set_transactions g x))
    by (intros; now apply reconciled_kept_same).
  assert (Wiu := reconciled_kept_insert_user).
  assert (Wio : forall now buyer total n e p i,
             keeps reconciled_kept (insert_order now buyer total n e p i))
    by (intros now buyer total n e p i x; now apply reconciled_kept_same).
  assert (Wii : forall oid pid q price,
             keeps reconciled_kept (insert_order_item oid pid q price))
    by (intros oid pid q price x; now apply reconciled_kept_same).
  destruct r; cbn [handle]; cbn in Hr.
  - apply (Register_preserved reconciled_kept); auto.
  - apply (ListProducts_preserved reconciled_kept); auto.
  - apply (GetProduct_preserved reconciled_kept); auto.
  - apply (CreateProduct_preserved reconciled_kept); auto.
  - apply (UpdateProduct_preserved reconciled_kept); auto.
  - apply (DeleteProduct_preserved reconciled_kept); auto.
  - apply (CreateOrder_preserved reconciled_kept); auto.
  - apply (ListOrders_preserved reconciled_kept); auto.
  - apply (GetOrder_preserved reconciled_kept); auto.
  - apply (UpdateStatus_preserved reconciled_kept); auto.
  - apply (PaymentProof_preserved reconciled_kept); auto.
  - apply (CreatePayment_preserved reconciled_kept); auto.
  - apply (webhook_preserved reconciled_kept); auto.
  - apply (PaymentStatus_preserved reconciled_kept); auto.
  - apply (CreateSeller_preserved reconciled_kept); auto.
  - apply (UpdateSeller_preserved_users reconciled_kept); auto.
    apply reconciled_kept_update_user.
  - apply (DeactivateSeller_preserved_users reconciled_kept); auto.
    intros id0 x. apply reconciled_kept_map; intros u; destruct (_ && _); reflexivity.
  - contradiction.
  - apply assign_sale_reconciled.
Qed.

(** X14.  As long as no request is PUT /admin/sellers/:id/earnings, the
    earnings column and the seller_earnings ledger agree: if every user's
    earnings are the sum of the amounts of their ledger entries and every
    entry belongs to a user, the same holds after any sequence of requests.
    POST /admin/sellers/:id/sales writes the entry and adds its amount to
    the seller in one step, and a new account starts with earnings 0 under
    an id no entry mentions. *)
Theorem earnings_match_ledger :
  forall (rowid_of_text : string -> option Z) (rs : list request) (d : db),
    reconciled d -> Forall ledgered rs -> reconciled (serve rowid_of_text rs d).
Proof.
  intros f rs. induction rs as [|r rs IH]; intros d H Hrs; [exact H|].
  inversion Hrs as [|? ? Hr Hrest]; subst.
  cbn [serve fold_left]. apply IH; [|exact Hrest]. now apply handle_reconciled.
Qed.

Lemma shop_reconciled : reconciled shop.
Proof.
  split.
  - intros u Hu. cbn in Hu. intuition (subst; reflexivity).
  - intros e He. cbn in He. contradiction.
Qed.

Lemma earnings_match_ledger_witness :
  reconciled
    (serve decimal_rowid
       [ POST_admin_sellers_id_sales 300 (Bearer 1) 3 (AssignSale.mkBody (Some 1) (Some (5 # 1)));
         POST_admin_sellers_id_sales 310 (Bearer 1) 3 (AssignSale.mkBody (Some 2) (Some (7 # 2)));
         DELETE_admin_sellers_id (Bearer 1) 3 ]
       shop).
Proof.
  apply (earnings_match_ledger decimal_rowid _ shop shop_reconciled).
  repeat constructor.
Defined.

(** ** Stock after an order of distinct products *)

Lemma shop_stocks_nonneg : stocks_nonneg shop.
Proof.
  intros p Hp. cbn in Hp. destruct Hp as [<-|[]]. cbn. lia.
Qed.

Lemma create_order_distinct_products_stock_nonneg_witness :
  stocks_nonneg
    (snd (CreateOrder.handler 100 (Bearer 2) (contact [CreateOrder.mkLine 1 2]) shop)).
Proof.
  apply create_order_distinct_products_stock_nonneg.
  - exact (proj1 shop_well_formed).
  - exact shop_stocks_nonneg.
  - cbn. repeat constructor. intros [].
Defined.

(** ** Login *)

Lemma find_unique_key {A : Type} (key : A -> Z) (p : A -> bool) (l : list A) (x : A) :
  NoDup (map key l) -> In x l -> p x = true ->
  (forall y, p y = true -> key y = key x) ->
  find p l = Some x.
Proof.
  intros Hnd Hin Hp Hkey. destruct (find p l) as [y|] eqn:E.
  - apply find_some in E. destruct E as [Hy Hpy].
    f_equal. apply (NoDup_key_eq key l); auto.
  - exfalso. pose proof (find_none _ _ E x Hin) as H. congruence.
Qed.

(** X16.  POST /auth/login answers with a token only for the password of an
    active account with that e-mail address, and, user ids being unique,
    the token then authenticates as exactly the user the answer shows. *)
Theorem login_token_authenticates :
  forall (compare : string -> string -> bool) (b : Login.body) (d : db)
         (message : string) (token : authorization) (user : ReqUser.t),
    NoDup (map User.id (users d)) ->
    Login.handler compare b d = Login.LoggedIn message token user ->
    authenticateToken token d = inr user
    /\ exists row pw,
         In row (users d)
         /\ User.is_active row = true
         /\ Login.email b = Some (User.email row)
         /\ Login.password b = Some pw
         /\ compare pw (User.password row) = true
         /\ user = ReqUser.mk (User.id row) (User.email row) (User.role row)
                     (User.earnings row).
Proof.
  intros compare b d msg tok u Hnd H. unfold Login.handler in H.
  destruct (Login.email b) as [e|] eqn:Ee; [|discriminate].
  destruct (Login.password b) as [pw|] eqn:Ep; [|discriminate].
  destruct (truthy_text (Some e) && truthy_text (Some pw)); [|discriminate].
  destruct (Login.select_active_user_by_email e d) as [row|] eqn:Es; [|discriminate].
  destruct (compare pw (User.password row)) eqn:Ec; [|discriminate].
  injection H as _ <- <-.
  unfold Login.select_active_user_by_email in Es. apply find_some in Es.
  destruct Es as [Hin Hrow]. apply andb_true_iff in Hrow. destruct Hrow as [He Hact].
  apply String.eqb_eq in He. split.
  - unfold authenticateToken, select_active_user.
    rewrite (find_unique_key User.id _ (users d) row Hnd Hin).
    + reflexivity.
    + now rewrite Z.eqb_refl, Hact.
    + intros y Hy. apply andb_true_iff in Hy. destruct Hy as [Hy _]. now apply Z.eqb_eq.
  - exists row, pw. rewrite He. repeat split; auto.
Qed.

Lemma login_token_authenticates_witness :
  let compare := fun pw hash => (String.append "$2a$10$" pw =? hash)%string in
  let b := Login.mkBody (Some "a@example.com") (Some "a") in
  Login.handler compare b shop
  = Login.LoggedIn "Login exitoso." (Bearer 3) (ReqUser.mk 3 "a@example.com" Seller 0%Q)
  /\ authenticateToken (Bearer 3) shop = inr (ReqUser.mk 3 "a@example.com" Seller 0%Q).
Proof.
  intros compare b. split; [reflexivity|].
  apply (login_token_authenticates compare b shop "Login exitoso." (Bearer 3)
           (ReqUser.mk 3 "a@example.com" Seller 0%Q)).
  - exact (proj1 shop_accounts_unique).
  - reflexivity.
Defined.

(** X17.  After DELETE /admin/sellers/:id the seller cannot log in: with the
    seller's e-mail address POST /auth/login is refused with 400 or 401,
    whatever the password and whatever bcrypt says about it. *)
Theorem deactivated_seller_cannot_log_in :
  forall (compare : string -> string -> bool) (a : authorization) (id : Z) (d : db)
         (admin : ReqUser.t) (seller : User.t) (b : Login.body),
    accounts_unique d ->
    authenticateToken a d = inr admin ->
    ReqUser.role admin = Superuser ->
    select_seller id d = Some seller ->
    Login.email b = Some (User.email seller) ->
    exists r,
      Login.handler compare b (snd (DeactivateSeller.handler a id d)) = Login.Refused r
      /\ (status r = 400 \/ status r = 401).
Proof.
  intros compare a id d admin seller b [Hnd Hne] Ha Hrole Hs Hb.
  pose proof (select_seller_id _ _ _ Hs) as Hid.
  pose proof (select_seller_in _ _ _ Hs) as Hin.
  assert (Hsr : role_eqb (User.role seller) Seller = true).
  { unfold select_seller in Hs. apply find_some in Hs. destruct Hs as [_ Hs].
    apply andb_true_iff in Hs. now destruct Hs. }
  assert (Hreq : requireRole [Superuser] admin = None)
    by (unfold requireRole; rewrite Hrole; reflexivity).
  unfold DeactivateSeller.handler, with_role. rewrite Ha, Hreq.
  unfold try_catch, bind, write, ret. cbn [fst snd].
  unfold Login.handler. rewrite Hb.
  destruct (Login.password b) as [pw|]; [|eexists; split; [reflexivity|now left]].
  destruct (truthy_text (Some (User.email seller)) && truthy_text (Some pw));
    [|eexists; split; [reflexivity|now left]].
  unfold Login.select_active_user_by_email. cbn [users set_users].
  rewrite find_all_false; [eexists; split; [reflexivity|now right]|].
  intros y Hy. apply in_map_iff in Hy. destruct Hy as (v & <- & Hv).
  destruct ((User.id v =? id) && role_eqb (User.role v) Seller) eqn:E.
  - cbn. apply andb_false_r.
  - destruct (User.email v =? User.email seller)%string eqn:Ev; [|reflexivity].
    exfalso. apply String.eqb_eq in Ev.
    assert (v = seller) by (apply (NoDup_key_eq_string User.email (users d)); auto).
    subst v. rewrite Hid, Z.eqb_refl, Hsr in E. discriminate.
Qed.

Lemma deactivated_seller_cannot_log_in_witness :
  exists r,
    Login.handler (fun _ _ => true) (Login.mkBody (Some "a@example.com") (Some "a"))
      (snd (DeactivateSeller.handler (Bearer 1) 3 shop)) = Login.Refused r
    /\ (status r = 400 \/ status r = 401).
Proof.
  exact (deactivated_seller_cannot_log_in (fun _ _ => true) (Bearer 1) 3 shop
           (ReqUser.mk 1 "admin@cashout.com" Superuser 0%Q)
           (User.mk 3 "a@example.com" None "$2a$10$a" Seller (Some "wallet-a") 0%Q 20 20 true)
           (Login.mkBody (Some "a@example.com") (Some "a"))
           shop_accounts_unique eq_refl eq_refl eq_refl eq_refl).
Defined.

(** ** The trade number of a payment *)

Lemma split_no_sep (sep : ascii) (s rest : string) :
  occurs sep s = false ->
  split sep (String.append s (String sep rest)) = s :: split sep rest.
Proof.
  induction s as [|c s IH]; intros H.
  - cbn. now rewrite Ascii.eqb_refl.
  - cbn in H. apply orb_false_iff in H. destruct H as [Hc Hs].
    cbn [String.append split]. rewrite Hc, (IH Hs). reflexivity.
Qed.

Lemma digit_of_not_underscore (k : Z) :
  0 <= k < 10 -> Ascii.eqb (digit_of k) "_"%char = false.
Proof.
  intros H.
  assert (E : k = 0 \/ k = 1 \/ k = 2 \/ k = 3 \/ k = 4 \/ k = 5 \/ k = 6 \/ k = 7
              \/ k = 8 \/ k = 9) by lia.
  repeat (destruct E as [->|E]; [reflexivity|]). subst k. reflexivity.
Qed.

Lemma decimal_digits_no_underscore (fuel : nat) :
  forall n acc, occurs "_"%char acc = false ->
                occurs "_"%char (decimal_digits fuel n acc) = false.
Proof.
  induction fuel as [|fuel IH]; intros n acc H; [exact H|].
  cbn [decimal_digits].
  assert (H' : occurs "_"%char (String (digit_of (n mod 10)) acc) = false).
  { cbn [occurs]. rewrite digit_of_not_underscore, H; [reflexivity|].
    apply Z.mod_pos_bound. lia. }
  destruct (n / 10 =? 0); [exact H'|]. now apply IH.
Qed.

Lemma string_of_Z_no_underscore (n : Z) : occurs "_"%char (string_of_Z n) = false.
Proof.
  unfold string_of_Z. destruct (n <? 0).
  - cbn [occurs]. rewrite decimal_digits_no_underscore; reflexivity.
  - apply decimal_digits_no_underscore. reflexivity.
Qed.

Lemma trade_number_order_id (order_id timestamp : Z) :
  nth_error (split "_"%char (requestBody_merchantTradeNo order_id timestamp)) 1
  = Some (string_of_Z order_id).
Proof.
  unfold requestBody_merchantTradeNo.
  change (String.append "ORDER_" ?x) with (String.append "ORDER" (String "_"%char x)).
  rewrite split_no_sep by reflexivity.
  change (String.append "_" ?x) with (String "_"%char x).
  rewrite split_no_sep by apply string_of_Z_no_underscore.
  reflexivity.
Qed.

(** X18.  The webhook finds the order a payment was created for: when a
    PAY_SUCCESS notification carries the trade number that POST
    /payments/create builds for order [order_id] (ORDER_, the id, _, the
    time), split('_')[1] is the id as it was printed, and, where the
    database reads that text back as the id, it is this order that becomes
    processing. *)
Theorem webhook_finds_order_of_created_payment :
  forall (rowid_of_text : string -> option Z) (now : Z) (req : webhook_request)
         (p : payload) (dt : payload_data) (order_id timestamp : Z) (d : db) (o : Order.t),
    parsed_body req = Some p ->
    bizStatus p = Some "PAY_SUCCESS" ->
    data p = Some dt ->
    merchantTradeNo dt = Some (requestBody_merchantTradeNo order_id timestamp) ->
    rowid_of_text (string_of_Z order_id) = Some order_id ->
    select_order order_id d = Some o ->
    let d' := snd (webhook rowid_of_text now req d) in
    select_order order_id d' = Some (Order_with_status Processing now o)
    /\ (forall id', id' <> order_id -> select_order id' d' = select_order id' d).
Proof.
  intros f now req p dt oid ts d o Hp Hb Hd Ht Hf Hs d'.
  unfold d'.
  rewrite (webhook_pay_success f now req p dt _ _ d Hp Hb Hd Ht (trade_number_order_id oid ts)).
  cbn [snd]. unfold process_order. rewrite Hf. split.
  - rewrite select_order_update by reflexivity. rewrite Hs. cbn [option_map].
    now rewrite (select_order_id _ _ _ Hs), Z.eqb_refl.
  - intros id' Hne. rewrite select_order_update by reflexivity.
    destruct (select_order id' d) as [o'|] eqn:Eo; [|reflexivity]. cbn [option_map].
    rewrite (select_order_id _ _ _ Eo). apply Z.eqb_neq in Hne. now rewrite Hne.
Qed.

Lemma webhook_finds_order_of_created_payment_witness :
  option_map Order.status
    (select_order 1
       (snd (webhook decimal_rowid 400
               (pay_success (requestBody_merchantTradeNo 1 1700000000000)) shop_with_order)))
  = Some Processing.
Proof.
  destruct (webhook_finds_order_of_created_payment decimal_rowid 400
              (pay_success (requestBody_merchantTradeNo 1 1700000000000))
              (mkPayload (Some "PAY_SUCCESS")
                 (Some (mkData (Some (requestBody_merchantTradeNo 1 1700000000000)))))
              (mkData (Some (requestBody_merchantTradeNo 1 1700000000000)))
              1 1700000000000 shop_with_order
              (Order.mk 1 2 None Pending (0 + 10 * inject_Z 1)%Q (Some "Ana")
                 (Some "buyer@example.com") None None None None 100 100)
              eq_refl eq_refl eq_refl eq_refl eq_refl eq_refl) as [H _].
  rewrite H. reflexivity.
Defined.

(** ** The payment status route after a proof was sent *)

Lemma order_by_desc_latest {A : Type} (key : A -> Z) (l : list A) (x : A) :
  (forall y, In y l -> key y < key x) ->
  exists rest, order_by_desc key (l ++ [x]) = x :: rest.
Proof.
  unfold order_by_desc. rewrite fold_right_app. cbn [fold_right insert_desc].
  induction l as [|y l IH]; intros H; [now exists []|].
  destruct IH as [rest E]; [intros z Hz; apply H; now right|].
  cbn [fold_right]. rewrite E. cbn [insert_desc].
  assert (Hy : key y < key x) by (apply H; now left).
  apply Z.leb_gt in Hy. rewrite Hy. eexists. reflexivity.
Qed.

(** X19.  After POST /orders/:id/payment-proof answered 200 at a time later
    than every earlier transaction of the order, GET
    /payments/:id/status answers any authenticated user -- not only the
    buyer -- with the transaction just recorded: pending, for the order's
    total, with the proof and the transaction id that were sent. *)
Theorem payment_status_shows_latest_proof :
  forall (now : Z) (a : authorization) (id : Z) (b : PaymentProof.body) (d : db)
         (buyer : ReqUser.t) (proof txid : string) (a' : authorization) (reader : ReqUser.t),
    let r := PaymentProof.handler now a id b d in
    authenticateToken a d = inr buyer ->
    status (fst r) = 200 ->
    PaymentProof.payment_proof b = Value proof ->
    PaymentProof.binance_txid b = Value txid ->
    (forall t, In t (transactions d) -> Transaction.order_id t = id ->
               Transaction.created_at t < now) ->
    authenticateToken a' (snd r) = inr reader ->
    exists t,
      PaymentStatus.handler a' id (snd r) = (res_json (JsonTransaction t), snd r)
      /\ Transaction.order_id t = id
      /\ Transaction.user_id t = ReqUser.id buyer
      /\ Transaction.status t = TxPending
      /\ Some (Transaction.amount t)
         = option_map Order.total_amount (select_order_of_buyer id (ReqUser.id buyer) d)
      /\ Transaction.payment_proof_url t = Some proof
      /\ Transaction.binance_txid t = Some txid
      /\ Transaction.created_at t = now.
Proof.
  intros now a id b d buyer proof txid a' reader r Hb Hst Hp Ht Hold Ha'.
  destruct (payment_proof_effect now a id b d) as [[_ Hn]|H]; [contradiction|].
  destruct H as (user & o & proof' & txid' & Ha & Hrole & Ho & Hbp & Hbt & _ & E).
  assert (user = buyer) by congruence. subst user.
  fold r in E. rewrite Hp in Hbp. rewrite Ht in Hbt. cbn in Hbp, Hbt.
  injection Hbp as <-. injection Hbt as <-.
  unfold PaymentStatus.handler, with_user. rewrite Ha'. rewrite E.
  unfold insert_transaction. cbn [snd].
  unfold select_latest_transaction.
  cbn [transactions set_sequence set_transactions update_order set_orders].
  rewrite filter_app. cbn [filter Transaction.order_id]. rewrite Z.eqb_refl.
  match goal with
  | |- context [order_by_desc ?key (?l ++ [?x])] =>
      destruct (order_by_desc_latest key l x) as [rest Erest]
  end.
  { intros y Hy. apply filter_In in Hy. destruct Hy as [Hy Hid].
    apply Z.eqb_eq in Hid. cbn [Transaction.created_at]. now apply Hold. }
  rewrite Erest. cbn [hd_error]. eexists. split; [reflexivity|].
  cbn. rewrite Ho. repeat split; reflexivity.
Qed.

Lemma payment_status_shows_latest_proof_witness :
  exists t,
    PaymentStatus.handler (Bearer 3) 1 shop_with_proofs
    = (res_json (JsonTransaction t), shop_with_proofs)
    /\ Transaction.payment_proof_url t = Some "proof-2".
Proof.
  destruct (payment_status_shows_latest_proof 300 (Bearer 2) 1
              (PaymentProof.mkBody (Value "proof-2") (Value "tx-2"))
              (snd (PaymentProof.handler 200 (Bearer 2) 1
                      (PaymentProof.mkBody (Value "proof-1") (Value "tx-1"))
                      shop_with_order))
              (ReqUser.mk 2 "buyer@example.com" Buyer 0%Q) "proof-2" "tx-2" (Bearer 3)
              (ReqUser.mk 3 "a@example.com" Seller 0%Q)
              eq_refl eq_refl eq_refl eq_refl) as (t & H & _ & _ & _ & _ & Hproof & _).
  - intros t Ht Hid. cbn in Ht. destruct Ht as [<-|[]]. cbn. lia.
  - reflexivity.
  - exists t. split; [exact H|exact Hproof].
Defined.

(** ** Products: creation, update, removal *)

Lemma require_role_refusal_status (roles : list role) (user : ReqUser.t) (resp : response) :
  requireRole roles user = Some resp -> status resp = 403.
Proof.
  unfold requireRole. destruct (existsb _ _); [discriminate|]. now injection 1 as <-.
Qed.

Lemma create_product_effect (now : Z) (a : authorization) (b : CreateProduct.body) (d : db) :
  let r := CreateProduct.handler now a b d in
  (snd r = d /\ status (fst r) <> 201)
  \/ exists n p c descr image,
       CreateProduct.name b = Some n
       /\ CreateProduct.price b = Some p
       /\ CreateProduct.category_id b = Some c
       /\ bind_param (CreateProduct.description b) d = (Return descr, d)
       /\ bind_param (CreateProduct.image_url b) d = (Return image, d)
       /\ r = (mkResponse 201
                 (JsonProductCreated "Producto creado exitosamente."
                    (next_rowid T_products (map Product.id (products d)) d)),
               snd (CreateProduct.insert_product now n descr p
                      match or_else truthy_int (CreateProduct.stock b) (Some 0) with
                      | Some s => s
                      | None => 0
                      end c image d)).
Proof.
  cbv zeta. unfold CreateProduct.handler, with_role.
  destruct (authenticateToken a d) as [r0|user] eqn:Ea.
  { left. split; [reflexivity|]. cbn [fst].
    destruct (authenticate_refusal_status _ _ _ Ea) as [E|E]; rewrite E; discriminate. }
  destruct (requireRole [Superuser] user) as [r0|] eqn:Er.
  { left. split; [reflexivity|]. cbn [fst].
    rewrite (require_role_refusal_status _ _ _ Er). discriminate. }
  unfold try_catch, bind, select, write, ret, throw.
  destruct (CreateProduct.name b) as [n|] eqn:En;
    [|left; cbn; split; [reflexivity|discriminate]].
  destruct (CreateProduct.price b) as [p|] eqn:Ep;
    [|left; cbn; split; [reflexivity|discriminate]].
  destruct (CreateProduct.category_id b) as [c|] eqn:Ec;
    [|left; cbn; split; [reflexivity|discriminate]].
  destruct (truthy_text (Some n) && truthy_real (Some p) && truthy_int (Some c));
    [|left; cbn; split; [reflexivity|discriminate]].
  destruct (CreateProduct.description b) as [| |descr];
    try (left; cbn; split; [reflexivity|discriminate]);
    (destruct (CreateProduct.image_url b) as [| |image];
     try (left; cbn; split; [reflexivity|discriminate]));
    right; do 5 eexists; cbn; repeat split; reflexivity.
Qed.

(** X20.  POST /products answered 201: the store gains exactly one product,
    active, under the id of the answer, with the name, price and category
    of the body and stock 0 when none was given.  The category is not
    looked up: GET /products/:id serves the new product with the name of a
    category that has its category id, and answers 404 for it when there is
    no such category. *)
Theorem created_product_served_only_with_a_category :
  forall (now : Z) (a : authorization) (b : CreateProduct.body) (d : db),
    let r := CreateProduct.handler now a b d in
    status (fst r) = 201 ->
    exists row,
      fst r = mkResponse 201 (JsonProductCreated "Producto creado exitosamente."
                                (Product.id row))
      /\ products (snd r) = products d ++ [row]
      /\ categories (snd r) = categories d
      /\ CreateProduct.name b = Some (Product.name row)
      /\ CreateProduct.price b = Some (Product.price row)
      /\ CreateProduct.category_id b = Some (Product.category_id row)
      /\ Product.stock row = match CreateProduct.stock b with Some s => s | None => 0 end
      /\ Product.is_active row = true
      /\ ((forall c, In c (categories d) -> Category.id c <> Product.category_id row) ->
          fst (GetProduct.handler (Product.id row) (snd r))
          = res_error 404 "Producto no encontrado.")
      /\ ((exists c, In c (categories d) /\ Category.id c = Product.category_id row) ->
          exists c, In c (categories d)
                    /\ Category.id c = Product.category_id row
                    /\ fst (GetProduct.handler (Product.id row) (snd r))
                       = res_json (JsonProduct (mkProductView row (Category.name c)))).
Proof.
  intros now a b d r Hst.
  destruct (create_product_effect now a b d) as [[_ Hn]|H]; [contradiction|].
  destruct H as (n & p & c & descr & image & En & Ep & Ec & _ & _ & E).
  fold r in E. rewrite E. unfold CreateProduct.insert_product. cbn [fst snd].
  exists (Product.mk (next_rowid T_products (map Product.id (products d)) d) n descr p
            match or_else truthy_int (CreateProduct.stock b) (Some 0) with
            | Some s => s
            | None => 0
            end c image true now now).
  split; [reflexivity|].
  cbn [products categories set_sequence set_products Product.id Product.name Product.price
       Product.category_id Product.stock Product.is_active].
  split; [reflexivity|]. split; [reflexivity|].
  split; [exact En|]. split; [exact Ep|]. split; [exact Ec|].
  split.
  { unfold or_else, truthy_int. destruct (CreateProduct.stock b) as [s|]; [|reflexivity].
    destruct (s =? 0) eqn:Es; [apply Z.eqb_eq in Es; now subst|reflexivity]. }
  split; [reflexivity|].
  assert (Hfilter :
    forall row, Product.id row = next_rowid T_products (map Product.id (products d)) d ->
                Product.is_active row = true ->
                filter (fun q => (Product.id q =? Product.id row) && Product.is_active q)
                  (products d ++ [row]) = [row]).
  { intros row Hid Hact. rewrite filter_app, filter_none.
    - cbn. now rewrite Z.eqb_refl, Hact.
    - intros x Hx. apply andb_false_iff. left. apply Z.eqb_neq. intros Eq.
      apply (next_rowid_fresh T_products (map Product.id (products d)) d).
      rewrite <- Hid, <- Eq. now apply in_map. }
  unfold GetProduct.handler.
  cbn [products categories set_sequence set_products].
  match goal with
  | |- context [products d ++ [?row]] =>
      pose proof (Hfilter row eq_refl eq_refl) as Hf; cbn [Product.id] in Hf
  end.
  rewrite Hf. cbn [flat_map Product.category_id]. rewrite app_nil_r. split.
  - intros Hnone. rewrite filter_none; [reflexivity|].
    intros x Hx. apply Z.eqb_neq. now apply Hnone.
  - intros (c0 & Hin & Hid).
    destruct (filter (fun c1 => Category.id c1 =? c) (categories d)) as [|c1 l] eqn:Ef.
    + exfalso. assert (Hc : In c0 (filter (fun c1 => Category.id c1 =? c) (categories d)))
        by (apply filter_In; split; [exact Hin|now apply Z.eqb_eq]).
      rewrite Ef in Hc. contradiction.
    + assert (Hc : In c1 (filter (fun c2 => Category.id c2 =? c) (categories d)))
        by (rewrite Ef; now left).
      apply filter_In in Hc. destruct Hc as [Hc1 Hc2]. apply Z.eqb_eq in Hc2.
      exists c1. split; [exact Hc1|]. split; [exact Hc2|reflexivity].
Qed.

Lemma created_product_served_only_with_a_category_witness :
  let b := CreateProduct.mkBody (Some "Card") Null (Some (5 # 1)) None (Some 9) Null in
  let r := CreateProduct.handler 500 (Bearer 1) b shop in
  exists row,
    fst r = mkResponse 201 (JsonProductCreated "Producto creado exitosamente."
                              (Product.id row))
    /\ fst (GetProduct.handler (Product.id row) (snd r))
       = res_error 404 "Producto no encontrado.".
Proof.
  intros b r.
  destruct (created_product_served_only_with_a_category 500 (Bearer 1) b shop eq_refl)
    as (row & Hr & _ & _ & _ & _ & Hc & _ & _ & H404 & _).
  exists row. split; [exact Hr|]. apply H404.
  intros c Hin. cbn in Hc. injection Hc as Hc. rewrite <- Hc.
  cbn in Hin. destruct Hin as [<-|[]]. cbn. discriminate.
Defined.

Lemma verify_stock_products_active (d : db) (lines : list CreateOrder.line) :
  forall acc total,
    CreateOrder.verify_stock d lines acc = inr total ->
    forall l, In l lines -> select_active_product (CreateOrder.product_id l) d <> None.
Proof.
  induction lines as [|l0 ls IH]; intros acc total H l Hin; [contradiction|].
  cbn [CreateOrder.verify_stock] in H.
  destruct (select_active_product (CreateOrder.product_id l0) d) as [p|] eqn:Ep;
    [|discriminate].
  destruct (Product.stock p <? CreateOrder.quantity l0); [discriminate|].
  destruct Hin as [<-|Hin]; [congruence|]. exact (IH _ _ H l Hin).
Qed.

Lemma soft_delete_not_active (pid : Z) (d : db) :
  select_active_product pid (DeleteProduct.soft_delete pid d) = None.
Proof.
  unfold select_active_product, DeleteProduct.soft_delete. cbn [products set_products].
  apply find_all_false. intros y Hy. apply in_map_iff in Hy. destruct Hy as (p & <- & _).
  destruct (Product.id p =? pid) eqn:E; [cbn; apply andb_false_r|].
  now rewrite E.
Qed.

(** X21.  After DELETE /products/:id answered 200 the product can no longer
    be bought or looked up: GET /products/:id answers 404, and every POST
    /orders with a line for it is refused (400, 401 or 403) and writes
    nothing, whatever else the order holds. *)
Theorem soft_deleted_product_cannot_be_ordered :
  forall (a : authorization) (pid : Z) (d : db) (now : Z) (a' : authorization)
         (b : CreateOrder.body),
    status (fst (DeleteProduct.handler a pid d)) = 200 ->
    In pid (map CreateOrder.product_id (CreateOrder.items b)) ->
    let d1 := snd (DeleteProduct.handler a pid d) in
    let r := CreateOrder.handler now a' b d1 in
    fst (GetProduct.handler pid d1) = res_error 404 "Producto no encontrado."
    /\ snd r = d1
    /\ (status (fst r) = 400 \/ status (fst r) = 401 \/ status (fst r) = 403).
Proof.
  intros a pid d now a' b Hst Hin d1 r.
  assert (E1 : d1 = DeleteProduct.soft_delete pid d).
  { unfold d1. revert Hst. unfold DeleteProduct.handler, with_role.
    destruct (authenticateToken a d) as [r0|user] eqn:Ea.
    - cbn [fst]. intros Hst.
      destruct (authenticate_refusal_status _ _ _ Ea) as [E|E]; rewrite E in Hst; discriminate.
    - destruct (requireRole [Superuser] user) as [r0|] eqn:Er; [|reflexivity].
      cbn [fst]. rewrite (require_role_refusal_status _ _ _ Er). discriminate. }
  clearbody d1. subst d1 r. split.
  - unfold GetProduct.handler, DeleteProduct.soft_delete.
    cbn [products set_products categories]. rewrite filter_none; [reflexivity|].
    intros y Hy. apply in_map_iff in Hy. destruct Hy as (p & <- & _).
    destruct (Product.id p =? pid) eqn:E; [cbn; apply andb_false_r|now rewrite E].
  - destruct (CreateOrder.handler now a' b (DeleteProduct.soft_delete pid d))
      as [resp d2] eqn:Er.
    destruct (create_order_outcome now a' b _ resp d2 Er) as [[-> Hs]|H].
    + split; [reflexivity|exact Hs].
    + exfalso. destruct H as (user & total & row & _ & _ & Hv & _).
      apply in_map_iff in Hin. destruct Hin as (l & Hl & Hin).
      apply (verify_stock_products_active _ _ _ _ Hv l Hin).
      rewrite Hl. apply soft_delete_not_active.
Qed.

Lemma soft_deleted_product_cannot_be_ordered_witness :
  let d1 := snd (DeleteProduct.handler (Bearer 1) 1 shop) in
  snd (CreateOrder.handler 100 (Bearer 2) (contact [CreateOrder.mkLine 1 1]) d1) = d1.
Proof.
  exact (proj1 (proj2 (soft_deleted_product_cannot_be_ordered (Bearer 1) 1 shop 100 (Bearer 2)
                         (contact [CreateOrder.mkLine 1 1]) eq_refl
                         (or_introl eq_refl)))).
Defined.

(** X22.  PUT /products/:id replaces the whole row and has no partial form:
    when the superuser's body leaves out any of name, description, price,
    stock, category_id or image_url the answer is 500 and nothing is
    written; and with all of them given but no product under that id the
    answer is still 200, again with nothing written. *)
Theorem update_product_needs_every_field :
  forall (now : Z) (a : authorization) (id : Z) (b : UpdateProduct.body) (d : db)
         (admin : ReqUser.t),
    authenticateToken a d = inr admin ->
    ReqUser.role admin = Superuser ->
    let r := UpdateProduct.handler now a id b d in
    ((UpdateProduct.name b = Undefined \/ UpdateProduct.description b = Undefined
      \/ UpdateProduct.price b = Undefined \/ UpdateProduct.stock b = None
      \/ UpdateProduct.category_id b = Undefined \/ UpdateProduct.image_url b = Undefined) ->
     r = (res_error 500 "Error al actualizar producto.", d))
    /\ (UpdateProduct.name b <> Undefined -> UpdateProduct.description b <> Undefined ->
        UpdateProduct.price b <> Undefined -> UpdateProduct.stock b <> None ->
        UpdateProduct.category_id b <> Undefined -> UpdateProduct.image_url b <> Undefined ->
        select_product id d = None ->
        r = (res_json (JsonMessage "Producto actualizado exitosamente."), d)).
Proof.
  intros now a id b d admin Ha Hrole r.
  assert (Hreq : requireRole [Superuser] admin = None)
    by (unfold requireRole; rewrite Hrole; reflexivity).
  unfold r, UpdateProduct.handler, with_role. rewrite Ha, Hreq.
  unfold try_catch, bind, select, write, ret, throw, UpdateProduct.not_null.
  split.
  - intros H.
    destruct (UpdateProduct.name b) as [| |n]; [reflexivity| |];
      (destruct (UpdateProduct.description b) as [| |ds]; [reflexivity| |]);
      (destruct (UpdateProduct.price b) as [| |p]; [reflexivity| |]);
      (destruct (UpdateProduct.stock b) as [s|]; [|reflexivity]);
      (destruct (UpdateProduct.category_id b) as [| |c]; [reflexivity| |]);
      (destruct (UpdateProduct.image_url b) as [| |im]; [reflexivity| |]);
      exfalso; intuition discriminate.
  - intros H1 H2 H3 H4 H5 H6 Hs.
    destruct (UpdateProduct.name b) as [| |n]; [contradiction| |];
      (destruct (UpdateProduct.description b) as [| |ds]; [contradiction| |]);
      (destruct (UpdateProduct.price b) as [| |p]; [contradiction| |]);
      (destruct (UpdateProduct.stock b) as [s|]; [|contradiction]);
      (destruct (UpdateProduct.category_id b) as [| |c]; [contradiction| |]);
      (destruct (UpdateProduct.image_url b) as [| |im]; [contradiction| |]);
      cbn; rewrite Hs; reflexivity.
Qed.

Lemma update_product_needs_every_field_witness :
  UpdateProduct.handler 600 (Bearer 1) 1
    (UpdateProduct.mkBody Undefined Undefined (Value (12 # 1)) None Undefined Undefined true)
    shop
  = (res_error 500 "Error al actualizar producto.", shop).
Proof.
  apply (update_product_needs_every_field 600 (Bearer 1) 1 _ shop
           (ReqUser.mk 1 "admin@cashout.com" Superuser 0%Q) eq_refl eq_refl).
  left. reflexivity.
Defined.

(** ** Seeding the database *)

Lemma seed_superuser_cases (now : Z) (e : option string) (h : string) (d : db) :
  (select_superuser d <> None /\ seed_superuser now e h d = (Return tt, d))
  \/ (select_superuser d = None
      /\ forall now' h',
           seed_superuser now' e h' d
           = (Throw "UNIQUE constraint failed: users.email", d))
  \/ (exists d',
        seed_superuser now e h d = (Return tt, d')
        /\ select_superuser d' <> None
        /\ categories d' = categories d
        /\ products d' = products d
        /\ select_superuser d = None
        /\ users d' = users d ++ [User.mk (next_rowid T_users (map User.id (users d)) d)
                                    (superuser_email e) None h Superuser None 0%Q now now
                                    true]).
Proof.
  unfold seed_superuser, bind, select, ret.
  destruct (select_superuser d) as [u|] eqn:Es; [left; split; [discriminate|reflexivity]|].
  right. unfold insert_user.
  destruct (existsb _ (users d)) eqn:Ex.
  - left. split; [reflexivity|]. intros now' h'. reflexivity.
  - right. eexists. split; [reflexivity|]. split; [|repeat split; reflexivity].
    unfold select_superuser. cbn [users set_users set_sequence].
    rewrite find_app_none by exact Es. cbn. discriminate.
Qed.

Lemma seed_category_effect (now : Z) (c : SeedCategory.t) (d : db) :
  exists d',
    seed_category now c d = (Return tt, d')
    /\ users d' = users d
    /\ products d' = products d
    /\ (forall n, select_category_by_name n d <> None ->
                  select_category_by_name n d' <> None)
    /\ select_category_by_name (SeedCategory.name c) d' <> None.
Proof.
  unfold seed_category, bind, select, ret.
  destruct (select_category_by_name (SeedCategory.name c) d) as [x|] eqn:Es.
  - exists d. repeat split; auto. congruence.
  - unfold insert_category. unfold select_category_by_name in Es.
    rewrite (find_none_existsb _ _ Es). eexists. split; [reflexivity|].
    split; [reflexivity|]. split; [reflexivity|].
    unfold select_category_by_name. cbn [categories set_categories set_sequence]. split.
    + intros n Hn. unfold select_category_by_name in Hn.
      destruct (find (fun c0 => (Category.name c0 =? n)%string) (categories d))
        as [y|] eqn:Ey; [|contradiction].
      rewrite (find_app_l _ _ _ _ Ey). discriminate.
    + rewrite find_app_none by exact Es. cbn. rewrite String.eqb_refl. discriminate.
Qed.

Lemma seed_categories_effect (now : Z) (cats : list SeedCategory.t) :
  forall d, exists d',
    for_of cats (seed_category now) d = (Return tt, d')
    /\ users d' = users d
    /\ products d' = products d
    /\ (forall n, select_category_by_name n d <> None ->
                  select_category_by_name n d' <> None)
    /\ (forall c, In c cats -> select_category_by_name (SeedCategory.name c) d' <> None).
Proof.
  induction cats as [|c cats IH]; intros d.
  - exists d; repeat split; auto; intros c [].
  - destruct (seed_category_effect now c d) as (d1 & E1 & Hu1 & Hp1 & Hm1 & Hc1).
    destruct (IH d1) as (d2 & E2 & Hu2 & Hp2 & Hm2 & Hc2).
    exists d2. cbn [for_of]. unfold bind. rewrite E1, E2.
    split; [reflexivity|]. split; [congruence|]. split; [congruence|].
    split; [auto|]. intros c' [<-|Hin]; auto.
Qed.

Lemma seed_categories_noop (now : Z) (cats : list SeedCategory.t) (d : db) :
  (forall c, In c cats -> select_category_by_name (SeedCategory.name c) d <> None) ->
  for_of cats (seed_category now) d = (Return tt, d).
Proof.
  induction cats as [|c cats IH]; intros H; [reflexivity|].
  cbn [for_of]. unfold bind at 1. unfold seed_category at 1. unfold bind, select, ret.
  destruct (select_category_by_name (SeedCategory.name c) d) eqn:E.
  - apply IH. intros c' Hc'. apply H. now right.
  - exfalso. apply (H c); [now left|exact E].
Qed.

Lemma insert_samples_effect (now : Z) (samples : list SampleProduct.t) :
  forall d, exists d',
    for_of samples (insert_sample now) d = (Return tt, d')
    /\ users d' = users d
    /\ categories d' = categories d
    /\ List.length (products d') = (List.length (products d) + List.length samples)%nat.
Proof.
  induction samples as [|x samples IH]; intros d.
  - exists d. cbn. repeat split; auto.
  - cbn [for_of]. unfold bind at 1. unfold insert_sample at 1.
    unfold bind, ret, CreateProduct.insert_product.
    match goal with
    | |- context [for_of samples (insert_sample now) ?d1] =>
        destruct (IH d1) as (d2 & E2 & Hu & Hc & Hl); exists d2
    end.
    rewrite E2. split; [reflexivity|]. split; [exact Hu|]. split; [exact Hc|].
    rewrite Hl. cbn [products set_sequence set_products]. rewrite List.length_app. cbn. lia.
Qed.

Lemma seed_products_effect (now : Z) (samples : list SampleProduct.t) (d : db) :
  exists d',
    seedSampleProducts now samples d = (Return tt, d')
    /\ users d' = users d
    /\ categories d' = categories d
    /\ (products d' <> [] \/ samples = []).
Proof.
  unfold seedSampleProducts, bind, select, ret.
  destruct (0 <? Z.of_nat (List.length (products d))) eqn:E.
  - exists d. repeat split; auto. left. intros Hp. rewrite Hp in E. discriminate.
  - destruct (insert_samples_effect now samples d) as (d' & E' & Hu & Hc & Hl).
    exists d'. split; [exact E'|]. split; [exact Hu|]. split; [exact Hc|].
    destruct samples as [|x samples]; [now right|left].
    intros Hp. rewrite Hp in Hl. cbn in Hl. lia.
Qed.

Lemma seed_noop (now : Z) (e : option string) (h : string)
    (cats : list SeedCategory.t) (samples : list SampleProduct.t) (d : db) :
  seeded cats samples d -> seed now e h cats samples d = (Return tt, d).
Proof.
  intros (Hs & Hc & Hp). unfold seed. unfold bind at 1.
  unfold seed_superuser, bind at 1, select, ret.
  destruct (select_superuser d); [|contradiction].
  unfold bind. rewrite (seed_categories_noop now cats d Hc).
  unfold seedSampleProducts, bind, select, ret.
  destruct (0 <? Z.of_nat (List.length (products d))) eqn:E; [reflexivity|].
  destruct Hp as [Hp| ->]; [|reflexivity].
  destruct (products d); [contradiction|discriminate].
Qed.

Lemma seed_database_cases (now : Z) (e : option string) (h : string)
    (cats : list SeedCategory.t) (samples : list SampleProduct.t) (d : db) :
  (forall now' h', seedDatabase now' e h' cats samples d = d)
  \/ (seeded cats samples (seedDatabase now e h cats samples d)
      /\ exists us,
           users (seedDatabase now e h cats samples d) = users d ++ us
           /\ (us = []
               \/ (select_superuser d = None
                   /\ us = [User.mk (next_rowid T_users (map User.id (users d)) d)
                              (superuser_email e) None h Superuser None 0%Q now now true]))).
Proof.
  assert (Hrun : forall d1 us,
            seed_superuser now e h d = (Return tt, d1) ->
            select_superuser d1 <> None ->
            users d1 = users d ++ us ->
            seeded cats samples (seedDatabase now e h cats samples d)
            /\ users (seedDatabase now e h cats samples d) = users d ++ us).
  { intros d1 us E1 Hs1 Hu1.
    destruct (seed_categories_effect now cats d1) as (d2 & E2 & Hu2 & Hp2 & _ & Hc2).
    destruct (seed_products_effect now samples d2) as (d3 & E3 & Hu3 & Hc3 & Hp3).
    unfold seedDatabase, seed, bind. rewrite E1, E2, E3. cbn [snd].
    split; [|congruence]. split; [|split].
    - unfold select_superuser in *. now rewrite Hu3, Hu2.
    - intros c Hc. unfold select_category_by_name in *. rewrite Hc3. now apply Hc2.
    - exact Hp3. }
  destruct (seed_superuser_cases now e h d) as [[Hs E]|[[Hs E]|H]].
  - right. destruct (Hrun d [] E Hs) as [H1 H2]; [now rewrite app_nil_r|].
    split; [exact H1|]. exists []. split; [exact H2|now left].
  - left. intros now' h'. unfold seedDatabase, seed, bind. now rewrite E.
  - right. destruct H as (d1 & E1 & Hs1 & _ & _ & Hs & Hu1).
    destruct (Hrun d1 _ E1 Hs1 Hu1) as [H1 H2].
    split; [exact H1|]. eexists. split; [exact H2|]. right. split; [exact Hs|reflexivity].
Qed.

(** X23.  Starting the server again changes nothing: initializeDatabase on
    the database an earlier initializeDatabase left -- whatever the time
    and the password hash of the second start -- gives that database back.
    No second superuser, no category and no sample product is added; and
    when the first seeding stopped at the superuser's e-mail address being
    taken, the second stops there too. *)
Theorem restart_changes_nothing :
  forall (now now' : Z) (SUPERUSER_EMAIL : option string) (hashedPassword hashedPassword' : string)
         (categories : list SeedCategory.t) (sampleProducts : list SampleProduct.t)
         (file : option db),
    initializeDatabase now' SUPERUSER_EMAIL hashedPassword' categories sampleProducts
      (Some (initializeDatabase now SUPERUSER_EMAIL hashedPassword categories sampleProducts
               file))
    = initializeDatabase now SUPERUSER_EMAIL hashedPassword categories sampleProducts file.
Proof.
  intros now now' e h h' cats samples file. unfold initializeDatabase.
  set (d := match file with Some d0 => d0 | None => empty_db end).
  destruct (seed_database_cases now e h cats samples d) as [H|[H _]].
  - now rewrite (H now h), (H now' h').
  - unfold seedDatabase at 1. now rewrite (seed_noop now' e h' cats samples _ H).
Qed.

(** X24.  Seeding keeps every user row as it is and adds at most one: the
    superuser, active, with earnings 0 and the configured e-mail address
    (admin@cashout.com when none is configured), and only to a database
    that has no superuser. *)
Theorem seeding_adds_at_most_the_superuser :
  forall (now : Z) (SUPERUSER_EMAIL : option string) (hashedPassword : string)
         (categories : list SeedCategory.t) (sampleProducts : list SampleProduct.t) (d : db),
    exists us,
      users (seedDatabase now SUPERUSER_EMAIL hashedPassword categories sampleProducts d)
      = users d ++ us
      /\ (us = []
          \/ (select_superuser d = None
              /\ us = [User.mk (next_rowid T_users (map User.id (users d)) d)
                         (superuser_email SUPERUSER_EMAIL) None hashedPassword Superuser
                         None 0%Q now now true])).
Proof.
  intros now e h cats samples d.
  destruct (seed_database_cases now e h cats samples d) as [H|[_ H]]; [|exact H].
  exists []. rewrite (H now h), app_nil_r. split; [reflexivity|now left].
Qed.

(** ** What the payment routes leave alone *)

(** X25.  POST /payments/webhook never verifies a payment: whatever the
    notification, users, products, order items, transactions and the
    earnings ledger are as before, and every order row is as before or has
    become processing.  The answer is 200 only when nothing at all was
    written. *)
Theorem webhook_only_moves_orders_to_processing :
  forall (rowid_of_text : string -> option Z) (now : Z) (req : webhook_request) (d : db),
    let r := webhook rowid_of_text now req d in
    users (snd r) = users d
    /\ products (snd r) = products d
    /\ order_items (snd r) = order_items d
    /\ transactions (snd r) = transactions d
    /\ seller_earnings (snd r) = seller_earnings d
    /\ Forall2 (fun o o' => o' = o \/ o' = Order_with_status Processing now o)
         (orders d) (orders (snd r))
    /\ (status (fst r) = 200 -> snd r = d).
Proof.
  intros f now req d r.
  assert (Hrefl : Forall2 (fun o o' => o' = o \/ o' = Order_with_status Processing now o)
                    (orders d) (orders d)).
  { rewrite <- (map_id (orders d)) at 2. apply Forall2_map_r. now left. }
  destruct (webhook_effect f now req d) as [E|H].
  - fold r in E. rewrite E. repeat split; auto.
  - destruct H as (p & dt & tradeNo & orderId & _ & _ & _ & _ & _ & E).
    fold r in E. rewrite E. cbn [fst snd status]. unfold process_order.
    destruct (f orderId) as [id|]; [|repeat split; auto; discriminate].
    unfold update_order. cbn [users products order_items transactions seller_earnings orders
                              set_orders].
    repeat split; try discriminate.
    apply Forall2_map_r. intros o. destruct (Order.id o =? id); [now right|now left].
Qed.

(** X26.  POST /payments/create never looks at the amount beyond asking for
    one: two requests for the same order that differ only in their
    (non-zero) amounts get the same answer and leave the same store, so the
    amount is not compared with the order's total. *)
Theorem create_payment_ignores_amount :
  forall (now timestamp : Z) (BINANCE_SECRET_KEY : option string) (a : authorization)
         (b b' : CreatePayment.body) (d : db),
    CreatePayment.order_id b' = CreatePayment.order_id b ->
    truthy_real (CreatePayment.amount b) = true ->
    truthy_real (CreatePayment.amount b') = true ->
    CreatePayment.handler now timestamp BINANCE_SECRET_KEY a b' d
    = CreatePayment.handler now timestamp BINANCE_SECRET_KEY a b d.
Proof.
  intros now ts key a b b' d Ho Ht Ht'. unfold CreatePayment.handler, with_user.
  destruct (authenticateToken a d) as [r0|user]; [reflexivity|].
  unfold try_catch. rewrite Ho.
  destruct (CreatePayment.order_id b) as [oid|]; [|reflexivity].
  destruct (CreatePayment.amount b) as [amt|]; [|discriminate].
  destruct (CreatePayment.amount b') as [amt'|]; [|discriminate].
  rewrite Ht, Ht'. reflexivity.
Qed.

Lemma create_payment_ignores_amount_witness :
  CreatePayment.handler 700 1700000000000 (Some "key") (Bearer 2)
    (CreatePayment.mkBody (Some 1) (Some (1 # 100))) shop_with_order
  = CreatePayment.handler 700 1700000000000 (Some "key") (Bearer 2)
      (CreatePayment.mkBody (Some 1) (Some (10 # 1))) shop_with_order.
Proof.
  apply create_payment_ignores_amount; reflexivity.
Defined.
